(** * Weather dashboard utilities: storage-utils.js and chart-utils.js

    A shallow embedding of the two browser-side modules of the repository
    and the proofs of their specified properties.

    - [JS]: the fragment of JavaScript data the modules handle: strings,
      JSON-shaped values, exceptions.
    - [JSON]: [JSON.stringify] and [JSON.parse] on that fragment.
    - [StorageUtils]: src/storage-utils.js over a model of [localStorage],
      the console and the clock.
    - [ChartUtils]: src/chart-utils.js over a model of the document, the
      Chart.js engine and the console.

    Definitions come first, the theorems follow. *)

From Stdlib Require Import ZArith NArith List String Ascii Bool Lia.
From stdpp Require Import gmap strings list.

Local Open Scope string_scope.
Local Open Scope list_scope.

(* ===================================================================== *)
(** * JavaScript data *)
(* ===================================================================== *)

Module JS.

(** A JavaScript string is a sequence of UTF-16 code units.  The model keeps
    the strings whose code units are all below 256 (Latin-1) and writes them
    as Rocq strings, one [ascii] per code unit.  On that range
    [String.prototype.toLowerCase] maps A-Z and the accented capitals
    U+00C0-U+00DE (without the multiplication sign U+00D7) 32 places up and
    leaves every other code unit alone; the result has the same length. *)

Definition lower_char (c : ascii) : ascii :=
  let n := N_of_ascii c in
  if ((65 <=? n) && (n <=? 90))%N
     || ((192 <=? n) && (n <=? 222) && negb (n =? 215))%N
  then ascii_of_N (n + 32) else c.

Fixpoint toLowerCase (s : string) : string :=
  match s with
  | EmptyString => EmptyString
  | String c r => String (lower_char c) (toLowerCase r)
  end.

(** [new Blob([s]).size]: the length of the UTF-8 encoding of [s].  A code
    unit below 128 takes one byte, the others of the range take two. *)

Fixpoint utf8_length (s : string) : Z :=
  match s with
  | EmptyString => 0
  | String c r => (if (N_of_ascii c <? 128)%N then 1 else 2) + utf8_length r
  end.

(** Numbers.  The program never computes with a stored number (coordinates
    are copied), it only produces byte counts.  A number is kept as a decimal
    [num_m / 10^num_e]; the canonical form has no trailing zero in the
    fraction. *)

Record number := Dec { num_m : Z; num_e : nat }.

Definition number_of_Z (n : Z) : number := Dec n 0.

(** The canonical form of a decimal: trailing zeros of the fraction are
    dropped, so that a number has one representation. *)

Fixpoint strip_zeros (m : Z) (e : nat) : number :=
  match e with
  | O => Dec m 0
  | S e' => if (m mod 10 =? 0)%Z then strip_zeros (m / 10) e' else Dec m e
  end.

Definition normalize (n : number) : number := strip_zeros (num_m n) (num_e n).

(** Values: what [JSON.parse] can produce, and [undefined], which reading a
    missing property produces.  An object keeps its properties in insertion
    order. *)

#[local] Unset Elimination Schemes.

Inductive value :=
| VUndefined
| VNull
| VBool (b : bool)
| VNum (n : number)
| VStr (s : string)
| VArr (items : list value)
| VObj (props : list (string * value)).

#[local] Set Elimination Schemes.

(** Exceptions, by kind. *)

Inductive exn :=
| TypeError
| SyntaxError
| DOMException (name : string).

(** The outcome of evaluating an expression or a call. *)

Inductive completion (A : Type) :=
| Return (a : A)
| Throw (e : exn).

Arguments Return {A} a.
Arguments Throw {A} e.

Definition cbind {A B} (c : completion A) (k : A -> completion B) : completion B :=
  match c with
  | Return a => k a
  | Throw e => Throw e
  end.

(** [v.toLowerCase()]: only a string has the method; on [null] and
    [undefined] the property read throws, on the other values the call of
    [undefined] throws. *)

Definition call_toLowerCase (v : value) : completion value :=
  match v with
  | VStr s => Return (VStr (toLowerCase s))
  | _ => Throw TypeError
  end.

(** Property lookup in an object: the first property of that name. *)

Fixpoint assoc (k : string) (props : list (string * value)) : option value :=
  match props with
  | [] => None
  | (k', v) :: r => if String.eqb k k' then Some v else assoc k r
  end.

(** [v.k] for the property names the modules read ([name], [country], [lat],
    [lon], [date], [maxTemp], [minTemp], [avgTemp], [humidity],
    [precipitation], [windSpeed]): none of them is a built-in property of a
    string, a number, a boolean or an array, so only an object can have
    it. *)

Definition get (v : value) (k : string) : completion value :=
  match v with
  | VUndefined | VNull => Throw TypeError
  | VObj props => Return (default VUndefined (assoc k props))
  | _ => Return VUndefined
  end.

(** [a === b].  The modules compare strings only; on the primitives [===]
    is equality, on arrays and objects it is identity, which the model has
    no use for: two values read from the store are never the same object. *)

Definition number_eqb (a b : number) : bool :=
  let a' := normalize a in
  let b' := normalize b in
  (num_m a' =? num_m b')%Z && (num_e a' =? num_e b')%nat.

Definition strict_equal (a b : value) : bool :=
  match a, b with
  | VUndefined, VUndefined => true
  | VNull, VNull => true
  | VBool x, VBool y => Bool.eqb x y
  | VNum x, VNum y => number_eqb x y
  | VStr x, VStr y => String.eqb x y
  | _, _ => false
  end.

(** [ToBoolean]. *)

Definition truthy_string (s : string) : bool := negb (String.eqb s "").

Definition truthy (v : value) : bool :=
  match v with
  | VUndefined | VNull => false
  | VBool b => b
  | VNum n => negb (num_m n =? 0)%Z
  | VStr s => truthy_string s
  | VArr _ | VObj _ => true
  end.

(** [arr.filter(f)], [arr.some(f)] for a callback that may throw.  Both visit
    the elements in order; [some] stops at the first hit. *)

Fixpoint filterM (f : value -> completion bool) (l : list value)
  : completion (list value) :=
  match l with
  | [] => Return []
  | x :: r =>
      cbind (f x) (fun keep =>
      cbind (filterM f r) (fun r' =>
      Return (if keep then x :: r' else r')))
  end.

Fixpoint someM (f : value -> completion bool) (l : list value)
  : completion bool :=
  match l with
  | [] => Return false
  | x :: r => cbind (f x) (fun hit => if hit then Return true else someM f r)
  end.

Fixpoint mapM (f : value -> completion value) (l : list value)
  : completion (list value) :=
  match l with
  | [] => Return []
  | x :: r =>
      cbind (f x) (fun y => cbind (mapM f r) (fun r' => Return (y :: r')))
  end.

(** Method calls on a value that should be an array. *)

Definition call_map (v : value) (f : value -> completion value)
  : completion (list value) :=
  match v with
  | VArr l => mapM f l
  | _ => Throw TypeError
  end.

Definition call_filter (v : value) (f : value -> completion bool)
  : completion (list value) :=
  match v with
  | VArr l => filterM f l
  | _ => Throw TypeError
  end.

Definition call_some (v : value) (f : value -> completion bool)
  : completion bool :=
  match v with
  | VArr l => someM f l
  | _ => Throw TypeError
  end.

(** [[...v]] in an array literal: the elements of an array.  A string
    spreads into its characters; the other values are not iterable. *)

Fixpoint chars (s : string) : list value :=
  match s with
  | EmptyString => []
  | String c r => VStr (String c EmptyString) :: chars r
  end.

Definition spread (v : value) : completion (list value) :=
  match v with
  | VArr l => Return l
  | VStr s => Return (chars s)
  | _ => Throw TypeError
  end.

(** [arr.slice(0, n)]. *)

Definition slice0 (n : nat) (l : list value) : list value := firstn n l.

End JS.

(* ===================================================================== *)
(** * JSON.stringify and JSON.parse *)
(* ===================================================================== *)

Module JSON.
Import JS.

Local Open Scope N_scope.
Local Open Scope list_scope.

(** [JSON.parse] and [JSON.stringify] on the values of [JS], over the
    characters of a text.  The limits of the model: an escape [\uXXXX] of a
    code unit from 256 on is refused, as the strings of the model end at
    255; a number is the decimal its literal denotes, where JavaScript takes
    the nearest double and prints magnitudes below 1e-6 or from 1e21 on with
    an exponent, so that the two agree on decimals of up to 15 significant
    digits in between; the properties of an object keep the order of the
    text, where JavaScript moves keys that are array indices to the
    front. *)

Abbreviation text := (list ascii).

Definition chr (n : N) : ascii := ascii_of_N n.
Definition code (c : ascii) : N := N_of_ascii c.
Definition at_code (c : ascii) (n : N) : bool := code c =? n.

(** Character codes of the JSON punctuation. *)
Definition c_quote : N := 34.     (* the double quote *)
Definition c_backslash : N := 92.
Definition c_comma : N := 44.
Definition c_colon : N := 58.
Definition c_lbracket : N := 91.
Definition c_rbracket : N := 93.
Definition c_lbrace : N := 123.
Definition c_rbrace : N := 125.
Definition c_minus : N := 45.
Definition c_plus : N := 43.
Definition c_dot : N := 46.

Definition lit (s : string) : text := list_ascii_of_string s.

(** ** Numbers *)

Definition digit_char (d : N) : ascii := chr (48 + d).

(** The [e] decimal digits of [r < 10^e], most significant first. *)
Fixpoint frac_digits (e : nat) (r : N) : text :=
  match e with
  | O => []
  | S e' => digit_char (r / 10 ^ N.of_nat e') :: frac_digits e' (r mod 10 ^ N.of_nat e')
  end.

(** The number of decimal digits of [n] (1 for 0). *)
Fixpoint count_digits (fuel : nat) (n : N) : nat :=
  match fuel with
  | O => 1
  | S f => if n <? 10 then 1%nat else S (count_digits f (n / 10))
  end.

Definition int_digits (n : N) : text :=
  frac_digits (count_digits (S (N.to_nat (N.log2 n))) n) n.

(** The text of a number: sign, integer part, and the fraction when there
    is one.  (JavaScript switches to exponent notation below 1e-6 and from
    1e21 on, and rounds to a double; the model prints the decimal as it
    is.) *)
Definition print_number (n : number) : text :=
  let n' := normalize n in
  let a := Z.abs_N (num_m n') in
  let p := 10 ^ N.of_nat (num_e n') in
  (if (num_m n' <? 0)%Z then [chr c_minus] else [])
  ++ int_digits (a / p)
  ++ match num_e n' with
     | O => []
     | S _ => chr c_dot :: frac_digits (num_e n') (a mod p)
     end.

Definition is_digit (c : ascii) : bool := (48 <=? code c) && (code c <=? 57).

Fixpoint take_digits (s : text) : list N * text :=
  match s with
  | c :: r =>
      if is_digit c
      then let '(ds, r') := take_digits r in (code c - 48 :: ds, r')
      else ([], s)
  | [] => ([], [])
  end.

Definition digits_value (ds : list N) : N :=
  fold_left (fun a d => 10 * a + d) ds 0.

(** The number denoted by sign, digits [M], [fl] of them after the point,
    and exponent [x]. *)
Definition make_number (neg : bool) (M : N) (fl : nat) (x : Z) : number :=
  let m := if neg then (- Z.of_N M)%Z else Z.of_N M in
  let E := (x - Z.of_nat fl)%Z in
  if (0 <=? E)%Z then Dec (m * 10 ^ E)%Z 0 else strip_zeros m (Z.to_nat (- E)).

(** The JSON number grammar: an optional minus; an integer part that is 0
    or starts with a digit from 1 to 9; an optional point with at least one
    digit; an optional exponent e or E with optional sign and at least one
    digit. *)
Definition parse_number (s : text) : option (number * text) :=
  let '(neg, s1) :=
    match s with
    | c :: r => if at_code c c_minus then (true, r) else (false, s)
    | [] => (false, s)
    end in
  let '(ip, s2) := take_digits s1 in
  match ip with
  | [] => None
  | d :: ds =>
      if (d =? 0) && negb (bool_decide (ds = [])) then None else
      let frac :=
        match s2 with
        | c :: r =>
            if at_code c c_dot
            then let '(fp, r') := take_digits r in
                 match fp with [] => None | _ => Some (fp, r') end
            else Some ([], s2)
        | [] => Some ([], s2)
        end in
      match frac with
      | None => None
      | Some (fp, s3) =>
          let M := digits_value (ip ++ fp) in
          match s3 with
          | c :: r =>
              if at_code c 101 || at_code c 69 then
                let '(xneg, r1) :=
                  match r with
                  | c' :: r' =>
                      if at_code c' c_minus then (true, r')
                      else if at_code c' c_plus then (false, r')
                      else (false, r)
                  | [] => (false, r)
                  end in
                let '(xp, r2) := take_digits r1 in
                match xp with
                | [] => None
                | _ =>
                    let x := Z.of_N (digits_value xp) in
                    Some (make_number neg M (length fp) (if xneg then - x else x)%Z, r2)
                end
              else Some (make_number neg M (length fp) 0, s3)
          | [] => Some (make_number neg M (length fp) 0, s3)
          end
      end
  end.

(** ** Strings *)

Definition hex_char (d : N) : ascii := if d <? 10 then chr (48 + d) else chr (87 + d).

(** QuoteJSONString on one code unit. *)
Definition quote_char (c : ascii) : text :=
  let n := code c in
  if n =? c_quote then [chr c_backslash; chr c_quote]
  else if n =? c_backslash then [chr c_backslash; chr c_backslash]
  else if n =? 8 then [chr c_backslash; chr 98]      (* \b *)
  else if n =? 9 then [chr c_backslash; chr 116]     (* \t *)
  else if n =? 10 then [chr c_backslash; chr 110]    (* \n *)
  else if n =? 12 then [chr c_backslash; chr 102]    (* \f *)
  else if n =? 13 then [chr c_backslash; chr 114]    (* \r *)
  else if n <? 32 then
    [chr c_backslash; chr 117; chr 48; chr 48; hex_char (n / 16); hex_char (n mod 16)]
  else [c].

Fixpoint quote_chars (s : string) : text :=
  match s with
  | EmptyString => []
  | String c r => quote_char c ++ quote_chars r
  end.

Definition quote (s : string) : text :=
  chr c_quote :: quote_chars s ++ [chr c_quote].

Definition hex_val (c : ascii) : option N :=
  let n := code c in
  if (48 <=? n) && (n <=? 57) then Some (n - 48)
  else if (97 <=? n) && (n <=? 102) then Some (n - 87)
  else if (65 <=? n) && (n <=? 70) then Some (n - 55)
  else None.

Definition hex4 (a b c d : ascii) : option N :=
  match hex_val a, hex_val b, hex_val c, hex_val d with
  | Some x, Some y, Some z, Some w => Some (((x * 16 + y) * 16 + z) * 16 + w)
  | _, _, _, _ => None
  end.

(** The character an escape letter stands for. *)
Definition unescape (e : ascii) : option ascii :=
  let n := code e in
  if n =? c_quote then Some (chr c_quote)
  else if n =? c_backslash then Some (chr c_backslash)
  else if n =? 47 then Some (chr 47)
  else if n =? 98 then Some (chr 8)
  else if n =? 102 then Some (chr 12)
  else if n =? 110 then Some (chr 10)
  else if n =? 114 then Some (chr 13)
  else if n =? 116 then Some (chr 9)
  else None.

Definition push (c : ascii) (r : option (string * text)) : option (string * text) :=
  match r with
  | Some (s, rest) => Some (String c s, rest)
  | None => None
  end.

(** The characters of a string literal after its opening quote, up to and
    including the closing quote.  An escape [\uXXXX] of a code unit from 256
    on leaves the modelled range and is refused. *)
Fixpoint parse_string_body (s : text) : option (string * text) :=
  match s with
  | [] => None
  | c :: r =>
      if at_code c c_quote then Some (EmptyString, r)
      else if at_code c c_backslash then
        match r with
        | [] => None
        | e :: r' =>
            if at_code e 117 then
              match r' with
              | h1 :: h2 :: h3 :: h4 :: r'' =>
                  match hex4 h1 h2 h3 h4 with
                  | Some n => if n <? 256 then push (chr n) (parse_string_body r'') else None
                  | None => None
                  end
              | _ => None
              end
            else
              match unescape e with
              | Some ch => push ch (parse_string_body r')
              | None => None
              end
        end
      else if code c <? 32 then None
      else push c (parse_string_body r)
  end.

(** ** Values *)

Definition is_ws (c : ascii) : bool :=
  at_code c 32 || at_code c 9 || at_code c 10 || at_code c 13.

Fixpoint skip_ws (s : text) : text :=
  match s with
  | c :: r => if is_ws c then skip_ws r else s
  | [] => []
  end.

Fixpoint strip_prefix (p s : text) : option text :=
  match p, s with
  | [], _ => Some s
  | a :: p', b :: s' => if Ascii.eqb a b then strip_prefix p' s' else None
  | _ :: _, [] => None
  end.

(** Defining a property: an existing one of that name keeps its place and
    takes the new value, a new one goes to the end. *)
Fixpoint obj_set (props : list (string * value)) (k : string) (v : value)
  : list (string * value) :=
  match props with
  | [] => [(k, v)]
  | (k', v') :: r =>
      if String.eqb k k' then (k, v) :: r else (k', v') :: obj_set r k v
  end.

Fixpoint parse_value (fuel : nat) (s : text) : option (value * text) :=
  match fuel with
  | O => None
  | S fuel' =>
      match skip_ws s with
      | [] => None
      | c :: r =>
          if at_code c 110 then                       (* null *)
            match strip_prefix (lit "ull") r with
            | Some r' => Some (VNull, r') | None => None end
          else if at_code c 116 then                  (* true *)
            match strip_prefix (lit "rue") r with
            | Some r' => Some (VBool true, r') | None => None end
          else if at_code c 102 then                  (* false *)
            match strip_prefix (lit "alse") r with
            | Some r' => Some (VBool false, r') | None => None end
          else if at_code c c_quote then
            match parse_string_body r with
            | Some (str, r') => Some (VStr str, r') | None => None end
          else if at_code c c_lbracket then
            match skip_ws r with
            | c' :: r' =>
                if at_code c' c_rbracket then Some (VArr [], r')
                else parse_elements fuel' r []
            | [] => None
            end
          else if at_code c c_lbrace then
            match skip_ws r with
            | c' :: r' =>
                if at_code c' c_rbrace then Some (VObj [], r')
                else parse_members fuel' r []
            | [] => None
            end
          else
            match parse_number (c :: r) with
            | Some (n, r') => Some (VNum n, r') | None => None end
      end
  end

with parse_elements (fuel : nat) (s : text) (acc : list value)
  : option (value * text) :=
  match fuel with
  | O => None
  | S fuel' =>
      match parse_value fuel' s with
      | None => None
      | Some (v, r) =>
          match skip_ws r with
          | c :: r' =>
              if at_code c c_comma then parse_elements fuel' r' (v :: acc)
              else if at_code c c_rbracket then Some (VArr (rev (v :: acc)), r')
              else None
          | [] => None
          end
      end
  end

with parse_members (fuel : nat) (s : text) (acc : list (string * value))
  : option (value * text) :=
  match fuel with
  | O => None
  | S fuel' =>
      match skip_ws s with
      | c :: r =>
          if at_code c c_quote then
            match parse_string_body r with
            | None => None
            | Some (k, r1) =>
                match skip_ws r1 with
                | c1 :: r2 =>
                    if at_code c1 c_colon then
                      match parse_value fuel' r2 with
                      | None => None
                      | Some (v, r3) =>
                          match skip_ws r3 with
                          | c3 :: r4 =>
                              if at_code c3 c_comma
                              then parse_members fuel' r4 (obj_set acc k v)
                              else if at_code c3 c_rbrace
                              then Some (VObj (obj_set acc k v), r4)
                              else None
                          | [] => None
                          end
                      end
                    else None
                | [] => None
                end
            end
          else None
      | [] => None
      end
  end.

(** [JSON.parse(s)]: one value, white space around it, nothing else; a
    [SyntaxError] otherwise. *)
Definition parse (s : string) : completion value :=
  let t := lit s in
  match parse_value (S (length t)) t with
  | Some (v, r) =>
      match skip_ws r with
      | [] => Return v
      | _ :: _ => Throw SyntaxError
      end
  | None => Throw SyntaxError
  end.

(** [JSON.stringify(v)]: no white space; [undefined] has no text: it is
    [null] as an element of an array, and a property holding it is left
    out.  At the top the result is then [undefined] ([None]). *)

Fixpoint join (sep : text) (parts : list text) : text :=
  match parts with
  | [] => []
  | [p] => p
  | p :: r => p ++ sep ++ join sep r
  end.

Fixpoint stringify_value (v : value) : option text :=
  match v with
  | VUndefined => None
  | VNull => Some (lit "null")
  | VBool true => Some (lit "true")
  | VBool false => Some (lit "false")
  | VNum n => Some (print_number n)
  | VStr s => Some (quote s)
  | VArr l =>
      let elems :=
        (fix go (l : list value) : list text :=
           match l with
           | [] => []
           | x :: r => default (lit "null") (stringify_value x) :: go r
           end) l in
      Some (chr c_lbracket :: join [chr c_comma] elems ++ [chr c_rbracket])
  | VObj props =>
      let members :=
        (fix go (l : list (string * value)) : list text :=
           match l with
           | [] => []
           | (k, x) :: r =>
               match stringify_value x with
               | Some t => (quote k ++ chr c_colon :: t) :: go r
               | None => go r
               end
           end) props in
      Some (chr c_lbrace :: join [chr c_comma] members ++ [chr c_rbrace])
  end.

Definition stringify (v : value) : option string :=
  option_map string_of_list_ascii (stringify_value v).

End JSON.

(* ===================================================================== *)
(** * Calls that read and change the browser's state *)
(* ===================================================================== *)

Module Eff.
Import JS.

(** A call runs on a state [S] of the environment, returns or throws, and
    leaves a state. *)
Definition M (S A : Type) : Type := S -> completion A * S.

Definition ret {S A} (a : A) : M S A := fun w => (Return a, w).

Definition bind {S A B} (m : M S A) (k : A -> M S B) : M S B :=
  fun w =>
    match m w with
    | (Return a, w') => k a w'
    | (Throw e, w') => (Throw e, w')
    end.

(** An expression without effect on the state. *)
Definition lift {S A} (c : completion A) : M S A := fun w => (c, w).

(** [try { body } catch (error) { handler }]. *)
Definition try_catch {S A} (body : M S A) (handler : exn -> M S A) : M S A :=
  fun w =>
    match body w with
    | (Return a, w') => (Return a, w')
    | (Throw e, w') => handler e w'
    end.

(** [l.forEach(f)]. *)
Fixpoint forEach {S A} (f : A -> M S unit) (l : list A) : M S unit :=
  match l with
  | [] => ret tt
  | x :: r => bind (f x) (fun _ => forEach f r)
  end.

(** The diagnostic sink: what [console.error] and [console.warn] were
    given. *)
Inductive level := LError | LWarn.

Record diagnostic := Diag {
  d_level : level;
  d_message : string;
  d_error : option exn
}.

End Eff.

Declare Scope eff_scope.
Delimit Scope eff_scope with eff.
Notation "'let!' x ':=' m 'in' k" :=
  (Eff.bind m (fun x => k))
  (at level 10, x pattern, m at level 100, k at level 200) : eff_scope.

(* ===================================================================== *)
(** * src/storage-utils.js *)
(* ===================================================================== *)

Module StorageUtils.
Import JS Eff.
Local Open Scope eff_scope.

(** ** The environment

    [localStorage] is a string-keyed store of strings.  Access to it can be
    denied altogether (every call throws a [SecurityError]), and a write can
    be refused for lack of room (a [QuotaExceededError]); whether a value
    fits is up to the browser and may depend on what is stored. *)

Record World := {
  ls_items : gmap string string;
  ls_denied : bool;
  ls_fits : gmap string string -> string -> string -> bool;
  console : list diagnostic;   (* oldest first *)
  clock : string               (* what new Date().toISOString() gives *)
}.

Definition set_items (w : World) (m : gmap string string) : World :=
  {| ls_items := m; ls_denied := ls_denied w; ls_fits := ls_fits w;
     console := console w; clock := clock w |}.

Definition set_console (w : World) (c : list diagnostic) : World :=
  {| ls_items := ls_items w; ls_denied := ls_denied w; ls_fits := ls_fits w;
     console := c; clock := clock w |}.

Definition localStorage_getItem (key : string) : M World (option string) :=
  fun w =>
    if ls_denied w then (Throw (DOMException "SecurityError"), w)
    else (Return (ls_items w !! key), w).

Definition localStorage_setItem (key data : string) : M World unit :=
  fun w =>
    if ls_denied w then (Throw (DOMException "SecurityError"), w)
    else if ls_fits w (ls_items w) key data
    then (Return tt, set_items w (<[key := data]> (ls_items w)))
    else (Throw (DOMException "QuotaExceededError"), w).

Definition localStorage_removeItem (key : string) : M World unit :=
  fun w =>
    if ls_denied w then (Throw (DOMException "SecurityError"), w)
    else (Return tt, set_items w (delete key (ls_items w))).

Definition console_error (message : string) (error : exn) : M World unit :=
  fun w => (Return tt, set_console w (console w ++ [Diag LError message (Some error)])).

Definition Date_now_toISOString : M World string :=
  fun w => (Return (clock w), w).

(** A parameter declared [p = d] takes [d] when the argument is left out or
    is [undefined]. *)
Definition param_default (d arg : value) : value :=
  match arg with
  | VUndefined => d
  | _ => arg
  end.

(** The argument of [localStorage.setItem] is converted to a string;
    [JSON.stringify] gives [undefined] on [undefined]. *)
Definition to_data (t : option string) : string := default "undefined" t.

(** ** The module *)

Definition KEYS_SEARCH_HISTORY : string := "weather_search_history".
Definition KEYS_FAVORITES : string := "weather_favorites".
Definition KEYS_THEME : string := "weather_theme".
Definition KEYS_UNIT : string := "weather_unit".

(** [Object.entries(this.KEYS)], in the order of the declaration. *)
Definition KEYS : list (string * string) :=
  [ ("SEARCH_HISTORY", KEYS_SEARCH_HISTORY);
    ("FAVORITES", KEYS_FAVORITES);
    ("THEME", KEYS_THEME);
    ("UNIT", KEYS_UNIT) ].

Definition getItem (key : string) (defaultValue : value) : M World value :=
  let defaultValue := param_default VNull defaultValue in
  try_catch
    (let! item := localStorage_getItem key in
     match item with
     | Some data =>
         if truthy_string data then lift (JSON.parse data) else ret defaultValue
     | None => ret defaultValue
     end)
    (fun error =>
       let! _ := console_error ("Error reading " +:+ key +:+ " from localStorage:") error in
       ret defaultValue).

Definition setItem (key : string) (v : value) : M World bool :=
  try_catch
    (let! _ := localStorage_setItem key (to_data (JSON.stringify v)) in
     ret true)
    (fun error =>
       let! _ := console_error ("Error writing " +:+ key +:+ " to localStorage:") error in
       ret false).

Definition getSearchHistory : M World value :=
  getItem KEYS_SEARCH_HISTORY (VArr []).

(** [a.toLowerCase() === b.toLowerCase()], and the same with [!==]. *)
Definition lower_equal (a b : value) : completion bool :=
  cbind (call_toLowerCase a) (fun x =>
  cbind (call_toLowerCase b) (fun y =>
  Return (strict_equal x y))).

Definition lower_differ (a b : value) : completion bool :=
  cbind (lower_equal a b) (fun e => Return (negb e)).

Definition addToSearchHistory (city : value) : M World value :=
  let! history := getSearchHistory in
  let! others := lift (call_filter history (fun item => lower_differ item city)) in
  let updatedHistory := slice0 10 (city :: others) in
  let! _ := setItem KEYS_SEARCH_HISTORY (VArr updatedHistory) in
  ret (VArr updatedHistory).

Definition clearSearchHistory : M World value :=
  let! _ := setItem KEYS_SEARCH_HISTORY (VArr []) in
  ret VUndefined.

Definition getFavorites : M World value :=
  getItem KEYS_FAVORITES (VArr []).

(** [fav.name.toLowerCase() === other.toLowerCase()], the name read first. *)
Definition name_matches (fav other : completion value) : completion bool :=
  cbind fav (fun n => cbind (call_toLowerCase n) (fun x =>
  cbind other (fun o => cbind (call_toLowerCase o) (fun y =>
  Return (strict_equal x y))))).

Definition addToFavorites (location : value) : M World value :=
  let! favorites := getFavorites in
  let! exists_ :=
    lift (call_some favorites (fun fav =>
            name_matches (get fav "name") (get location "name"))) in
  if negb exists_ then
    let! items := lift (spread favorites) in
    let! name := lift (get location "name") in
    let! country := lift (get location "country") in
    let! lat := lift (get location "lat") in
    let! lon := lift (get location "lon") in
    let! addedAt := Date_now_toISOString in
    let updatedFavorites :=
      items ++ [VObj [ ("name", name); ("country", country); ("lat", lat);
                       ("lon", lon); ("addedAt", VStr addedAt) ]] in
    let! _ := setItem KEYS_FAVORITES (VArr updatedFavorites) in
    ret (VObj [("success", VBool true); ("favorites", VArr updatedFavorites)])
  else
    ret (VObj [("success", VBool false);
               ("message", VStr "Location already in favorites")]).

Definition removeFromFavorites (locationName : value) : M World value :=
  let! favorites := getFavorites in
  let! updatedFavorites :=
    lift (call_filter favorites (fun fav =>
            cbind (name_matches (get fav "name") (Return locationName))
                  (fun e => Return (negb e)))) in
  let! _ := setItem KEYS_FAVORITES (VArr updatedFavorites) in
  ret (VArr updatedFavorites).

Definition isFavorite (locationName : value) : M World bool :=
  let! favorites := getFavorites in
  lift (call_some favorites (fun fav =>
          name_matches (get fav "name") (Return locationName))).

Definition getTheme : M World value := getItem KEYS_THEME (VStr "light").

Definition setTheme (theme : value) : M World value :=
  let! _ := setItem KEYS_THEME theme in
  ret VUndefined.

Definition getUnit : M World value := getItem KEYS_UNIT (VStr "celsius").

Definition setUnit (unit_ : value) : M World value :=
  let! _ := setItem KEYS_UNIT unit_ in
  ret VUndefined.

Definition clearAll : M World value :=
  let! _ := forEach (fun entry => localStorage_removeItem (snd entry)) KEYS in
  ret VUndefined.

(** [(size / 1024).toFixed(2)].  A byte count divided by 1024 is exact in
    binary floating point, and [toFixed] takes the integer [n] with [n/100]
    nearest to it, the larger one on a tie. *)
Definition toFixed2_kib (size : Z) : string :=
  let n := Z.to_N ((200 * size + 1024) / 2048) in
  string_of_list_ascii
    (JSON.int_digits (n / 100) ++ JSON.chr JSON.c_dot :: JSON.frac_digits 2 (n mod 100)).

Definition stat_entry (size : Z) : value :=
  VObj [("size", VNum (number_of_Z size)); ("sizeKB", VStr (toFixed2_kib size))].

(** The loop of [getStorageStats] carries [totalSize] and [stats]. *)
Fixpoint stats_loop (entries : list (string * string))
    (totalSize : Z) (stats : list (string * value))
  : M World (Z * list (string * value)) :=
  match entries with
  | [] => ret (totalSize, stats)
  | (name, key) :: rest =>
      let! item := localStorage_getItem key in
      let size :=
        match item with
        | Some data => if truthy_string data then utf8_length data else 0%Z
        | None => 0%Z
        end in
      stats_loop rest (totalSize + size)%Z (JSON.obj_set stats name (stat_entry size))
  end.

Definition getStorageStats : M World value :=
  let! result := stats_loop KEYS 0%Z [] in
  let totalSize := fst result in
  let stats := snd result in
  ret (VObj [ ("individual", VObj stats);
              ("total", VNum (number_of_Z totalSize));
              ("totalKB", VStr (toFixed2_kib totalSize)) ]).

End StorageUtils.

(* ===================================================================== *)
(** * src/chart-utils.js *)
(* ===================================================================== *)

Module ChartUtils.
Import JS Eff.
Local Open Scope eff_scope.

(** ** The environment

    The document maps an identifier to the element of that id.  The Chart.js
    engine is external: [new Chart] yields a new chart object, which the
    model keeps in a heap under a handle; [destroy()] marks it released.
    The engine's calls are recorded in order. *)

Inductive element := Canvas | OtherElement.

Record dataset := { ds_label : string; ds_data : list value }.

(** What a create call hands to the engine.  The style and layout options
    are constants chosen by [isDarkMode]; the flag stands for them. *)
Record config := {
  cfg_type : string;
  cfg_labels : list value;
  cfg_datasets : list dataset;
  cfg_dark : bool
}.

Record chart := {
  chart_canvas : string;
  chart_config : config;
  chart_data : option value;     (* what updateChart bound in place of the data *)
  chart_destroyed : bool
}.

Abbreviation handle := nat.

Inductive event :=
| Created (h : handle) (canvasId : string)
| Updated (h : handle)
| Destroyed (h : handle).

Record Page := {
  document : gmap string element;
  charts : gmap nat chart;              (* the engine's chart objects *)
  chartInstances : gmap string nat;     (* ChartUtils.chartInstances *)
  trace : list event;                   (* oldest first *)
  console : list diagnostic;            (* oldest first *)
  prototype_data : bool                 (* Object.prototype.data is truthy *)
}.

Definition set_charts (w : Page) (c : gmap nat chart) (t : list event) : Page :=
  {| document := document w; charts := c; chartInstances := chartInstances w;
     trace := t; console := console w; prototype_data := prototype_data w |}.

Definition set_chartInstances (w : Page) (r : gmap string nat) : Page :=
  {| document := document w; charts := charts w; chartInstances := r;
     trace := trace w; console := console w; prototype_data := prototype_data w |}.

Definition set_console (w : Page) (c : list diagnostic) : Page :=
  {| document := document w; charts := charts w;
     chartInstances := chartInstances w; trace := trace w; console := c;
     prototype_data := prototype_data w |}.

Definition set_prototype_data (w : Page) (b : bool) : Page :=
  {| document := document w; charts := charts w;
     chartInstances := chartInstances w; trace := trace w; console := console w;
     prototype_data := b |}.

Definition document_getElementById (id : string) : M Page (option element) :=
  fun w => (Return (document w !! id), w).

Definition console_error (message : string) : M Page unit :=
  fun w => (Return tt, set_console w (console w ++ [Diag LError message None])).

Definition console_warn (message : string) : M Page unit :=
  fun w => (Return tt, set_console w (console w ++ [Diag LWarn message None])).

(** [new Chart(ctx, config)]. *)
Definition new_Chart (canvasId : string) (cfg : config) : M Page handle :=
  fun w =>
    let h := fresh (dom (charts w)) in
    let c := {| chart_canvas := canvasId; chart_config := cfg;
                chart_data := None; chart_destroyed := false |} in
    (Return h, set_charts w (<[h := c]> (charts w)) (trace w ++ [Created h canvasId])).

Definition mark_destroyed (c : chart) : chart :=
  {| chart_canvas := chart_canvas c; chart_config := chart_config c;
     chart_data := chart_data c; chart_destroyed := true |}.

Definition bind_data (d : value) (c : chart) : chart :=
  {| chart_canvas := chart_canvas c; chart_config := chart_config c;
     chart_data := Some d; chart_destroyed := chart_destroyed c |}.

(** [chart.destroy()]. *)
Definition chart_destroy (h : handle) : M Page unit :=
  fun w => (Return tt, set_charts w (alter mark_destroyed h (charts w))
                                    (trace w ++ [Destroyed h])).

(** [chart.data = newData; chart.update('active')]. *)
Definition chart_set_data_update (h : handle) (d : value) : M Page unit :=
  fun w => (Return tt, set_charts w (alter (bind_data d) h (charts w))
                                    (trace w ++ [Updated h])).

(** [ctx.getContext('2d').createLinearGradient(...)] and its colour stops:
    only a canvas has [getContext]. *)
Definition make_gradient (ctx : element) : M Page unit :=
  match ctx with
  | Canvas => ret tt
  | OtherElement => lift (Throw TypeError)
  end.

(** ** The registry

    [chartInstances] is a plain object, so reading [chartInstances[id]]
    finds an own property first and then what [Object.prototype] provides
    under that name, which is no chart.  [Object.prototype] provides its
    standard names, all truthy.  The module can add one name to them:
    [updateChart] on the identifier [__proto__] finds [Object.prototype]
    itself and assigns its [data], which every object then inherits, the
    registry included.  Of that value a read of the registry sees whether it
    is truthy, which is what the page records; it starts out undefined. *)

Definition Object_prototype_names : list string :=
  [ "constructor"; "toString"; "toLocaleString"; "valueOf"; "hasOwnProperty";
    "isPrototypeOf"; "propertyIsEnumerable"; "__proto__";
    "__defineGetter__"; "__defineSetter__"; "__lookupGetter__";
    "__lookupSetter__" ].

(** [Object.prototype] provides a truthy value under the name. *)
Definition inherits (w : Page) (id : string) : bool :=
  bool_decide (id ∈ Object_prototype_names)
  || (String.eqb id "data" && prototype_data w).

Inductive slot :=
| Own (h : handle)
| Inherited
| Absent.

Definition read_slot (id : string) : M Page slot :=
  fun w =>
    (Return match chartInstances w !! id with
            | Some h => Own h
            | None => if inherits w id then Inherited else Absent
            end, w).

(** [this.chartInstances[canvasId] = chart]. *)
Definition write_slot (id : string) (h : handle) : M Page unit :=
  fun w => (Return tt, set_chartInstances w (<[id := h]> (chartInstances w))).

(** [delete this.chartInstances[canvasId]]. *)
Definition delete_slot (id : string) : M Page unit :=
  fun w => (Return tt, set_chartInstances w (delete id (chartInstances w))).

(** [Object.keys(this.chartInstances)]; the order of the keys is not
    modelled. *)
Definition registry_keys : M Page (list string) :=
  fun w => (Return (map fst (map_to_list (chartInstances w))), w).

(** [if (this.chartInstances[canvasId]) this.chartInstances[canvasId].destroy()] *)
Definition destroy_existing (canvasId : string) : M Page unit :=
  let! s := read_slot canvasId in
  match s with
  | Own h => chart_destroy h
  | Inherited => lift (Throw TypeError)
  | Absent => ret tt
  end.

(** ** The module *)

(** [isDarkMode = false], used as a condition. *)
Definition param_dark (isDarkMode : value) : bool :=
  truthy (match isDarkMode with VUndefined => VBool false | _ => isDarkMode end).

Definition day_field (k : string) (forecastData : value) : completion (list value) :=
  call_map forecastData (fun day => get day k).

Definition createTemperatureChart (canvasId : string) (forecastData isDarkMode : value)
  : M Page (option handle) :=
  let isDarkMode := param_dark isDarkMode in
  let! ctx := document_getElementById canvasId in
  match ctx with
  | None =>
      let! _ := console_error ("Canvas element " +:+ canvasId +:+ " not found") in
      ret None
  | Some el =>
      let! _ := destroy_existing canvasId in
      let! labels := lift (day_field "date" forecastData) in
      let! maxTemps := lift (day_field "maxTemp" forecastData) in
      let! minTemps := lift (day_field "minTemp" forecastData) in
      let! avgTemps := lift (day_field "avgTemp" forecastData) in
      let! _ := make_gradient el in
      let cfg :=
        {| cfg_type := "line";
           cfg_labels := labels;
           cfg_datasets :=
             [ {| ds_label := "Max Temperature"; ds_data := maxTemps |};
               {| ds_label := "Average Temperature"; ds_data := avgTemps |};
               {| ds_label := "Min Temperature"; ds_data := minTemps |} ];
           cfg_dark := isDarkMode |} in
      let! h := new_Chart canvasId cfg in
      let! _ := write_slot canvasId h in
      ret (Some h)        (* this.chartInstances[canvasId], just stored *)
  end.

Definition createHumidityChart (canvasId : string) (forecastData isDarkMode : value)
  : M Page (option handle) :=
  let isDarkMode := param_dark isDarkMode in
  let! ctx := document_getElementById canvasId in
  match ctx with
  | None => ret None
  | Some el =>
      let! _ := destroy_existing canvasId in
      let! labels := lift (day_field "date" forecastData) in
      let! humidity := lift (day_field "humidity" forecastData) in
      let! precipitation :=
        lift (call_map forecastData (fun day =>
                cbind (get day "precipitation") (fun p =>
                Return (if truthy p then p else VNum (number_of_Z 0))))) in
      let cfg :=
        {| cfg_type := "bar";
           cfg_labels := labels;
           cfg_datasets :=
             [ {| ds_label := "Humidity (%)"; ds_data := humidity |};
               {| ds_label := "Precipitation (mm)"; ds_data := precipitation |} ];
           cfg_dark := isDarkMode |} in
      let! h := new_Chart canvasId cfg in
      let! _ := write_slot canvasId h in
      ret (Some h)
  end.

Definition createWindChart (canvasId : string) (forecastData isDarkMode : value)
  : M Page (option handle) :=
  let isDarkMode := param_dark isDarkMode in
  let! ctx := document_getElementById canvasId in
  match ctx with
  | None => ret None
  | Some el =>
      let! _ := destroy_existing canvasId in
      let! labels := lift (day_field "date" forecastData) in
      let! windSpeed := lift (day_field "windSpeed" forecastData) in
      let cfg :=
        {| cfg_type := "line";
           cfg_labels := labels;
           cfg_datasets :=
             [ {| ds_label := "Wind Speed (km/h)"; ds_data := windSpeed |} ];
           cfg_dark := isDarkMode |} in
      let! h := new_Chart canvasId cfg in
      let! _ := write_slot canvasId h in
      ret (Some h)
  end.

(** [chart.data = newData] on what an inherited name gave.  Under
    [__proto__] that is [Object.prototype], whose [data] every object
    inherits from then on.  Under the other names it is a function of
    [Object.prototype] or the value inherited as [data]: the assignment
    defines a property of that object, or does nothing on a primitive, and
    changes nothing a read of the registry finds. *)
Definition assign_data_inherited (canvasId : string) (newData : value) : M Page unit :=
  fun w =>
    (Return tt,
     if String.eqb canvasId "__proto__"
     then set_prototype_data w (truthy newData) else w).

(** On an inherited name the assignment of [data] succeeds on the
    inherited object and the call of its [update], which is no function,
    throws. *)
Definition updateChart (canvasId : string) (newData : value) : M Page unit :=
  let! chart := read_slot canvasId in
  match chart with
  | Absent => console_warn ("No chart found with id: " +:+ canvasId)
  | Own h => chart_set_data_update h newData
  | Inherited =>
      let! _ := assign_data_inherited canvasId newData in
      lift (Throw TypeError)
  end.

Definition destroyChart (canvasId : string) : M Page unit :=
  let! s := read_slot canvasId in
  match s with
  | Own h =>
      let! _ := chart_destroy h in
      delete_slot canvasId
  | Inherited => lift (Throw TypeError)
  | Absent => ret tt
  end.

Definition destroyAllCharts : M Page unit :=
  let! ids := registry_keys in
  forEach destroyChart ids.

(** The three chart kinds. *)
Inductive kind := Temperature | Humidity | Wind.

Definition create (k : kind) : string -> value -> value -> M Page (option handle) :=
  match k with
  | Temperature => createTemperatureChart
  | Humidity => createHumidityChart
  | Wind => createWindChart
  end.

End ChartUtils.

(* ===================================================================== *)
(** * Vocabulary of the statements *)
(* ===================================================================== *)

Module JSONSpec.
Import JS JSON.
Local Open Scope N_scope.

(** The digit values [frac_digits] writes. *)
Fixpoint digit_values (e : nat) (r : N) : list N :=
  match e with
  | O => []
  | S e' => r / 10 ^ N.of_nat e' :: digit_values e' (r mod 10 ^ N.of_nat e')
  end.

(** The text does not go on with a digit. *)
Definition no_digit_ahead (s : list ascii) : Prop :=
  match s with
  | [] => True
  | c :: _ => is_digit c = false
  end.

(** A decimal in canonical form: no trailing zero in its fraction. *)
Definition canonical (n : number) : bool :=
  match num_e n with
  | O => true
  | S _ => negb (num_m n mod 10 =? 0)%Z
  end.

(** What follows a value inside a text: the end, a comma or a closing
    bracket or brace. *)
Definition delimited (rest : list ascii) : bool :=
  match rest with
  | [] => true
  | c :: _ => at_code c c_comma || at_code c c_rbracket || at_code c c_rbrace
  end.

(** What [parse_number] does after the sign. *)
Definition parse_unsigned (neg : bool) (s1 : list ascii) : option (number * list ascii) :=
  let '(ip, s2) := take_digits s1 in
  match ip with
  | [] => None
  | d :: ds =>
      if (d =? 0) && negb (bool_decide (ds = [])) then None else
      let frac :=
        match s2 with
        | c :: r =>
            if at_code c c_dot
            then let '(fp, r') := take_digits r in
                 match fp with [] => None | _ => Some (fp, r') end
            else Some ([], s2)
        | [] => Some ([], s2)
        end in
      match frac with
      | None => None
      | Some (fp, s3) =>
          let M := digits_value (ip ++ fp) in
          match s3 with
          | c :: r =>
              if at_code c 101 || at_code c 69 then
                let '(xneg, r1) :=
                  match r with
                  | c' :: r' =>
                      if at_code c' c_minus then (true, r')
                      else if at_code c' c_plus then (false, r')
                      else (false, r)
                  | [] => (false, r)
                  end in
                let '(xp, r2) := take_digits r1 in
                match xp with
                | [] => None
                | _ =>
                    let x := Z.of_N (digits_value xp) in
                    Some (make_number neg M (length fp) (if xneg then - x else x)%Z, r2)
                end
              else Some (make_number neg M (length fp) 0, s3)
          | [] => Some (make_number neg M (length fp) 0, s3)
          end
      end
  end.

(** The values a JSON text denotes: no [undefined], numbers in canonical
    form, no property name twice in an object. *)
Fixpoint is_json (v : value) : bool :=
  match v with
  | VUndefined => false
  | VNull | VBool _ | VStr _ => true
  | VNum n => canonical n
  | VArr l => forallb is_json l
  | VObj props =>
      bool_decide (NoDup (map fst props))
      && forallb (fun kv => is_json (snd kv)) props
  end.

(** The fuel that suffices to parse the text of a value. *)
Fixpoint weight (v : value) : nat :=
  match v with
  | VArr l => S (list_sum (map (fun x => S (weight x)) l))
  | VObj props => S (list_sum (map (fun kv => S (weight (snd kv))) props))
  | _ => 1
  end.

(** The texts [JSON.stringify] joins for an array and for an object. *)
Definition element_texts (l : list value) : list text :=
  map (fun x => default (lit "null") (stringify_value x)) l.

Definition member_texts (props : list (string * value)) : list text :=
  omap (fun kv => match stringify_value (snd kv) with
                  | Some t => Some (quote (fst kv) ++ chr c_colon :: t)
                  | None => None
                  end) props.

(** A text that starts with neither white space nor a closing bracket or
    brace, as the text of every value does. *)
Definition head_ok (t : text) : Prop :=
  exists c t', t = c :: t' /\ is_ws c = false
               /\ at_code c c_rbracket = false /\ at_code c c_rbrace = false.

(** The text of [v] is read back as [v], whatever delimiter follows. *)
Definition round_trips (v : value) : Prop :=
  exists t,
    stringify_value v = Some t
    /\ (weight v <= length t)%nat
    /\ head_ok t
    /\ forall fuel rest,
         (weight v <= fuel)%nat -> delimited rest = true ->
         parse_value fuel (t ++ rest) = Some (v, rest).

(** The fuel for the elements of an array and the members of an object. *)
Definition weights (l : list value) : nat := list_sum (map (fun x => S (weight x)) l).

Definition member_weights (props : list (string * value)) : nat :=
  list_sum (map (fun kv => S (weight (snd kv))) props).

(** What a value becomes on its way through [JSON.stringify] and
    [JSON.parse]: a property holding [undefined] is left out, [undefined]
    in an array is [null], a number is in canonical form. *)
Fixpoint stored_form (v : value) : value :=
  match v with
  | VUndefined => VNull
  | VNum n => VNum (normalize n)
  | VArr l => VArr (map stored_form l)
  | VObj props =>
      VObj ((fix go (l : list (string * value)) : list (string * value) :=
               match l with
               | [] => []
               | (k, x) :: r =>
                   match x with
                   | VUndefined => go r
                   | _ => (k, stored_form x) :: go r
                   end
               end) props)
  | _ => v
  end.

(** The properties of every object in a value have distinct names, as
    those of a JavaScript object do. *)
Fixpoint keyed (v : value) : bool :=
  match v with
  | VArr l => forallb keyed l
  | VObj props =>
      bool_decide (NoDup (map fst props))
      && forallb (fun kv => keyed (snd kv)) props
  | _ => true
  end.

(** The properties an object keeps in the store. *)
Definition stored_props (props : list (string * value)) : list (string * value) :=
  omap (fun kv => match snd kv with
                  | VUndefined => None
                  | x => Some (fst kv, stored_form x)
                  end) props.

End JSONSpec.

Module StorageSpec.
Import JS Eff StorageUtils.

(** Two city or location names match when their lower-case forms are the
    same string. *)
Definition same_name (a b : string) : bool :=
  String.eqb (toLowerCase a) (toLowerCase b).

(** A search history: an array of strings. *)
Definition strings (l : list string) : value := VArr (map VStr l).

(** The number of entries of a history that match a city. *)
Definition occurrences (city : string) (l : list string) : nat :=
  length (List.filter (same_name city) l).

(** The name of a favorite, when it is an object whose [name] is a string. *)
Definition name_of (fav : value) : option string :=
  match fav with
  | VObj props =>
      match assoc "name" props with
      | Some (VStr s) => Some s
      | _ => None
      end
  | _ => None
  end.

(** A favorite with a name. *)
Definition named (fav : value) : bool :=
  match name_of fav with Some _ => true | None => false end.

(** A favorite matches a name. *)
Definition fav_matches (name : string) (fav : value) : bool :=
  match name_of fav with
  | Some s => same_name s name
  | None => false
  end.

(** The write of [v] under [key] is accepted by the storage. *)
Definition accepts (w : World) (key : string) (v : value) : bool :=
  negb (ls_denied w)
  && ls_fits w (ls_items w) key
       (to_data (JSON.stringify v)).

(** The same world with another policy for what fits. *)
Definition with_fits (w : World)
    (fits : gmap string string -> string -> string -> bool) : World :=
  {| ls_items := ls_items w;
     ls_denied := ls_denied w;
     ls_fits := fits;
     console := console w;
     clock := clock w |}.

(** A store that holds nothing and works. *)
Definition fresh_world : World :=
  {| ls_items := ∅;
     ls_denied := false;
     ls_fits := fun _ _ _ => true;
     console := [];
     clock := "2024-05-01T12:00:00.000Z" |}.

(** A working store that holds the serialized form of [v] under [key]. *)
Definition holding (key : string) (v : value) : World :=
  set_items fresh_world
    {[ key := to_data (JSON.stringify v) ]}.

(** A read leaves everything but the console as it was. *)
Definition same_store (w w' : World) : Prop :=
  ls_items w' = ls_items w /\ ls_denied w' = ls_denied w
  /\ ls_fits w' = ls_fits w /\ clock w' = clock w.

(** What [addToSearchHistory] computes from the prior history. *)
Definition updated_history (city : string) (hist : list string) : list string :=
  city :: firstn 9 (List.filter (fun s => negb (same_name s city)) hist).

(** A full history. *)
Definition ten_cities : list string :=
  ["Rome"; "Oslo"; "Lima"; "Cairo"; "Quito"; "Paris"; "Tokyo"; "Delhi"; "Seoul"; "Bern"].

(** The two results of [addToFavorites]. *)
Definition already_message : value :=
  VObj [("success", VBool false); ("message", VStr "Location already in favorites")].

Definition added_message (favs : list value) : value :=
  VObj [("success", VBool true); ("favorites", VArr favs)].

(** A stored favorite. *)
Definition paris : value :=
  VObj [ ("name", VStr "Paris"); ("country", VStr "FR");
         ("lat", VNum (Dec 488566 4)); ("lon", VNum (Dec 23522 4));
         ("addedAt", VStr "2024-04-30T08:00:00.000Z") ].

(** Whether a read of [key] goes through without a report. *)
Definition reads_cleanly (w : World) (key : string) : bool :=
  negb (ls_denied w)
  && match ls_items w !! key with
     | None => true
     | Some data =>
         negb (truthy_string data)
         || match JSON.parse data with Return _ => true | Throw _ => false end
     end.

(** The favorites without the entries of a name. *)
Definition without (name : string) (favs : list value) : list value :=
  List.filter (fun f => negb (fav_matches name f)) favs.

(** A store whose theme entry is not JSON. *)
Definition broken_theme : World :=
  set_items fresh_world {[ KEYS_THEME := "{oops" ]}.

(** A store that works but has no room left. *)
Definition full_world : World := with_fits fresh_world (fun _ _ _ => false).

(** The byte size of what is stored under a key, 0 when nothing is. *)
Definition stored_size (w : World) (key : string) : Z :=
  match ls_items w !! key with
  | Some data => utf8_length data
  | None => 0
  end.

(** What the statistics hold for a key of [size] bytes: the size, and the
    text of its value in kibibytes. *)
Definition size_entry (size : Z) : value :=
  VObj [ ("size", VNum (Dec size 0)); ("sizeKB", VStr (toFixed2_kib size)) ].

(** The result of [getStorageStats] for the four sizes. *)
Definition stats_result (s1 s2 s3 s4 : Z) : value :=
  VObj [ ("individual",
          VObj [ ("SEARCH_HISTORY", size_entry s1); ("FAVORITES", size_entry s2);
                 ("THEME", size_entry s3); ("UNIT", size_entry s4) ]);
         ("total", VNum (Dec (s1 + s2 + s3 + s4) 0));
         ("totalKB", VStr (toFixed2_kib (s1 + s2 + s3 + s4))) ].


(** What [getItem] and [setItem] hand to [console.error]. *)
Definition read_error (key : string) (e : exn) : diagnostic :=
  Diag LError ("Error reading " +:+ key +:+ " from localStorage:") (Some e).

Definition write_error (key : string) (e : exn) : diagnostic :=
  Diag LError ("Error writing " +:+ key +:+ " to localStorage:") (Some e).

(** The exception a write that is not accepted ends with. *)
Definition write_failure (w : World) : exn :=
  DOMException (if ls_denied w then "SecurityError" else "QuotaExceededError").

(** A location whose country is not known. *)
Definition somewhere : value :=
  VObj [ ("name", VStr "Oslo"); ("country", VUndefined);
         ("lat", VNum (Dec 5990 2)); ("tags", VArr [VUndefined; VBool true]) ].

(** The entries of a store without those of the module. *)
Definition without_module_keys (m : gmap string string) : gmap string string :=
  delete KEYS_UNIT (delete KEYS_THEME (delete KEYS_FAVORITES (delete KEYS_SEARCH_HISTORY m))).

(** A store of the module's four entries and one of another application. *)
Definition busy_world : World :=
  set_items fresh_world
    (<[ "other_app" := "1" ]>
       (<[ KEYS_UNIT := to_data (JSON.stringify (VStr "fahrenheit")) ]>
          (<[ KEYS_THEME := to_data (JSON.stringify (VStr "dark")) ]>
             (<[ KEYS_FAVORITES := to_data (JSON.stringify (VArr [paris])) ]>
                {[ KEYS_SEARCH_HISTORY := to_data (JSON.stringify (strings ten_cities)) ]})))).

(** A store that cannot be accessed. *)
Definition denied_world : World :=
  {| ls_items := ∅; ls_denied := true; ls_fits := fun _ _ _ => true;
     console := []; clock := "2024-05-01T12:00:00.000Z" |}.

(** Every state a call can leave is related to the state it started in. *)
Definition frame (R : World -> World -> Prop) {A} (m : M World A) : Prop :=
  forall w, R w (snd (m w)).

(** The store is as accessible as before and holds the same entries. *)
Definition same_items (w w' : World) : Prop :=
  ls_denied w' = ls_denied w /\ ls_items w' = ls_items w.

(** The store is as accessible as before and holds the same entries but
    perhaps under [key]. *)
Definition same_but (key : string) (w w' : World) : Prop :=
  ls_denied w' = ls_denied w
  /\ forall k, k <> key -> ls_items w' !! k = ls_items w !! k.

(** The stored history reads as a list of at most 10 strings, no two of
    which are the same ignoring case. *)
Definition history_ok (w : World) : Prop :=
  exists hist,
    fst (getSearchHistory w) = Return (strings hist)
    /\ NoDup (map toLowerCase hist) /\ length hist <= 10.

(** An array of strings. *)
Definition string_array (v : value) : bool :=
  match v with
  | VArr l => forallb (fun x => match x with VStr _ => true | _ => false end) l
  | _ => false
  end.

(** A test that returns or throws a [TypeError]. *)
Definition type_checked (c : completion bool) : Prop :=
  (exists b, c = Return b) \/ c = Throw TypeError.

(** A store whose history entry was cut short. *)
Definition broken_history : World :=
  set_items fresh_world {[ KEYS_SEARCH_HISTORY := "[1,2" ]}.

(** [v.k] where reading it does not throw. *)
Definition prop (v : value) (k : string) : value :=
  match get v k with
  | Return x => x
  | Throw _ => VUndefined
  end.

(** The entry [addToFavorites] builds for a location. *)
Definition favorite_entry (location : value) (addedAt : string) : value :=
  VObj [ ("name", prop location "name"); ("country", prop location "country");
         ("lat", prop location "lat"); ("lon", prop location "lon");
         ("addedAt", VStr addedAt) ].

(** The lower-case name of a favorite. *)
Definition lower_name (fav : value) : string :=
  match name_of fav with
  | Some s => toLowerCase s
  | None => ""
  end.

(** The stored favorites read as a list of entries with a name, no two of
    which have the same name ignoring case. *)
Definition favorites_ok (w : World) : Prop :=
  exists favs,
    fst (getFavorites w) = Return (VArr favs)
    /\ forallb named favs = true /\ NoDup (map lower_name favs).

(** An array of entries with a string for a name. *)
Definition named_array (v : value) : bool :=
  match v with
  | VArr l => forallb named l
  | _ => false
  end.

(** A working store with no room left that holds the history [Rome]. *)
Definition rome_kept : World :=
  with_fits (holding KEYS_SEARCH_HISTORY (strings ["Rome"])) (fun _ _ _ => false).

(** A working store with no room left that holds the favorite [paris]. *)
Definition paris_kept : World :=
  with_fits (holding KEYS_FAVORITES (VArr [paris])) (fun _ _ _ => false).

End StorageSpec.

Module ChartSpec.
Import JS Eff ChartUtils.

(** A chart of the engine that was not released. *)
Definition live (w : Page) (h : handle) : Prop :=
  exists c, charts w !! h = Some c /\ chart_destroyed c = false.

(** A chart of the engine that was released. *)
Definition released (w : Page) (h : handle) : Prop :=
  exists c, charts w !! h = Some c /\ chart_destroyed c = true.

(** The registry owns the charts: a chart that is not released is the one
    registered under the identifier of its canvas, and a registered handle
    is a chart on the canvas of that identifier. *)
Definition registry_owns (w : Page) : Prop :=
  (forall h c, charts w !! h = Some c -> chart_destroyed c = false ->
               chartInstances w !! chart_canvas c = Some h)
  /\ (forall id h, chartInstances w !! id = Some h ->
                   exists c, charts w !! h = Some c /\ chart_canvas c = id).

(** Forecast data a builder can project: an array without [null] or
    [undefined] entries. *)
Definition projectable (forecastData : value) : bool :=
  match forecastData with
  | VArr l => forallb (fun day => match day with VUndefined | VNull => false | _ => true end) l
  | _ => false
  end.

(** The element a builder needs: the temperature chart draws a gradient on
    the canvas. *)
Definition surface_fits (k : kind) (el : element) : bool :=
  match k, el with
  | Temperature, OtherElement => false
  | _, _ => true
  end.

(** What a builder reports when the surface is absent. *)
Definition absent_report (k : kind) (canvasId : string) : list diagnostic :=
  match k with
  | Temperature => [Diag LError ("Canvas element " +:+ canvasId +:+ " not found") None]
  | Humidity | Wind => []
  end.

(** No chart on the canvas of an identifier is unreleased. *)
Definition vacant (canvasId : string) (w : Page) : Prop :=
  forall h c, charts w !! h = Some c -> chart_canvas c = canvasId ->
              chart_destroyed c = true.

(** A page without charts. *)
Definition blank_page (doc : gmap string element) : Page :=
  {| document := doc; charts := ∅; chartInstances := ∅; trace := []; console := [];
     prototype_data := false |}.

(** The calls of the module. *)
Inductive call :=
| CallCreate (k : kind) (canvasId : string) (forecastData isDarkMode : value)
| CallUpdate (canvasId : string) (newData : value)
| CallDestroy (canvasId : string)
| CallDestroyAll.

(** The state a call leaves, whether it returns or throws. *)
Definition after_call (c : call) (w : Page) : Page :=
  match c with
  | CallCreate k canvasId forecastData isDarkMode =>
      snd (create k canvasId forecastData isDarkMode w)
  | CallUpdate canvasId newData => snd (updateChart canvasId newData w)
  | CallDestroy canvasId => snd (destroyChart canvasId w)
  | CallDestroyAll => snd (destroyAllCharts w)
  end.

(** The same page with other elements in its document. *)
Definition with_document (w : Page) (doc : gmap string element) : Page :=
  {| document := doc; charts := charts w; chartInstances := chartInstances w;
     trace := trace w; console := console w; prototype_data := prototype_data w |}.

(** The pages the module can be in: it starts without charts, its calls are
    made in any order with any arguments, and the elements of the document
    come and go in between. *)
Inductive reachable : Page -> Prop :=
| reach_blank doc : reachable (blank_page doc)
| reach_call c w : reachable w -> reachable (after_call c w)
| reach_document doc w : reachable w -> reachable (with_document w doc).

(** Postcondition on the state a call leaves, whether it returns or throws. *)
Definition hoare {A} (P : Page -> Prop) (m : M Page A) (Q : Page -> Prop) : Prop :=
  forall w, P w -> Q (snd (m w)).

(** The state after [chart.destroy()] on [h]. *)
Definition after_destroy (w : Page) (h : handle) : Page :=
  set_charts w (alter mark_destroyed h (charts w)) (trace w ++ [Destroyed h]).

(** The state after [new Chart] on the canvas and the store of its handle. *)
Definition after_create (w : Page) (canvasId : string) (cfg : config) : Page :=
  let h := fresh (dom (charts w)) in
  set_chartInstances
    (set_charts w
       (<[h := {| chart_canvas := canvasId; chart_config := cfg;
                  chart_data := None; chart_destroyed := false |}]> (charts w))
       (trace w ++ [Created h canvasId]))
    (<[canvasId := h]> (chartInstances w)).

(** The state in which a builder creates its chart: the registered chart,
    if any, was released. *)
Definition cleared (w : Page) (canvasId : string) : Page :=
  match chartInstances w !! canvasId with
  | Some h => after_destroy w h
  | None => w
  end.

(** The state after [destroyChart] on an identifier that holds [h]. *)
Definition after_destroyChart (w : Page) (canvasId : string) (h : handle) : Page :=
  set_chartInstances (after_destroy w h) (delete canvasId (chartInstances w)).

(** The handles registered under a list of identifiers. *)
Definition handles_of (w : Page) (ids : list string) : list handle :=
  omap (fun id => chartInstances w !! id) ids.

(** A forecast of two days. *)
Definition two_days : value :=
  VArr [ VObj [ ("date", VStr "Mon"); ("maxTemp", VNum (Dec 21 0));
                ("minTemp", VNum (Dec 12 0)); ("avgTemp", VNum (Dec 165 1)) ];
         VObj [ ("date", VStr "Tue"); ("maxTemp", VNum (Dec 19 0));
                ("minTemp", VNum (Dec 11 0)); ("avgTemp", VNum (Dec 15 0)) ] ].

(** A page with the canvas [cv1], after a first temperature chart on it. *)
Definition one_chart : Page :=
  snd (createTemperatureChart "cv1" two_days (VBool false)
         (blank_page {[ "cv1" := Canvas ]})).

(** [day.k] for a day that is not [null] or [undefined]. *)
Definition field (k : string) (day : value) : value :=
  match get day k with
  | Return x => x
  | Throw _ => VUndefined
  end.

(** [day.precipitation || 0]. *)
Definition precipitation_or_zero (day : value) : value :=
  let p := field "precipitation" day in
  if truthy p then p else VNum (number_of_Z 0).

(** The configuration of each kind of chart for the days of a forecast. *)
Definition expected_config (k : kind) (days : list value) (dark : bool) : config :=
  match k with
  | Temperature =>
      {| cfg_type := "line";
         cfg_labels := map (field "date") days;
         cfg_datasets :=
           [ {| ds_label := "Max Temperature"; ds_data := map (field "maxTemp") days |};
             {| ds_label := "Average Temperature"; ds_data := map (field "avgTemp") days |};
             {| ds_label := "Min Temperature"; ds_data := map (field "minTemp") days |} ];
         cfg_dark := dark |}
  | Humidity =>
      {| cfg_type := "bar";
         cfg_labels := map (field "date") days;
         cfg_datasets :=
           [ {| ds_label := "Humidity (%)"; ds_data := map (field "humidity") days |};
             {| ds_label := "Precipitation (mm)";
                ds_data := map precipitation_or_zero days |} ];
         cfg_dark := dark |}
  | Wind =>
      {| cfg_type := "line";
         cfg_labels := map (field "date") days;
         cfg_datasets :=
           [ {| ds_label := "Wind Speed (km/h)"; ds_data := map (field "windSpeed") days |} ];
         cfg_dark := dark |}
  end.

(** A new chart of the engine. *)
Definition new_chart (canvasId : string) (cfg : config) : chart :=
  {| chart_canvas := canvasId; chart_config := cfg;
     chart_data := None; chart_destroyed := false |}.

(** A forecast whose second day has no precipitation. *)
Definition wet_days : value :=
  VArr [ VObj [ ("date", VStr "Mon"); ("humidity", VNum (Dec 80 0));
                ("precipitation", VNum (Dec 25 1)) ];
         VObj [ ("date", VStr "Tue"); ("humidity", VNum (Dec 55 0)) ] ].

(** The page of the first chart, with a second canvas in its document. *)
Definition two_canvases : Page :=
  with_document one_chart {[ "cv1" := Canvas; "b" := Canvas ]}.

(** No identifier that [Object.prototype] provides is registered. *)
Definition own_names (w : Page) : Prop :=
  forall id, id ∈ Object_prototype_names -> chartInstances w !! id = None.

(** What a builder does once the element is found and the registered
    chart released. *)
Definition builder_tail (k : kind) (canvasId : string) (el : element)
    (forecastData : value) (isDarkMode : bool) : M Page (option handle) :=
  match k with
  | Temperature =>
      bind (lift (day_field "date" forecastData)) (fun labels =>
      bind (lift (day_field "maxTemp" forecastData)) (fun maxTemps =>
      bind (lift (day_field "minTemp" forecastData)) (fun minTemps =>
      bind (lift (day_field "avgTemp" forecastData)) (fun avgTemps =>
      bind (make_gradient el) (fun _ =>
      bind (new_Chart canvasId
              {| cfg_type := "line"; cfg_labels := labels;
                 cfg_datasets :=
                   [ {| ds_label := "Max Temperature"; ds_data := maxTemps |};
                     {| ds_label := "Average Temperature"; ds_data := avgTemps |};
                     {| ds_label := "Min Temperature"; ds_data := minTemps |} ];
                 cfg_dark := isDarkMode |}) (fun h =>
      bind (write_slot canvasId h) (fun _ => ret (Some h))))))))
  | Humidity =>
      bind (lift (day_field "date" forecastData)) (fun labels =>
      bind (lift (day_field "humidity" forecastData)) (fun humidity =>
      bind (lift (call_map forecastData (fun day =>
              cbind (get day "precipitation") (fun p =>
              Return (if truthy p then p else VNum (number_of_Z 0))))))
           (fun precipitation =>
      bind (new_Chart canvasId
              {| cfg_type := "bar"; cfg_labels := labels;
                 cfg_datasets :=
                   [ {| ds_label := "Humidity (%)"; ds_data := humidity |};
                     {| ds_label := "Precipitation (mm)"; ds_data := precipitation |} ];
                 cfg_dark := isDarkMode |}) (fun h =>
      bind (write_slot canvasId h) (fun _ => ret (Some h))))))
  | Wind =>
      bind (lift (day_field "date" forecastData)) (fun labels =>
      bind (lift (day_field "windSpeed" forecastData)) (fun windSpeed =>
      bind (new_Chart canvasId
              {| cfg_type := "line"; cfg_labels := labels;
                 cfg_datasets :=
                   [ {| ds_label := "Wind Speed (km/h)"; ds_data := windSpeed |} ];
                 cfg_dark := isDarkMode |}) (fun h =>
      bind (write_slot canvasId h) (fun _ => ret (Some h)))))
  end.

(** What [updateChart] tells the console when it finds no chart. *)
Definition no_chart_warning (canvasId : string) : diagnostic :=
  Diag LWarn ("No chart found with id: " +:+ canvasId) None.



End ChartSpec.

(* ===================================================================== *)
(** * JSON: what is written is read back *)
(* ===================================================================== *)

Module JSONFacts.
Import JS JSON JSONSpec.
Local Open Scope N_scope.

Lemma code_chr n : n < 256 -> code (chr n) = n.
Proof. apply N_ascii_embedding. Qed.

Lemma chr_code c : chr (code c) = c.
Proof. apply ascii_N_embedding. Qed.

Lemma code_lt c : code c < 256.
Proof. apply N_ascii_bounded. Qed.

(** *** Digits *)

Lemma pow10_pos k : 0 < 10 ^ k.
Proof. apply N.neq_0_lt_0, N.pow_nonzero. discriminate. Qed.

Lemma pow10_succ (e : nat) : 10 ^ N.of_nat (S e) = 10 * 10 ^ N.of_nat e.
Proof. rewrite Nat2N.inj_succ, N.pow_succ_r'. reflexivity. Qed.

Lemma lead_digit_lt (e : nat) r : r < 10 ^ N.of_nat (S e) -> r / 10 ^ N.of_nat e < 10.
Proof.
  intros H. apply N.Div0.div_lt_upper_bound.
  rewrite pow10_succ in H. lia.
Qed.

Lemma take_digits_frac e r rest :
  r < 10 ^ N.of_nat e -> no_digit_ahead rest ->
  take_digits (frac_digits e r ++ rest) = (digit_values e r, rest).
Proof.
  revert r. induction e as [|e IH]; intros r Hr Hrest.
  - cbn. destruct rest as [|c rest]; [reflexivity|]. cbn in *. by rewrite Hrest.
  - cbn [frac_digits digit_values app take_digits].
    pose proof (lead_digit_lt e r Hr) as Hd.
    assert (Hm : r mod 10 ^ N.of_nat e < 10 ^ N.of_nat e).
    { apply N.mod_lt. pose proof (pow10_pos (N.of_nat e)). lia. }
    rewrite (IH _ Hm Hrest).
    set (d := r / 10 ^ N.of_nat e) in *.
    assert (Hc : code (digit_char d) = 48 + d).
    { unfold digit_char. apply code_chr. lia. }
    unfold is_digit. rewrite Hc.
    replace (48 <=? 48 + d) with true by (symmetry; apply N.leb_le; lia).
    replace (48 + d <=? 57) with true by (symmetry; apply N.leb_le; lia).
    cbn [andb]. f_equal. f_equal. lia.
Qed.

Lemma fold_digits_app ds acc :
  fold_left (fun a d => 10 * a + d) ds acc
  = acc * 10 ^ N.of_nat (length ds) + fold_left (fun a d => 10 * a + d) ds 0.
Proof.
  revert acc. induction ds as [|d ds IH]; intros acc.
  - cbn. lia.
  - cbn [fold_left length]. rewrite IH, (IH (10 * 0 + d)), pow10_succ. lia.
Qed.

Lemma length_digit_values e r : length (digit_values e r) = e.
Proof. revert r; induction e; intros r; cbn; [reflexivity|]. by rewrite IHe. Qed.

Lemma digits_value_frac e r :
  r < 10 ^ N.of_nat e -> digits_value (digit_values e r) = r.
Proof.
  unfold digits_value. revert r. induction e as [|e IH]; intros r Hr.
  - cbn in *. lia.
  - cbn [digit_values fold_left]. rewrite fold_digits_app, length_digit_values.
    assert (Hm : r mod 10 ^ N.of_nat e < 10 ^ N.of_nat e).
    { apply N.mod_lt. pose proof (pow10_pos (N.of_nat e)). lia. }
    rewrite (IH _ Hm).
    pose proof (N.div_mod r (10 ^ N.of_nat e)) as Hdm.
    pose proof (pow10_pos (N.of_nat e)).
    set (p := 10 ^ N.of_nat e) in *. set (d := r / p) in *. set (m := r mod p) in *.
    nia.
Qed.

Lemma log2_div10 n : 10 <= n -> N.log2 (n / 10) < N.log2 n.
Proof.
  intros H.
  assert (H1 : N.log2 (n / 10) <= N.log2 (N.shiftr n 1)).
  { apply N.log2_le_mono. rewrite N.shiftr_div_pow2. change (2 ^ 1) with 2.
    pose proof (N.div_mod n 10 ltac:(lia)). pose proof (N.div_mod n 2 ltac:(lia)).
    pose proof (N.mod_lt n 10 ltac:(lia)). pose proof (N.mod_lt n 2 ltac:(lia)).
    set (a := n / 10) in *. set (b := n / 2) in *.
    set (c := n mod 10) in *. set (d := n mod 2) in *. lia. }
  rewrite N.log2_shiftr in H1.
  assert (3 <= N.log2 n).
  { change 3 with (N.log2 10). by apply N.log2_le_mono. }
  lia.
Qed.

Lemma count_digits_spec fuel n :
  (N.to_nat (N.log2 n) < fuel)%nat ->
  let k := count_digits fuel n in
  (1 <= k)%nat /\ n < 10 ^ N.of_nat k
  /\ ((1 < k)%nat -> 10 ^ N.of_nat (k - 1) <= n).
Proof.
  revert n. induction fuel as [|f IH]; intros n Hf; [lia|].
  cbn [count_digits]. destruct (N.ltb_spec n 10) as [Hn|Hn].
  - cbn. repeat split; [lia|lia|lia].
  - assert (Hf' : (N.to_nat (N.log2 (n / 10)) < f)%nat).
    { pose proof (log2_div10 n Hn). lia. }
    destruct (IH _ Hf') as (H1 & H2 & H3).
    set (k := count_digits f (n / 10)) in *. cbv zeta.
    pose proof (N.div_mod n 10 ltac:(lia)) as Hdm.
    pose proof (N.mod_lt n 10 ltac:(lia)) as Hml.
    set (q := n / 10) in *. set (m := n mod 10) in *. clearbody q m.
    split; [lia|]. split.
    + rewrite pow10_succ. set (p := 10 ^ N.of_nat k) in *. clearbody p. lia.
    + intros _. replace (S k - 1)%nat with k by lia.
      destruct k as [|[|k']]; [lia|cbn; lia|].
      specialize (H3 ltac:(lia)).
      replace (S (S k') - 1)%nat with (S k') in H3 by lia.
      rewrite pow10_succ. set (p := 10 ^ N.of_nat (S k')) in *. clearbody p. clear H2. lia.
Qed.

Lemma int_digits_spec n :
  exists k, int_digits n = frac_digits (S k) n
            /\ n < 10 ^ N.of_nat (S k)
            /\ ((0 < k)%nat -> 10 ^ N.of_nat k <= n).
Proof.
  unfold int_digits.
  destruct (count_digits_spec (S (N.to_nat (N.log2 n))) n ltac:(lia)) as (H1 & H2 & H3).
  set (k := count_digits _ n) in *.
  exists (k - 1)%nat. replace (S (k - 1)) with k by lia.
  split; [reflexivity|]. split; [exact H2|]. intros. apply H3. lia.
Qed.

(** *** Numbers *)

Lemma normalize_canonical n : canonical n = true -> normalize n = n.
Proof.
  destruct n as [m [|e]]; [reflexivity|]. unfold canonical, normalize. cbn.
  destruct (m mod 10 =? 0)%Z; [discriminate|reflexivity].
Qed.

Lemma delimited_cases rest :
  delimited rest = true ->
  rest = [] \/ exists c r, rest = c :: r /\ (code c = 44 \/ code c = 93 \/ code c = 125).
Proof.
  destruct rest as [|c r]; [by left|]. right. exists c, r. split; [reflexivity|].
  unfold delimited, at_code, c_comma, c_rbracket, c_rbrace in H.
  destruct (N.eqb_spec (code c) 44); [tauto|].
  destruct (N.eqb_spec (code c) 93); [tauto|].
  destruct (N.eqb_spec (code c) 125); [tauto|]. discriminate.
Qed.

Lemma delimited_no_digit rest : delimited rest = true -> no_digit_ahead rest.
Proof.
  intros [->|(c & r & -> & Hc)]%delimited_cases; [exact I|].
  cbn. unfold is_digit. destruct Hc as [->|[->| ->]]; reflexivity.
Qed.

Lemma digits_value_app l1 l2 :
  digits_value (l1 ++ l2)
  = digits_value l1 * 10 ^ N.of_nat (length l2) + digits_value l2.
Proof. unfold digits_value. rewrite fold_left_app. apply fold_digits_app. Qed.

Lemma code_digit_char d : d < 10 -> code (digit_char d) = 48 + d.
Proof. intros. unfold digit_char. apply code_chr. lia. Qed.

Lemma parse_number_unsigned s :
  parse_number s
  = match s with
    | c :: r => if at_code c c_minus then parse_unsigned true r else parse_unsigned false s
    | [] => parse_unsigned false s
    end.
Proof.
  unfold parse_number, parse_unsigned.
  destruct s as [|c r]; [reflexivity|]. destruct (at_code c c_minus); reflexivity.
Qed.

Lemma at_code_neq c n m : code c = m -> m <> n -> at_code c n = false.
Proof. intros <- H. unfold at_code. by apply N.eqb_neq. Qed.

(** Decide the tests on the first character of a delimited rest. *)
Ltac delim_cases Hrest tac :=
  match type of Hrest with
  | delimited ?rest = true =>
      let c := fresh "c" in
      let r := fresh "r" in
      let Hc := fresh "Hc" in
      destruct (delimited_cases rest Hrest) as [->|(c & r & -> & [Hc|[Hc|Hc]])];
      [ tac
      | rewrite ?(at_code_neq _ _ _ Hc) by discriminate; tac .. ]
  end.

Lemma parse_unsigned_print neg a e rest :
  delimited rest = true ->
  parse_unsigned neg
    (int_digits (a / 10 ^ N.of_nat e)
       ++ match e with
          | O => []
          | S _ => chr c_dot :: frac_digits e (a mod 10 ^ N.of_nat e)
          end ++ rest)
  = Some (make_number neg a e 0, rest).
Proof.
  intros Hrest.
  pose proof (pow10_pos (N.of_nat e)) as Hp.
  destruct (int_digits_spec (a / 10 ^ N.of_nat e)) as (k & -> & Hlt & Hge).
  set (ip := a / 10 ^ N.of_nat e) in *.
  assert (Hfp : a mod 10 ^ N.of_nat e < 10 ^ N.of_nat e) by (apply N.mod_lt; lia).
  set (fp := a mod 10 ^ N.of_nat e) in *.
  assert (Ha : a = ip * 10 ^ N.of_nat e + fp).
  { subst ip fp. rewrite N.mul_comm. apply N.div_mod. lia. }
  unfold parse_unsigned.
  rewrite take_digits_frac; [|exact Hlt|].
  2:{ destruct e; [by apply delimited_no_digit|reflexivity]. }
  cbn [digit_values].
  replace ((ip / 10 ^ N.of_nat k =? 0)
           && negb (bool_decide (digit_values k (ip mod 10 ^ N.of_nat k) = [])))
    with false.
  2:{ symmetry. destruct k as [|k]; [cbn; apply andb_false_r|].
      specialize (Hge ltac:(lia)).
      apply andb_false_iff. left. apply N.eqb_neq.
      intros H0. apply N.div_small_iff in H0; [lia|].
      pose proof (pow10_pos (N.of_nat (S k))). lia. }
  change (ip / 10 ^ N.of_nat k :: digit_values k (ip mod 10 ^ N.of_nat k))
    with (digit_values (S k) ip).
  destruct e as [|e'].
  - cbn [app].
    assert (Hv : digits_value (digit_values (S k) ip ++ []) = a).
    { rewrite app_nil_r, (digits_value_frac _ _ Hlt).
      cbn in Ha. subst fp. rewrite N.mod_1_r in Ha. lia. }
    unfold c_dot, c_minus, c_plus.
    delim_cases Hrest ltac:(cbv zeta; rewrite Hv; reflexivity).
  - cbn [app]. unfold at_code at 1. rewrite code_chr by reflexivity. cbn [N.eqb c_dot Pos.eqb].
    rewrite take_digits_frac; [|exact Hfp|by apply delimited_no_digit].
    cbn [digit_values]. cbv beta iota zeta.
    change (fp / 10 ^ N.of_nat e' :: digit_values e' (fp mod 10 ^ N.of_nat e'))
      with (digit_values (S e') fp).
    rewrite digits_value_app, length_digit_values.
    pose proof (digits_value_frac _ _ Hlt) as Hv. cbn [digit_values] in Hv.
    rewrite Hv, (digits_value_frac _ _ Hfp).
    rewrite <- Ha.
    delim_cases Hrest ltac:(reflexivity).
Qed.

Lemma make_number_canonical (neg : bool) a e :
  let m := (if neg then - Z.of_N a else Z.of_N a)%Z in
  canonical (Dec m e) = true -> make_number neg a e 0 = Dec m e.
Proof.
  cbv zeta. unfold make_number, canonical. cbn [num_m num_e].
  generalize (if neg then (- Z.of_N a)%Z else Z.of_N a). intros m.
  destruct e as [|e]; intros H.
  - cbn. f_equal. lia.
  - replace (0 <=? 0 - Z.of_nat (S e))%Z with false by (symmetry; apply Z.leb_gt; lia).
    replace (Z.to_nat (- (0 - Z.of_nat (S e)))) with (S e) by lia.
    cbn [strip_zeros]. destruct (m mod 10 =? 0)%Z; [discriminate|reflexivity].
Qed.

Lemma int_digits_head n : exists d t, int_digits n = digit_char d :: t /\ d < 10.
Proof.
  destruct (int_digits_spec n) as (k & -> & Hlt & _).
  cbn [frac_digits]. eexists _, _. split; [reflexivity|]. by apply lead_digit_lt.
Qed.

Lemma parse_number_digit s d t :
  s = digit_char d :: t -> d < 10 -> parse_number s = parse_unsigned false s.
Proof.
  intros -> Hd. rewrite parse_number_unsigned.
  by rewrite (at_code_neq _ c_minus _ (code_digit_char d Hd))
    by (unfold c_minus; lia).
Qed.

Lemma parse_number_print n rest :
  canonical n = true -> delimited rest = true ->
  parse_number (print_number n ++ rest) = Some (n, rest).
Proof.
  intros Hn Hrest. unfold print_number. rewrite (normalize_canonical _ Hn).
  destruct n as [m e]. cbn [num_m num_e].
  set (a := Z.abs_N m).
  destruct (Z.ltb_spec m 0) as [Hm|Hm].
  - rewrite parse_number_unsigned.
    cbn [app]. unfold at_code at 1. rewrite code_chr by reflexivity.
    cbn [c_minus N.eqb Pos.eqb].
    rewrite <- app_assoc, parse_unsigned_print by exact Hrest.
    rewrite make_number_canonical.
    + do 3 f_equal. lia.
    + replace (- Z.of_N a)%Z with m by lia. exact Hn.
  - cbn [app]. rewrite <- app_assoc.
    destruct (int_digits_head (a / 10 ^ N.of_nat e)) as (d & t & Hd & Hlt).
    rewrite (parse_number_digit _ d (t ++ match e with
                                          | O => []
                                          | S _ => chr c_dot :: frac_digits e (a mod 10 ^ N.of_nat e)
                                          end ++ rest))
      ; [|by rewrite Hd|exact Hlt].
    rewrite parse_unsigned_print by exact Hrest.
    rewrite make_number_canonical.
    + do 3 f_equal. lia.
    + replace (Z.of_N a)%Z with m by lia. exact Hn.
Qed.

(** *** Strings *)

Lemma parse_quote_char c tail :
  parse_string_body (quote_char c ++ tail) = push c (parse_string_body tail).
Proof. destruct c as [[] [] [] [] [] [] [] []]; reflexivity. Qed.

Lemma parse_quote_chars s rest :
  parse_string_body (quote_chars s ++ chr c_quote :: rest) = Some (s, rest).
Proof.
  induction s as [|c s IH]; [reflexivity|].
  cbn [quote_chars]. rewrite <- app_assoc, parse_quote_char, IH. reflexivity.
Qed.

(** *** Values *)

Lemma value_ind (P : value -> Prop) :
  P VUndefined -> P VNull -> (forall b, P (VBool b)) -> (forall n, P (VNum n)) ->
  (forall s, P (VStr s)) ->
  (forall l, Forall P l -> P (VArr l)) ->
  (forall props, Forall (fun kv => P (snd kv)) props -> P (VObj props)) ->
  forall v, P v.
Proof.
  intros Hu Hn Hb Hnum Hs Ha Ho.
  fix IH 1. intros [| | b | n | s | l | props].
  - exact Hu.
  - exact Hn.
  - apply Hb.
  - apply Hnum.
  - apply Hs.
  - apply Ha. induction l as [|x l IHl]; constructor; [apply IH|exact IHl].
  - apply Ho. induction props as [|[k x] props IHp]; constructor; [apply IH|exact IHp].
Qed.

Lemma stringify_VArr l :
  stringify_value (VArr l)
  = Some (chr c_lbracket :: join [chr c_comma] (element_texts l) ++ [chr c_rbracket]).
Proof.
  cbn [stringify_value].
  match goal with
  | |- context [join _ (?f l)] => assert (H : f l = element_texts l)
  end.
  { induction l as [|x l IH]; [reflexivity|].
    cbn [element_texts map]. by rewrite IH. }
  by rewrite H.
Qed.

Lemma stringify_VObj props :
  stringify_value (VObj props)
  = Some (chr c_lbrace :: join [chr c_comma] (member_texts props) ++ [chr c_rbrace]).
Proof.
  cbn [stringify_value].
  match goal with
  | |- context [join _ (?f props)] => assert (H : f props = member_texts props)
  end.
  { induction props as [|[k x] props IH]; [reflexivity|].
    cbn [member_texts omap list_omap fst snd]. rewrite IH.
    destruct (stringify_value x); reflexivity. }
  by rewrite H.
Qed.

(** One step of the parser on each opening character. *)

Lemma parse_value_null f rest :
  parse_value (S f) (lit "null" ++ rest) = Some (VNull, rest).
Proof. reflexivity. Qed.

Lemma parse_value_true f rest :
  parse_value (S f) (lit "true" ++ rest) = Some (VBool true, rest).
Proof. reflexivity. Qed.

Lemma parse_value_false f rest :
  parse_value (S f) (lit "false" ++ rest) = Some (VBool false, rest).
Proof. reflexivity. Qed.

Lemma parse_value_quote f r :
  parse_value (S f) (chr c_quote :: r)
  = match parse_string_body r with
    | Some (str, r') => Some (VStr str, r')
    | None => None
    end.
Proof. reflexivity. Qed.

Lemma parse_value_lbracket f r :
  parse_value (S f) (chr c_lbracket :: r)
  = match skip_ws r with
    | c' :: r' =>
        if at_code c' c_rbracket then Some (VArr [], r') else parse_elements f r []
    | [] => None
    end.
Proof. reflexivity. Qed.

Lemma parse_value_lbrace f r :
  parse_value (S f) (chr c_lbrace :: r)
  = match skip_ws r with
    | c' :: r' =>
        if at_code c' c_rbrace then Some (VObj [], r') else parse_members f r []
    | [] => None
    end.
Proof. reflexivity. Qed.

Lemma parse_value_number f c r :
  code c = 45 \/ (48 <= code c <= 57) ->
  parse_value (S f) (c :: r)
  = match parse_number (c :: r) with
    | Some (n, r') => Some (VNum n, r')
    | None => None
    end.
Proof.
  intros Hc. cbn [parse_value skip_ws]. unfold is_ws, at_code.
  unfold c_quote, c_lbracket, c_lbrace.
  repeat match goal with
         | |- context [code c =? ?k] =>
             replace (code c =? k) with false by (symmetry; apply N.eqb_neq; lia)
         end.
  cbn [orb]. cbv beta iota.
  repeat match goal with
         | |- context [code c =? ?k] =>
             replace (code c =? k) with false by (symmetry; apply N.eqb_neq; lia)
         end.
  reflexivity.
Qed.

Lemma parse_elements_step f s acc :
  parse_elements (S f) s acc
  = match parse_value f s with
    | None => None
    | Some (v, r) =>
        match skip_ws r with
        | c :: r' =>
            if at_code c c_comma then parse_elements f r' (v :: acc)
            else if at_code c c_rbracket then Some (VArr (rev (v :: acc)), r')
            else None
        | [] => None
        end
    end.
Proof. reflexivity. Qed.

Lemma parse_members_step f r acc :
  parse_members (S f) (chr c_quote :: r) acc
  = match parse_string_body r with
    | None => None
    | Some (k, r1) =>
        match skip_ws r1 with
        | c1 :: r2 =>
            if at_code c1 c_colon then
              match parse_value f r2 with
              | None => None
              | Some (v, r3) =>
                  match skip_ws r3 with
                  | c3 :: r4 =>
                      if at_code c3 c_comma
                      then parse_members f r4 (obj_set acc k v)
                      else if at_code c3 c_rbrace
                      then Some (VObj (obj_set acc k v), r4)
                      else None
                  | [] => None
                  end
              end
            else None
        | [] => None
        end
    end.
Proof. reflexivity. Qed.

Lemma skip_ws_head t rest : head_ok t -> skip_ws (t ++ rest) = t ++ rest.
Proof. intros (c & t' & -> & Hws & _). cbn. by rewrite Hws. Qed.

Lemma skip_ws_delim c rest :
  is_ws (chr c) = false -> skip_ws (chr c :: rest) = chr c :: rest.
Proof. intros H. cbn. by rewrite H. Qed.

Lemma element_texts_cons x l t :
  stringify_value x = Some t -> element_texts (x :: l) = t :: element_texts l.
Proof. intros H. unfold element_texts. cbn [map]. by rewrite H. Qed.

Lemma join_two (sep t u : text) r :
  join sep (t :: u :: r) = t ++ sep ++ join sep (u :: r).
Proof. reflexivity. Qed.

Lemma parse_elements_texts l :
  Forall round_trips l -> l <> [] ->
  forall fuel acc rest,
    (weights l <= fuel)%nat -> delimited rest = true ->
    parse_elements fuel (join [chr c_comma] (element_texts l) ++ chr c_rbracket :: rest) acc
    = Some (VArr (rev acc ++ l), rest).
Proof.
  induction 1 as [|x l (t & Ht & _ & _ & Hparse) Hl IH]; [done|]. intros _.
  unfold weights in *.
  intros [|fuel] acc rest Hfuel Hrest; simpl in Hfuel; [lia|].
  rewrite parse_elements_step, (element_texts_cons _ _ _ Ht).
  destruct l as [|y l].
  - cbn [element_texts map join]. rewrite Hparse; [|lia|reflexivity].
    rewrite skip_ws_delim by reflexivity. reflexivity.
  - destruct (Forall_inv Hl) as (ty & Hty & _).
    rewrite (element_texts_cons _ _ _ Hty), join_two.
    rewrite <- (element_texts_cons _ _ _ Hty).
    rewrite <- !app_assoc. cbn [app].
    rewrite Hparse; [|lia|reflexivity].
    rewrite skip_ws_delim by reflexivity.
    change (at_code (chr c_comma) c_comma) with true. cbv iota.
    rewrite IH; [|done|simpl in *; lia|exact Hrest].
    cbn [rev]. by rewrite <- app_assoc.
Qed.

Lemma join_length_elements l :
  Forall round_trips l ->
  (weights l <= length (join [chr c_comma] (element_texts l)) + 1)%nat.
Proof.
  unfold weights.
  induction 1 as [|x l (t & Ht & Hlen & _) Hl IH]; [cbn; lia|].
  rewrite (element_texts_cons _ _ _ Ht).
  destruct l as [|y l]; [simpl; lia|].
  destruct (Forall_inv Hl) as (ty & Hty & _).
  rewrite (element_texts_cons _ _ _ Hty), join_two.
  rewrite <- (element_texts_cons _ _ _ Hty).
  rewrite !length_app. cbn [length]. simpl in *. lia.
Qed.

Lemma member_texts_cons k x props t :
  stringify_value x = Some t ->
  member_texts ((k, x) :: props) = (quote k ++ chr c_colon :: t) :: member_texts props.
Proof. intros H. unfold member_texts. cbn [omap list_omap fst snd]. by rewrite H. Qed.

Lemma member_text_shape k (t tail : text) :
  (quote k ++ chr c_colon :: t) ++ tail
  = chr c_quote :: quote_chars k ++ chr c_quote :: chr c_colon :: t ++ tail.
Proof. unfold quote. cbn [app]. rewrite <- !app_assoc. reflexivity. Qed.

Lemma member_text_shape2 k (t u tail : text) :
  ((quote k ++ chr c_colon :: t) ++ u) ++ tail
  = chr c_quote :: quote_chars k ++ chr c_quote :: chr c_colon :: t ++ u ++ tail.
Proof. unfold quote. cbn [app]. rewrite <- !app_assoc. reflexivity. Qed.

Lemma obj_set_fresh acc k v :
  k ∉ map fst acc -> obj_set acc k v = acc ++ [(k, v)].
Proof.
  induction acc as [|[k' v'] acc IH]; [reflexivity|].
  cbn [map fst obj_set app]. intros Hk.
  apply not_elem_of_cons in Hk as [Hne Hk].
  destruct (String.eqb_spec k k'); [done|]. by rewrite IH.
Qed.

Lemma parse_members_texts props :
  Forall (fun kv => round_trips (snd kv)) props -> props <> [] ->
  forall fuel acc rest,
    (member_weights props <= fuel)%nat -> delimited rest = true ->
    NoDup (map fst (acc ++ props)) ->
    parse_members fuel (join [chr c_comma] (member_texts props) ++ chr c_rbrace :: rest) acc
    = Some (VObj (acc ++ props), rest).
Proof.
  induction 1 as [|[k x] props (t & Ht & _ & _ & Hparse) Hl IH]; [done|]. intros _.
  unfold member_weights in *.
  intros [|fuel] acc rest Hfuel Hrest Hnd; simpl in Hfuel; [lia|].
  cbn [snd] in *.
  assert (Hk : k ∉ map fst acc).
  { rewrite map_app in Hnd. apply NoDup_app in Hnd as (_ & Hd & _).
    intros Hin. apply (Hd k Hin). cbn. left. }
  assert (Hnd' : NoDup (map fst ((acc ++ [(k, x)]) ++ props))).
  { by rewrite <- app_assoc. }
  rewrite (member_texts_cons _ _ _ _ Ht).
  destruct props as [|[k2 y] props].
  - cbn [member_texts omap list_omap join].
    rewrite member_text_shape, parse_members_step, parse_quote_chars.
    rewrite skip_ws_delim by reflexivity.
    change (at_code (chr c_colon) c_colon) with true. cbv iota.
    rewrite Hparse; [|lia|reflexivity].
    rewrite skip_ws_delim by reflexivity.
    change (at_code (chr c_rbrace) c_comma) with false.
    change (at_code (chr c_rbrace) c_rbrace) with true. cbv iota.
    by rewrite (obj_set_fresh _ _ _ Hk).
  - destruct (Forall_inv Hl) as (ty & Hty & _). cbn [snd] in Hty.
    rewrite (member_texts_cons _ _ _ _ Hty), join_two.
    rewrite <- (member_texts_cons _ _ _ _ Hty).
    rewrite member_text_shape2, parse_members_step, parse_quote_chars.
    rewrite skip_ws_delim by reflexivity.
    change (at_code (chr c_colon) c_colon) with true. cbv iota.
    rewrite <- app_assoc. cbn [app].
    rewrite Hparse; [|lia|reflexivity].
    rewrite skip_ws_delim by reflexivity.
    change (at_code (chr c_comma) c_comma) with true. cbv iota.
    rewrite (obj_set_fresh _ _ _ Hk).
    rewrite IH; [|done|simpl in *; lia|exact Hrest|exact Hnd'].
    by rewrite <- app_assoc.
Qed.

Lemma join_length_members props :
  Forall (fun kv => round_trips (snd kv)) props ->
  (member_weights props <= length (join [chr c_comma] (member_texts props)) + 1)%nat.
Proof.
  unfold member_weights.
  induction 1 as [|[k x] props (t & Ht & Hlen & _) Hl IH]; [cbn; lia|].
  cbn [snd] in *.
  rewrite (member_texts_cons _ _ _ _ Ht).
  destruct props as [|[k2 y] props].
  - cbn [member_texts omap list_omap join]. rewrite length_app. simpl. lia.
  - destruct (Forall_inv Hl) as (ty & Hty & _). cbn [snd] in Hty.
    rewrite (member_texts_cons _ _ _ _ Hty), join_two.
    rewrite <- (member_texts_cons _ _ _ _ Hty).
    rewrite !length_app. simpl in *. lia.
Qed.

Lemma head_ok_app t u : head_ok t -> head_ok (t ++ u).
Proof. intros (c & t' & -> & H). exists c, (t' ++ u). split; [reflexivity|exact H]. Qed.

Lemma head_ok_join (t : text) r : head_ok t -> head_ok (join [chr c_comma] (t :: r)).
Proof.
  intros H. destruct r as [|u r]; [exact H|]. rewrite join_two. by apply head_ok_app.
Qed.

Lemma head_ok_code c t :
  code c <> 32 -> code c <> 9 -> code c <> 10 -> code c <> 13 ->
  code c <> 93 -> code c <> 125 -> head_ok (c :: t).
Proof.
  intros. exists c, t. split; [reflexivity|].
  unfold is_ws, at_code, c_rbracket, c_rbrace.
  repeat match goal with
         | |- context [code c =? ?k] =>
             replace (code c =? k) with false by (symmetry; by apply N.eqb_neq)
         end.
  done.
Qed.

Lemma print_number_head n :
  exists c t, print_number n = c :: t /\ (code c = 45 \/ 48 <= code c <= 57).
Proof.
  unfold print_number.
  destruct (int_digits_head (Z.abs_N (num_m (normalize n))
                             / 10 ^ N.of_nat (num_e (normalize n)))) as (d & t & -> & Hd).
  destruct (num_m (normalize n) <? 0)%Z.
  - eexists _, _. split; [reflexivity|]. left. reflexivity.
  - eexists _, _. split; [reflexivity|]. right. rewrite code_digit_char by exact Hd. lia.
Qed.

Lemma forallb_Forall_impl {A} (f : A -> bool) (P : A -> Prop) l :
  Forall (fun x => f x = true -> P x) l -> forallb f l = true -> Forall P l.
Proof.
  induction 1 as [|x l Hx Hl IH]; [constructor|].
  cbn. intros [H1 H2]%andb_prop. constructor; auto.
Qed.

Lemma weight_VArr l : weight (VArr l) = S (weights l).
Proof. reflexivity. Qed.

Lemma weight_VObj props : weight (VObj props) = S (member_weights props).
Proof. reflexivity. Qed.

Lemma is_json_round_trips v : is_json v = true -> round_trips v.
Proof.
  induction v as [| |b|n|s|l IH|props IH] using value_ind; intros Hj.
  - discriminate.
  - exists (lit "null"). repeat split; [cbn; lia|by apply head_ok_code|].
    intros [|f] rest Hf _; [cbn in Hf; lia|]. apply parse_value_null.
  - destruct b.
    + exists (lit "true"). repeat split; [cbn; lia|by apply head_ok_code|].
      intros [|f] rest Hf _; [cbn in Hf; lia|]. apply parse_value_true.
    + exists (lit "false"). repeat split; [cbn; lia|by apply head_ok_code|].
      intros [|f] rest Hf _; [cbn in Hf; lia|]. apply parse_value_false.
  - cbn [is_json] in Hj. exists (print_number n).
    destruct (print_number_head n) as (c & t & Hp & Hc).
    split; [reflexivity|]. split; [rewrite Hp; cbn; lia|].
    split; [rewrite Hp; apply head_ok_code; lia|].
    intros [|f] rest Hf Hrest; [cbn in Hf; lia|].
    pose proof (parse_number_print n rest Hj Hrest) as Hn.
    rewrite Hp in *. cbn [app] in *.
    by rewrite (parse_value_number f c _ Hc), Hn.
  - exists (quote s). split; [reflexivity|]. split; [cbn; lia|].
    split; [by apply head_ok_code|].
    intros [|f] rest Hf _; [cbn in Hf; lia|].
    unfold quote. cbn [app]. rewrite parse_value_quote, <- app_assoc.
    cbn [app]. by rewrite parse_quote_chars.
  - cbn [is_json] in Hj. pose proof (forallb_Forall_impl _ _ _ IH Hj) as Hl.
    eexists. split; [apply stringify_VArr|].
    pose proof (join_length_elements l Hl) as Hlen.
    rewrite weight_VArr.
    split; [cbn [length]; rewrite length_app; cbn [length]; lia|].
    split; [by apply head_ok_code|].
    intros [|f] rest Hf Hrest; [lia|].
    cbn [app]. rewrite parse_value_lbracket, <- app_assoc. cbn [app].
    destruct l as [|x l]; [reflexivity|].
    destruct (Forall_inv Hl) as (t & Ht & _ & Hhead & _).
    pose proof (head_ok_join t (element_texts l) Hhead) as Hh.
    rewrite <- (element_texts_cons _ _ _ Ht) in Hh.
    rewrite (skip_ws_head _ _ Hh).
    destruct Hh as (c & t' & Heq & _ & Hnb & _).
    rewrite Heq at 1. cbn [app]. rewrite Hnb.
    by rewrite (parse_elements_texts _ Hl); [|done|lia|].
  - cbn [is_json] in Hj. apply andb_prop in Hj as [Hnd Hj].
    apply bool_decide_eq_true in Hnd.
    assert (Hl : Forall (fun kv => round_trips (snd kv)) props).
    { apply (forallb_Forall_impl (fun kv => is_json (snd kv))); assumption. }
    eexists. split; [apply stringify_VObj|].
    pose proof (join_length_members props Hl) as Hlen.
    rewrite weight_VObj.
    split; [cbn [length]; rewrite length_app; cbn [length]; lia|].
    split; [by apply head_ok_code|].
    intros [|f] rest Hf Hrest; [lia|].
    cbn [app]. rewrite parse_value_lbrace, <- app_assoc. cbn [app].
    destruct props as [|[k x] props]; [reflexivity|].
    destruct (Forall_inv Hl) as (t & Ht & _ & _ & _). cbn [snd] in Ht.
    assert (Hh : head_ok (join [chr c_comma] (member_texts ((k, x) :: props)))).
    { rewrite (member_texts_cons _ _ _ _ Ht). apply head_ok_join.
      unfold quote. cbn [app]. by apply head_ok_code. }
    rewrite (skip_ws_head _ _ Hh).
    destruct Hh as (c & t' & Heq & _ & _ & Hnb).
    rewrite Heq at 1. cbn [app]. rewrite Hnb.
    by rewrite (parse_members_texts _ Hl); [|done|lia| |].
Qed.

Lemma lit_string_of t : lit (string_of_list_ascii t) = t.
Proof. apply list_ascii_of_string_of_list_ascii. Qed.

Theorem parse_stringify v :
  is_json v = true ->
  exists s, JSON.stringify v = Some s /\ truthy_string s = true
            /\ JSON.parse s = Return v.
Proof.
  intros (t & Ht & Hlen & Hhead & Hparse)%is_json_round_trips.
  exists (string_of_list_ascii t). unfold stringify, parse. rewrite Ht. split; [reflexivity|].
  split; [by destruct Hhead as (c & t' & -> & _)|].
  rewrite lit_string_of.
  specialize (Hparse (S (length t)) [] ltac:(lia) eq_refl).
  rewrite app_nil_r in Hparse. by rewrite Hparse.
Qed.

(** *** What the parser gives is a JSON value *)

Lemma strip_zeros_canonical m e : canonical (strip_zeros m e) = true.
Proof.
  revert m. induction e as [|e IH]; intros m; [reflexivity|].
  cbn [strip_zeros]. destruct (m mod 10 =? 0)%Z eqn:E; [apply IH|].
  unfold canonical. cbn. by rewrite E.
Qed.

Lemma make_number_is_canonical neg M fl x : canonical (make_number neg M fl x) = true.
Proof.
  unfold make_number. destruct (0 <=? x - Z.of_nat fl)%Z; [reflexivity|].
  apply strip_zeros_canonical.
Qed.

Lemma parse_number_canonical s n r :
  parse_number s = Some (n, r) -> canonical n = true.
Proof.
  unfold parse_number.
  repeat match goal with
         | |- context [match ?x with _ => _ end] => destruct x
         | |- context [if ?x then _ else _] => destruct x
         end; try discriminate; intros [= <- _]; apply make_number_is_canonical.
Qed.

Lemma map_fst_obj_set acc k v :
  map fst (obj_set acc k v)
  = if bool_decide (k ∈ map fst acc) then map fst acc else map fst acc ++ [k].
Proof.
  induction acc as [|[k' v'] acc IH]; [reflexivity|].
  cbn [obj_set map fst]. destruct (String.eqb_spec k k') as [->|Hne].
  - rewrite bool_decide_eq_true_2 by left. reflexivity.
  - cbn [map fst]. rewrite IH.
    destruct (bool_decide (k ∈ map fst acc)) eqn:E.
    + apply bool_decide_eq_true in E.
      rewrite bool_decide_eq_true_2 by (by right). reflexivity.
    + apply bool_decide_eq_false in E.
      rewrite bool_decide_eq_false_2; [reflexivity|].
      intros [?|?]%elem_of_cons; done.
Qed.

Lemma forallb_obj_set (f : string * value -> bool) acc k v :
  forallb f acc = true -> f (k, v) = true -> forallb f (obj_set acc k v) = true.
Proof.
  induction acc as [|[k' v'] acc IH]; cbn [obj_set forallb]; intros Ha Hv.
  - by rewrite Hv.
  - apply andb_prop in Ha as [H1 H2].
    destruct (String.eqb k k'); cbn [forallb]; [by rewrite Hv, H2|].
    by rewrite H1, IH.
Qed.

Lemma is_json_obj_set acc k v :
  is_json (VObj acc) = true -> is_json v = true ->
  is_json (VObj (obj_set acc k v)) = true.
Proof.
  cbn [is_json]. intros [Hnd Hall]%andb_prop Hv.
  apply bool_decide_eq_true in Hnd.
  apply andb_true_intro. split.
  - apply bool_decide_eq_true. rewrite map_fst_obj_set.
    destruct (bool_decide (k ∈ map fst acc)) eqn:E; [exact Hnd|].
    apply bool_decide_eq_false in E.
    apply NoDup_app. repeat split; [exact Hnd| |apply NoDup_singleton].
    intros x Hx ->%list_elem_of_singleton. done.
  - by apply forallb_obj_set.
Qed.

Lemma forallb_rev {A} (f : A -> bool) l : forallb f (rev l) = forallb f l.
Proof.
  induction l as [|x l IH]; [reflexivity|].
  cbn. rewrite forallb_app, IH. cbn. destruct (f x), (forallb f l); reflexivity.
Qed.

Lemma is_json_VArr l : is_json (VArr l) = forallb is_json l.
Proof. reflexivity. Qed.

Lemma parser_gives_json fuel :
  (forall s v r, parse_value fuel s = Some (v, r) -> is_json v = true)
  /\ (forall s acc v r,
        parse_elements fuel s acc = Some (v, r) ->
        forallb is_json acc = true -> is_json v = true)
  /\ (forall s acc v r,
        parse_members fuel s acc = Some (v, r) ->
        is_json (VObj acc) = true -> is_json v = true).
Proof.
  induction fuel as [|f (IHv & IHe & IHm)]; [repeat split; discriminate|].
  split; [|split].
  - intros s v r. cbn [parse_value].
    destruct (skip_ws s) as [|c t]; [discriminate|].
    repeat match goal with
           | |- context [if ?x then _ else _] => destruct x
           | |- context [match ?x with _ => _ end] => destruct x eqn:?
           end; try discriminate; try (intros [= <- _]; reflexivity).
    + intros H. by eapply IHe.
    + intros H. by eapply IHm.
    + intros [= <- _]. cbn. eapply parse_number_canonical. eassumption.
  - intros s acc v r. rewrite parse_elements_step.
    destruct (parse_value f s) as [[x r1]|] eqn:Ex; [|discriminate].
    apply IHv in Ex.
    destruct (skip_ws r1) as [|c t]; [discriminate|].
    destruct (at_code c c_comma).
    + intros H Hacc. eapply IHe; [exact H|]. cbn [forallb]. by rewrite Ex, Hacc.
    + destruct (at_code c c_rbracket); [|discriminate].
      intros [= <- _] Hacc. rewrite is_json_VArr. cbn [rev].
      rewrite forallb_app, forallb_rev. cbn [forallb].
      by rewrite Ex, Hacc.
  - intros s acc v r. cbn [parse_members].
    repeat match goal with
           | |- context [if ?x then _ else _] => destruct x
           | |- context [match ?x with _ => _ end] => destruct x eqn:?
           end; try discriminate.
    + intros H Hacc. eapply IHm; [exact H|].
      apply is_json_obj_set; [exact Hacc|]. by eapply IHv.
    + intros [= <- _] Hacc.
      apply is_json_obj_set; [exact Hacc|]. by eapply IHv.
Qed.

Theorem parse_is_json s v : JSON.parse s = Return v -> is_json v = true.
Proof.
  unfold parse.
  destruct (parse_value _ _) as [[x r]|] eqn:E; [|discriminate].
  destruct (skip_ws r); [|discriminate]. intros [= <-].
  by eapply (proj1 (parser_gives_json _)).
Qed.

Lemma stored_form_VObj props : stored_form (VObj props) = VObj (stored_props props).
Proof.
  cbn [stored_form]. f_equal.
  induction props as [|[k x] props IH]; [reflexivity|].
  unfold stored_props. cbn [omap list_omap fst snd]. fold (stored_props props).
  rewrite IH. by destruct x.
Qed.

Lemma normalize_twice n : normalize (normalize n) = normalize n.
Proof. apply normalize_canonical. unfold normalize. apply strip_zeros_canonical. Qed.

Lemma print_number_normalize n : print_number (normalize n) = print_number n.
Proof. unfold print_number. by rewrite normalize_twice. Qed.

Lemma stored_props_keys props :
  sublist (map fst (stored_props props)) (map fst props).
Proof.
  induction props as [|[k x] props IH]; [constructor|].
  unfold stored_props. cbn [omap list_omap fst snd map]. fold (stored_props props).
  destruct x; cbn [map fst]; by constructor.
Qed.

Lemma stored_form_text v :
  default (lit "null") (stringify_value (stored_form v))
  = default (lit "null") (stringify_value v)
  /\ (v <> VUndefined -> stringify_value (stored_form v) = stringify_value v).
Proof.
  induction v as [| |b|n|s|l IH|props IH] using value_ind;
    try (split; [reflexivity|]; by intros _).
  - split; [reflexivity|]. by intros [].
  - cbn [stored_form stringify_value]. rewrite print_number_normalize. by split.
  - assert (H : stringify_value (stored_form (VArr l)) = stringify_value (VArr l)).
    { cbn [stored_form]. rewrite !stringify_VArr.
      assert (He : element_texts (map stored_form l) = element_texts l).
      { unfold element_texts. rewrite map_map.
        induction IH as [|x l [Hx _] _ IHl]; [reflexivity|].
        cbn [map]. by rewrite Hx, IHl. }
      by rewrite He. }
    rewrite H. by split.
  - assert (H : stringify_value (stored_form (VObj props)) = stringify_value (VObj props)).
    { rewrite stored_form_VObj, !stringify_VObj.
      assert (He : member_texts (stored_props props) = member_texts props).
      { induction IH as [|[k x] props [_ Hx] _ IHp]; [reflexivity|].
        unfold stored_props, member_texts in *.
        cbn [omap list_omap fst snd] in *.
        destruct x; [exact IHp|..];
          cbn [omap list_omap fst snd]; (rewrite Hx by discriminate); by rewrite IHp. }
      by rewrite He. }
    rewrite H. by split.
Qed.

Lemma stored_form_is_json v : keyed v = true -> is_json (stored_form v) = true.
Proof.
  induction v as [| |b|n|s|l IH|props IH] using value_ind; intros Hk; try reflexivity.
  - cbn [stored_form is_json]. unfold normalize. apply strip_zeros_canonical.
  - cbn [stored_form]. rewrite is_json_VArr. cbn [keyed] in Hk.
    induction IH as [|x l Hx _ IHl]; [reflexivity|].
    cbn [forallb map] in *. apply andb_prop in Hk as [H1 H2].
    by rewrite Hx, IHl.
  - rewrite stored_form_VObj. cbn [keyed is_json] in *.
    apply andb_prop in Hk as [Hnd Hk]. apply bool_decide_eq_true in Hnd.
    apply andb_true_intro. split.
    + apply bool_decide_eq_true. eapply sublist_NoDup; [exact Hnd|apply stored_props_keys].
    + clear Hnd. induction IH as [|[k x] props Hx _ IHp]; [reflexivity|].
      cbn [forallb snd] in Hk. apply andb_prop in Hk as [H1 H2].
      unfold stored_props. cbn [omap list_omap fst snd]. fold (stored_props props).
      specialize (IHp H2). specialize (Hx H1). cbn [snd] in Hx.
      destruct x; cbn [forallb snd]; try exact IHp; by rewrite Hx, IHp.
Qed.

Lemma is_json_stored_form v : is_json v = true -> stored_form v = v.
Proof.
  induction v as [| |b|n|s|l IH|props IH] using value_ind; intros Hj; try reflexivity.
  - discriminate.
  - cbn [stored_form]. f_equal. by apply normalize_canonical.
  - cbn [stored_form]. f_equal. rewrite is_json_VArr in Hj.
    induction IH as [|x l Hx _ IHl]; [reflexivity|].
    cbn [forallb map] in *. apply andb_prop in Hj as [H1 H2].
    by rewrite Hx, IHl.
  - rewrite stored_form_VObj. f_equal. cbn [is_json] in Hj.
    apply andb_prop in Hj as [_ Hj].
    induction IH as [|[k x] props Hx _ IHp]; [reflexivity|].
    cbn [forallb snd] in Hj. apply andb_prop in Hj as [H1 H2].
    unfold stored_props. cbn [omap list_omap fst snd]. fold (stored_props props).
    rewrite (IHp H2). specialize (Hx H1). cbn [snd] in Hx.
    destruct x; try discriminate; cbn [omap]; by rewrite ?Hx.
Qed.

Lemma is_json_keyed v : is_json v = true -> keyed v = true.
Proof.
  induction v as [| |b|n|s|l IH|props IH] using value_ind; intros Hj; try reflexivity.
  - cbn [keyed]. rewrite is_json_VArr in Hj.
    induction IH as [|x l Hx _ IHl]; [reflexivity|].
    cbn [forallb] in *. apply andb_prop in Hj as [H1 H2]. by rewrite Hx, IHl.
  - cbn [is_json keyed] in *. apply andb_prop in Hj as [Hnd Hj]. rewrite Hnd.
    cbn [andb]. clear Hnd. induction IH as [|[k x] props Hx _ IHp]; [reflexivity|].
    cbn [forallb snd] in *. apply andb_prop in Hj as [H1 H2].
    by rewrite (Hx H1), (IHp H2).
Qed.

(** Reading the text of a value gives its stored form. *)
Lemma parse_stringify_stored v :
  keyed v = true -> v <> VUndefined ->
  exists s, JSON.stringify v = Some s /\ truthy_string s = true
            /\ JSON.parse s = Return (stored_form v).
Proof.
  intros Hk Hne.
  destruct (parse_stringify (stored_form v) (stored_form_is_json v Hk)) as (s & Hs & Ht & Hp).
  exists s. split; [|by split].
  unfold stringify in *. by rewrite <- (proj2 (stored_form_text v) Hne).
Qed.

End JSONFacts.

(* ===================================================================== *)
(** * The storage module *)
(* ===================================================================== *)

Module StorageFacts.
Import JS Eff StorageUtils JSONSpec StorageSpec JSONFacts.

Lemma getItem_run key d w :
  getItem key d w =
    let d' := param_default VNull d in
    let report e :=
      (Return d', set_console w
         (console w ++ [Diag LError ("Error reading " +:+ key +:+ " from localStorage:") (Some e)])) in
    if ls_denied w then report (DOMException "SecurityError")
    else match ls_items w !! key with
         | None => (Return d', w)
         | Some data =>
             if truthy_string data then
               match JSON.parse data with
               | Return v => (Return v, w)
               | Throw e => report e
               end
             else (Return d', w)
         end.
Proof.
  unfold getItem, try_catch, bind, localStorage_getItem, console_error, lift, ret.
  destruct (ls_denied w); [reflexivity|].
  destruct (ls_items w !! key) as [data|]; [|reflexivity].
  destruct (truthy_string data); [|reflexivity].
  destruct (JSON.parse data); reflexivity.
Qed.

Lemma setItem_run key v w :
  setItem key v w =
    let data := to_data (JSON.stringify v) in
    let report e :=
      (Return false, set_console w
         (console w ++ [Diag LError ("Error writing " +:+ key +:+ " to localStorage:") (Some e)])) in
    if ls_denied w then report (DOMException "SecurityError")
    else if ls_fits w (ls_items w) key data
         then (Return true, set_items w (<[key := data]> (ls_items w)))
         else report (DOMException "QuotaExceededError").
Proof.
  unfold setItem, try_catch, bind, localStorage_setItem, console_error, ret.
  destruct (ls_denied w); [reflexivity|].
  destruct (ls_fits w (ls_items w) key _); reflexivity.
Qed.

Lemma getItem_same_store key d w : same_store w (snd (getItem key d w)).
Proof.
  rewrite getItem_run. cbv zeta.
  repeat match goal with
         | |- context [if ?b then _ else _] => destruct b
         | |- context [match ?x with _ => _ end] => destruct x
         end; repeat split.
Qed.

Lemma getItem_returns key d w : exists v, fst (getItem key d w) = Return v.
Proof.
  rewrite getItem_run. cbv zeta.
  repeat match goal with
         | |- context [if ?b then _ else _] => destruct b
         | |- context [match ?x with _ => _ end] => destruct x
         end; eexists; reflexivity.
Qed.

Lemma setItem_returns key v w : exists b, fst (setItem key v w) = Return b.
Proof.
  rewrite setItem_run. cbv zeta.
  repeat match goal with
         | |- context [if ?b then _ else _] => destruct b
         end; eexists; reflexivity.
Qed.

(** ** Reading back what was written *)

Lemma getItem_depends key d w1 w2 :
  ls_items w1 = ls_items w2 -> ls_denied w1 = ls_denied w2 ->
  fst (getItem key d w1) = fst (getItem key d w2).
Proof.
  intros Hi Hd. rewrite !getItem_run. cbv zeta. rewrite Hi, Hd.
  destruct (ls_denied w2); [reflexivity|].
  destruct (ls_items w2 !! key) as [data|]; [|reflexivity].
  destruct (truthy_string data); [|reflexivity].
  destruct (JSON.parse data); reflexivity.
Qed.

Lemma getItem_after_setItem key d v w :
  accepts w key v = true -> is_json v = true ->
  fst (getItem key d (snd (setItem key v w))) = Return v.
Proof.
  intros Hacc Hj.
  destruct (parse_stringify v Hj) as (s & Hs & Ht & Hp).
  rewrite setItem_run. cbv zeta. unfold accepts in Hacc.
  destruct (ls_denied w) eqn:Hd; [discriminate|]. cbn [negb andb] in Hacc.
  rewrite Hacc. cbn [snd]. rewrite getItem_run. cbv zeta. cbn [ls_denied ls_items set_items].
  rewrite Hd, lookup_insert_eq, Hs. cbn [to_data default]. unfold id.
  by rewrite Ht, Hp.
Qed.

Lemma getItem_is_json key d v w :
  is_json (param_default VNull d) = true ->
  fst (getItem key d w) = Return v -> is_json v = true.
Proof.
  intros Hd. rewrite getItem_run. cbv zeta.
  destruct (ls_denied w); cbn [fst]; [by intros [= <-]|].
  destruct (ls_items w !! key) as [data|]; cbn [fst]; [|by intros [= <-]].
  destruct (truthy_string data); cbn [fst]; [|by intros [= <-]].
  destruct (JSON.parse data) eqn:E; cbn [fst]; [|by intros [= <-]].
  intros [= <-]. by eapply parse_is_json.
Qed.

Lemma is_json_strings l : is_json (strings l) = true.
Proof. unfold strings. cbn [is_json]. induction l; [reflexivity|exact IHl]. Qed.

Lemma filterM_differ city l :
  filterM (fun item => lower_differ item (VStr city)) (map VStr l)
  = Return (map VStr (List.filter (fun s => negb (same_name s city)) l)).
Proof.
  induction l as [|s l IH]; [reflexivity|].
  cbn [map filterM List.filter]. rewrite IH.
  unfold lower_differ, lower_equal, same_name; cbn.
  destruct (String.eqb (toLowerCase s) (toLowerCase city)); reflexivity.
Qed.

Lemma firstn_map_VStr n (l : list string) :
  firstn n (map VStr l) = map VStr (firstn n l).
Proof. revert l; induction n; intros [|x l]; cbn; [reflexivity..|]. by rewrite IHn. Qed.

Lemma same_name_refl s : same_name s s = true.
Proof. apply String.eqb_refl. Qed.

Lemma same_name_sym a b : same_name a b = same_name b a.
Proof. apply String.eqb_sym. Qed.

Lemma addToSearchHistory_run city hist w :
  fst (getSearchHistory w) = Return (strings hist) ->
  exists b w1,
    getSearchHistory w = (Return (strings hist), w1)
    /\ addToSearchHistory (VStr city) w
       = (Return (strings (updated_history city hist)),
          snd (setItem KEYS_SEARCH_HISTORY (strings (updated_history city hist)) w1))
    /\ fst (setItem KEYS_SEARCH_HISTORY (strings (updated_history city hist)) w1) = Return b.
Proof.
  intros H.
  destruct (getSearchHistory w) as [r w1] eqn:E. cbn in H. subst r.
  set (u := strings (updated_history city hist)).
  destruct (setItem_returns KEYS_SEARCH_HISTORY u w1) as [b Hb].
  exists b, w1. split; [reflexivity|]. split; [|exact Hb].
  unfold addToSearchHistory, bind. rewrite E.
  unfold lift, strings at 1, call_filter. rewrite filterM_differ.
  unfold slice0. change 10 with (S 9). cbn [firstn].
  rewrite firstn_map_VStr.
  change (VArr (VStr city :: map VStr ?l)) with (strings (city :: l)).
  fold (updated_history city hist). fold u.
  destruct (setItem KEYS_SEARCH_HISTORY u w1) as [r2 w2]. cbn in Hb. subst r2.
  reflexivity.
Qed.

Lemma setItem_items key v w :
  ls_items (snd (setItem key v w))
  = if accepts w key v then <[key := to_data (JSON.stringify v)]> (ls_items w)
    else ls_items w.
Proof.
  rewrite setItem_run. unfold accepts. cbv zeta.
  destruct (ls_denied w); [reflexivity|].
  destruct (ls_fits w (ls_items w) key _); reflexivity.
Qed.

Lemma accepts_same_store w w' key v :
  same_store w w' -> accepts w' key v = accepts w key v.
Proof. intros (Hi & Hd & Hf & _). unfold accepts. by rewrite Hi, Hd, Hf. Qed.

Lemma filter_differ_none city l :
  occurrences city l = 0 ->
  List.filter (fun s => negb (same_name s city)) l = l.
Proof.
  unfold occurrences. induction l as [|s l IH]; cbn; [reflexivity|].
  rewrite (same_name_sym s city).
  destruct (same_name city s); cbn; [discriminate|].
  intros H. by rewrite IH.
Qed.

Lemma filter_differ_clean city l :
  occurrences city (List.filter (fun s => negb (same_name s city)) l) = 0.
Proof.
  unfold occurrences. induction l as [|s l IH]; cbn; [reflexivity|].
  destruct (same_name s city) eqn:E; cbn; [exact IH|].
  rewrite (same_name_sym city s), E. exact IH.
Qed.

Lemma occurrences_firstn city n l :
  occurrences city l = 0 -> occurrences city (firstn n l) = 0.
Proof.
  unfold occurrences. revert l. induction n; intros [|s l]; cbn; try reflexivity.
  destruct (same_name city s); cbn; [discriminate|]. apply IHn.
Qed.

Lemma occurrences_zero city l :
  occurrences city l = 0 -> forall s, In s l -> same_name s city = false.
Proof.
  unfold occurrences. induction l as [|x l IH]; cbn; [tauto|].
  destruct (same_name city x) eqn:E; cbn; [discriminate|].
  intros H s [<-|Hs]; [by rewrite same_name_sym|by apply IH].
Qed.

(** C1. For every prior search history and every city string,
    [addToSearchHistory(city)] returns a sequence whose first entry is the
    argument itself, in which no other entry matches the city ignoring case
    (so exactly one entry matches), and whose other entries are the entries
    of the prior history that do not match, in their order. *)
Theorem addToSearchHistory_dedup (w : World) (hist : list string) (city : string) :
  fst (getSearchHistory w) = Return (strings hist) ->
  exists rest,
    fst (addToSearchHistory (VStr city) w) = Return (strings (city :: rest))
    /\ occurrences city (city :: rest) = 1
    /\ (forall s, In s rest -> same_name s city = false)
    /\ rest = firstn 9 (List.filter (fun s => negb (same_name s city)) hist).
Proof.
  intros H.
  destruct (addToSearchHistory_run city hist w H) as (b & w1 & _ & Hrun & _).
  eexists. split; [rewrite Hrun; reflexivity|].
  assert (Hz : occurrences city
                 (firstn 9 (List.filter (fun s => negb (same_name s city)) hist)) = 0)
    by apply occurrences_firstn, filter_differ_clean.
  split; [|split; [|reflexivity]].
  - unfold occurrences in *. cbn. rewrite same_name_refl. cbn. by rewrite Hz.
  - by apply occurrences_zero.
Qed.

Lemma addToSearchHistory_dedup_witness :
  exists rest,
    fst (addToSearchHistory (VStr "PARIS")
           (holding KEYS_SEARCH_HISTORY (strings ["Rome"; "paris"; "Oslo"; "Paris"])))
    = Return (strings ("PARIS" :: rest))
    /\ occurrences "PARIS" ("PARIS" :: rest) = 1
    /\ (forall s, In s rest -> same_name s "PARIS" = false)
    /\ rest = firstn 9 (List.filter (fun s => negb (same_name s "PARIS"))
                          ["Rome"; "paris"; "Oslo"; "Paris"]).
Proof. apply addToSearchHistory_dedup. vm_compute. reflexivity. Defined.

Lemma length_firstn_le {A} n (l : list A) : length (firstn n l) <= n.
Proof. revert l; induction n; intros [|x l]; cbn; try lia. specialize (IHn l). lia. Qed.

Lemma firstn_removelast {A} (l : list A) n :
  length l = S n -> firstn n l = removelast l.
Proof.
  revert n. induction l as [|x l IH]; intros n H; [discriminate|].
  cbn in H. injection H as H. destruct l as [|y l].
  - cbn in H. subst n. reflexivity.
  - destruct n as [|n]; [discriminate|].
    cbn [firstn]. rewrite (IH n H). reflexivity.
Qed.

(** C2. For every prior search history, the sequence [addToSearchHistory]
    returns has at most 10 entries, and it is that sequence which is written
    to the store and read back from it (when the store takes the write);
    when an 11th city, which matches none of the 10 entries of a full
    history, is inserted, the result is the city followed by the history
    without its last entry. *)
Theorem addToSearchHistory_bounded (w : World) (hist : list string) (city : string) :
  fst (getSearchHistory w) = Return (strings hist) ->
  exists l w',
    addToSearchHistory (VStr city) w = (Return (strings l), w')
    /\ length l <= 10
    /\ ls_items w'
       = (if accepts w KEYS_SEARCH_HISTORY (strings l)
          then <[KEYS_SEARCH_HISTORY := to_data (JSON.stringify (strings l))]> (ls_items w)
          else ls_items w)
    /\ (accepts w KEYS_SEARCH_HISTORY (strings l) = true ->
        fst (getSearchHistory w') = Return (strings l))
    /\ (length hist = 10 -> occurrences city hist = 0 ->
        l = city :: removelast hist).
Proof.
  intros H.
  destruct (addToSearchHistory_run city hist w H) as (b & w1 & Hget & Hrun & _).
  exists (updated_history city hist). eexists. split; [exact Hrun|].
  pose proof (getItem_same_store KEYS_SEARCH_HISTORY (VArr []) w) as Hs.
  fold getSearchHistory in Hs. rewrite Hget in Hs. cbn [snd] in Hs.
  split; [|split; [|split]].
  - unfold updated_history. cbn [length].
    pose proof (length_firstn_le 9
      (List.filter (fun s => negb (same_name s city)) hist)). lia.
  - rewrite setItem_items.
    rewrite (accepts_same_store w w1 _ _ Hs).
    destruct Hs as (-> & _). reflexivity.
  - intros Hacc. apply getItem_after_setItem; [|apply is_json_strings].
    by rewrite (accepts_same_store w w1 _ _ Hs).
  - intros Hlen Hocc. unfold updated_history.
    rewrite (filter_differ_none _ _ Hocc).
    by rewrite (firstn_removelast hist 9 Hlen).
Qed.

Lemma addToSearchHistory_bounded_witness :
  exists w',
    addToSearchHistory (VStr "Kyiv") (holding KEYS_SEARCH_HISTORY (strings ten_cities))
    = (Return (strings ("Kyiv" :: removelast ten_cities)), w')
    /\ fst (getSearchHistory w') = Return (strings ("Kyiv" :: removelast ten_cities)).
Proof.
  destruct (addToSearchHistory_bounded
              (holding KEYS_SEARCH_HISTORY (strings ten_cities)) ten_cities "Kyiv")
    as (l & w' & Hrun & _ & _ & Hback & Hevict); [vm_compute; reflexivity|].
  specialize (Hevict eq_refl eq_refl). subst l.
  exists w'. split; [exact Hrun|]. apply Hback. vm_compute. reflexivity.
Defined.

(** ** Favorites *)

Lemma name_of_get fav s :
  name_of fav = Some s -> get fav "name" = Return (VStr s).
Proof.
  destruct fav as [| | | | |l|props]; try discriminate. cbn.
  destruct (assoc "name" props) as [[]|]; try discriminate.
  by intros [= ->].
Qed.

Lemma name_matches_named fav name :
  named fav = true ->
  name_matches (get fav "name") (Return (VStr name))
  = Return (fav_matches name fav).
Proof.
  unfold named, fav_matches. destruct (name_of fav) as [s|] eqn:E; [|discriminate].
  intros _. rewrite (name_of_get _ _ E). reflexivity.
Qed.

Lemma someM_matches name favs :
  forallb named favs = true ->
  someM (fun fav => name_matches (get fav "name") (Return (VStr name))) favs
  = Return (existsb (fav_matches name) favs).
Proof.
  induction favs as [|f favs IH]; [reflexivity|].
  cbn [forallb someM existsb]. intros [Hf Hr]%andb_prop.
  rewrite (name_matches_named _ _ Hf). cbn.
  destruct (fav_matches name f); [reflexivity|]. by apply IH.
Qed.

Lemma filterM_matches name favs :
  forallb named favs = true ->
  filterM (fun fav =>
             cbind (name_matches (get fav "name") (Return (VStr name)))
                   (fun e => Return (negb e))) favs
  = Return (List.filter (fun f => negb (fav_matches name f)) favs).
Proof.
  induction favs as [|f favs IH]; [reflexivity|].
  cbn [forallb filterM List.filter]. intros [Hf Hr]%andb_prop.
  rewrite (name_matches_named _ _ Hf), (IH Hr). cbn.
  destruct (fav_matches name f); reflexivity.
Qed.

(** A read that gives something else than the caller's default found it in
    the store, and left the world as it was. *)
Lemma getItem_found key d v w :
  fst (getItem key d w) = Return v -> v <> param_default VNull d ->
  getItem key d w = (Return v, w).
Proof.
  rewrite getItem_run. cbv zeta.
  destruct (ls_denied w); cbn; [congruence|].
  destruct (ls_items w !! key) as [data|]; cbn; [|congruence].
  destruct (truthy_string data); cbn; [|congruence].
  destruct (JSON.parse data); cbn; congruence.
Qed.

(** C3. For every favorites collection and every location: when an entry
    has the location's name ignoring case, [addToFavorites] returns the
    failure result with its message and leaves the world as it was;
    otherwise it returns the success result with the collection extended at
    its end by the new entry, stamped with the time of the clock, and that
    collection is what is written to the store (when the store takes the
    write). *)
Theorem addToFavorites_spec (w : World) (favs : list value) (location : value)
    (name : string) :
  fst (getFavorites w) = Return (VArr favs) ->
  forallb named favs = true ->
  get location "name" = Return (VStr name) ->
  (existsb (fav_matches name) favs = true ->
   addToFavorites location w = (Return already_message, w))
  /\ (existsb (fav_matches name) favs = false ->
      exists entry w',
        let updated := favs ++ [entry] in
        addToFavorites location w = (Return (added_message updated), w')
        /\ get entry "name" = Return (VStr name)
        /\ get entry "country" = get location "country"
        /\ get entry "lat" = get location "lat"
        /\ get entry "lon" = get location "lon"
        /\ get entry "addedAt" = Return (VStr (clock w))
        /\ ls_items w'
           = (if accepts w KEYS_FAVORITES (VArr updated)
              then <[KEYS_FAVORITES := to_data (JSON.stringify (VArr updated))]> (ls_items w)
              else ls_items w)).
Proof.
  intros Hget Hnamed Hname.
  pose proof (getItem_same_store KEYS_FAVORITES (VArr []) w) as Hs.
  fold getFavorites in Hs.
  unfold addToFavorites, bind. split; intros Hex.
  - assert (Hw : getFavorites w = (Return (VArr favs), w)).
    { apply getItem_found; [exact Hget|].
      cbn. intros [= ->]. discriminate. }
    rewrite Hw. unfold lift, call_some. rewrite Hname.
    rewrite (someM_matches _ _ Hnamed), Hex. reflexivity.
  - destruct (getFavorites w) as [r w1] eqn:E. cbn in Hget, Hs. subst r.
    unfold lift, call_some. rewrite Hname.
    rewrite (someM_matches _ _ Hnamed), Hex. cbn [negb spread].
    destruct location as [| | | | |l|props]; try discriminate.
    cbn [get]. unfold Date_now_toISOString, ret.
    set (u := VArr _).
    destruct (setItem_returns KEYS_FAVORITES u w1) as [b Hb].
    pose proof (setItem_items KEYS_FAVORITES u w1) as Hi.
    destruct (setItem KEYS_FAVORITES u w1) as [r2 w2]. cbn [fst snd] in Hb, Hi. subst r2.
    eexists _, w2. rewrite (accepts_same_store w w1 _ _ Hs) in Hi.
    destruct Hs as (Hitems & _ & _ & Hclock).
    rewrite Hitems in Hi. subst u. rewrite Hclock in *.
    cbn in Hname. injection Hname as Hname.
    cbv zeta. repeat (split; [reflexivity|]). exact Hi.
Qed.

Lemma addToFavorites_spec_witness :
  addToFavorites (VObj [("name", VStr "paris"); ("country", VStr "FR")])
    (holding KEYS_FAVORITES (VArr [paris]))
  = (Return already_message, holding KEYS_FAVORITES (VArr [paris])).
Proof.
  apply (addToFavorites_spec (holding KEYS_FAVORITES (VArr [paris])) [paris]
           (VObj [("name", VStr "paris"); ("country", VStr "FR")]) "paris");
    vm_compute; reflexivity.
Defined.

(** Adding "Paris" and then "paris" to an empty store: the second call
    reports failure and one favorite, named "Paris", is stored. *)
Example paris_then_paris :
  let w1 := snd (addToFavorites (VObj [("name", VStr "Paris")]) fresh_world) in
  fst (addToFavorites (VObj [("name", VStr "paris")]) w1) = Return already_message
  /\ fst (getFavorites (snd (addToFavorites (VObj [("name", VStr "paris")]) w1)))
     = Return (VArr [VObj [ ("name", VStr "Paris");
                            ("addedAt", VStr (clock fresh_world)) ]]).
Proof. vm_compute. split; reflexivity. Qed.

Lemma getItem_clean key d w :
  reads_cleanly w key = true -> snd (getItem key d w) = w.
Proof.
  rewrite getItem_run. unfold reads_cleanly. cbv zeta.
  destruct (ls_denied w); cbn; [discriminate|].
  destruct (ls_items w !! key) as [data|]; cbn; [|reflexivity].
  destruct (truthy_string data); cbn; [|reflexivity].
  destruct (JSON.parse data); cbn; [reflexivity|discriminate].
Qed.

Lemma setItem_console key v w :
  accepts w key v = true -> console (snd (setItem key v w)) = console w.
Proof.
  rewrite setItem_run. unfold accepts. cbv zeta.
  destruct (ls_denied w); cbn; [discriminate|].
  destruct (ls_fits w (ls_items w) key _); cbn; [reflexivity|discriminate].
Qed.

Lemma filter_idem {A} (f : A -> bool) l :
  List.filter f (List.filter f l) = List.filter f l.
Proof.
  induction l as [|x l IH]; cbn; [reflexivity|].
  destruct (f x) eqn:E; cbn; [rewrite E; by f_equal|exact IH].
Qed.

Lemma filter_none {A} (f : A -> bool) l :
  existsb f l = false -> List.filter (fun x => negb (f x)) l = l.
Proof.
  induction l as [|x l IH]; cbn; [reflexivity|].
  destruct (f x); cbn; [discriminate|]. intros H. by rewrite IH.
Qed.

Lemma removeFromFavorites_run name favs w :
  fst (getFavorites w) = Return (VArr favs) ->
  forallb named favs = true ->
  removeFromFavorites (VStr name) w
  = (Return (VArr (without name favs)),
     snd (setItem KEYS_FAVORITES (VArr (without name favs)) (snd (getFavorites w)))).
Proof.
  intros Hget Hnamed. unfold removeFromFavorites, bind.
  destruct (getFavorites w) as [r w1]. cbn [fst snd] in *. subst r.
  unfold lift, call_filter. rewrite (filterM_matches _ _ Hnamed).
  fold (without name favs).
  destruct (setItem_returns KEYS_FAVORITES (VArr (without name favs)) w1) as [b Hb].
  destruct (setItem _ _ w1) as [r2 w2]. cbn [fst snd] in *. subst r2. reflexivity.
Qed.

Lemma setItem_refused key v w :
  accepts w key v = false -> same_store w (snd (setItem key v w)).
Proof.
  rewrite setItem_run. unfold accepts. cbv zeta.
  destruct (ls_denied w); [repeat split|]. cbn [negb andb]. intros ->. repeat split.
Qed.

Lemma forallb_filter {A} (f g : A -> bool) l :
  forallb f l = true -> forallb f (List.filter g l) = true.
Proof.
  induction l as [|x l IH]; [done|]. cbn. intros [H1 H2]%andb_prop.
  destruct (g x); cbn; [rewrite H1|]; by apply IH.
Qed.

Lemma existsb_without name favs :
  existsb (fav_matches name) (without name favs) = false.
Proof.
  unfold without. induction favs as [|f favs IH]; [reflexivity|]. cbn.
  destruct (fav_matches name f) eqn:E; cbn; [exact IH|]. by rewrite E.
Qed.

(** C4. For every favorites collection and every name,
    [removeFromFavorites(name)] returns the collection without the entries
    whose name matches ignoring case, and that collection is what is written
    to the store (when the store takes the write).  A second call returns
    the same collection and leaves the store as the first left it.  When no
    entry matches, the collection returned is the collection itself, and on
    a store that reads and takes the write nothing is reported. *)
Theorem removeFromFavorites_spec (w : World) (favs : list value) (name : string) :
  fst (getFavorites w) = Return (VArr favs) ->
  forallb named favs = true ->
  exists w',
    removeFromFavorites (VStr name) w = (Return (VArr (without name favs)), w')
    /\ existsb (fav_matches name) (without name favs) = false
    /\ ls_items w'
       = (if accepts w KEYS_FAVORITES (VArr (without name favs))
          then <[KEYS_FAVORITES := to_data (JSON.stringify (VArr (without name favs)))]>
                 (ls_items w)
          else ls_items w)
    /\ fst (removeFromFavorites (VStr name) w') = Return (VArr (without name favs))
    /\ ls_items (snd (removeFromFavorites (VStr name) w')) = ls_items w'
    /\ (existsb (fav_matches name) favs = false -> without name favs = favs)
    /\ (reads_cleanly w KEYS_FAVORITES = true ->
        accepts w KEYS_FAVORITES (VArr (without name favs)) = true ->
        console w' = console w).
Proof.
  intros Hget Hnamed.
  set (kept := without name favs).
  pose proof (removeFromFavorites_run name favs w Hget Hnamed) as Hrun. fold kept in Hrun.
  pose proof (getItem_same_store KEYS_FAVORITES (VArr []) w) as Hs.
  fold getFavorites in Hs.
  set (w1 := snd (getFavorites w)) in *.
  set (w' := snd (setItem KEYS_FAVORITES (VArr kept) w1)) in *.
  assert (Hitems : ls_items w'
                   = if accepts w KEYS_FAVORITES (VArr kept)
                     then <[KEYS_FAVORITES := to_data (JSON.stringify (VArr kept))]> (ls_items w)
                     else ls_items w).
  { subst w'. rewrite setItem_items, (accepts_same_store w w1 _ _ Hs).
    by destruct Hs as (-> & _). }
  assert (Hjson : is_json (VArr kept) = true).
  { rewrite is_json_VArr. apply forallb_filter. rewrite <- is_json_VArr.
    by apply (getItem_is_json KEYS_FAVORITES (VArr []) _ w). }
  assert (Hnamed' : forallb named kept = true) by by apply forallb_filter.
  assert (Hagain : exists favs2,
             fst (getFavorites w') = Return (VArr favs2)
             /\ forallb named favs2 = true /\ without name favs2 = kept).
  { destruct (accepts w1 KEYS_FAVORITES (VArr kept)) eqn:Hacc.
    - exists kept. split; [by apply getItem_after_setItem|].
      split; [exact Hnamed'|apply filter_idem].
    - exists favs. split; [|by split].
      pose proof (setItem_refused _ _ _ Hacc) as (Hi & Hd & _). fold w' in Hi, Hd.
      destruct Hs as (Hi1 & Hd1 & _).
      rewrite <- Hget. apply getItem_depends; congruence. }
  destruct Hagain as (favs2 & Hget2 & Hnamed2 & Hkept2).
  pose proof (removeFromFavorites_run name favs2 w' Hget2 Hnamed2) as Hrun2.
  rewrite Hkept2 in Hrun2.
  exists w'. split; [exact Hrun|]. split; [apply existsb_without|].
  split; [exact Hitems|]. split; [by rewrite Hrun2|].
  split; [|split].
  - rewrite Hrun2. cbn [snd]. rewrite setItem_items.
    pose proof (getItem_same_store KEYS_FAVORITES (VArr []) w') as Hs2.
    fold getFavorites in Hs2.
    rewrite (accepts_same_store w' _ _ _ Hs2).
    destruct Hs2 as (-> & _).
    destruct (accepts w' KEYS_FAVORITES (VArr kept)) eqn:Hacc2; [|reflexivity].
    destruct (accepts w1 KEYS_FAVORITES (VArr kept)) eqn:Hacc.
    + rewrite Hitems. rewrite <- (accepts_same_store w w1 _ _ Hs). rewrite Hacc.
      apply insert_insert_eq.
    + pose proof (setItem_refused _ _ _ Hacc) as Hs3. fold w' in Hs3.
      rewrite (accepts_same_store w1 w' _ _ Hs3) in Hacc2. congruence.
  - apply filter_none.
  - intros Hclean Hacc. subst w'.
    rewrite setItem_console by by rewrite (accepts_same_store w w1 _ _ Hs).
    subst w1. unfold getFavorites. by rewrite getItem_clean.
Qed.

Lemma removeFromFavorites_spec_witness :
  fst (removeFromFavorites (VStr "TOKYO")
         (holding KEYS_FAVORITES (VArr [paris; VObj [("name", VStr "Tokyo")]])))
  = Return (VArr [paris]).
Proof.
  destruct (removeFromFavorites_spec
              (holding KEYS_FAVORITES (VArr [paris; VObj [("name", VStr "Tokyo")]]))
              [paris; VObj [("name", VStr "Tokyo")]] "TOKYO")
    as (w' & Hrun & _); [vm_compute; reflexivity..|].
  rewrite Hrun. reflexivity.
Defined.

(** Removing a name from a store without favorites: the empty collection
    comes back and the console stays empty. *)
Example remove_nowhere :
  fst (removeFromFavorites (VStr "Nowhere") fresh_world) = Return (VArr [])
  /\ console (snd (removeFromFavorites (VStr "Nowhere") fresh_world)) = [].
Proof. vm_compute. split; reflexivity. Qed.

(** [isFavorite] is membership ignoring case. *)
Lemma isFavorite_member (w : World) (favs : list value) (name : string) :
  fst (getFavorites w) = Return (VArr favs) ->
  forallb named favs = true ->
  fst (isFavorite (VStr name) w) = Return (existsb (fav_matches name) favs).
Proof.
  intros Hget Hnamed. unfold isFavorite, bind.
  destruct (getFavorites w) as [r w1]. cbn [fst] in Hget. subst r.
  unfold lift, call_some. cbn [fst]. by apply someM_matches.
Qed.

(** ** The generic read *)

(** C5, as the code has it.  For every key and every default value,
    [getItem(key, default)] never throws to the caller and changes nothing
    but the console.  When the storage is unavailable or the stored text is
    not valid JSON it returns the caller's default ([null] when none is
    given) and reports the failure; when the key is missing, or holds the
    empty string, it returns that default and reports nothing; otherwise it
    returns the parsed value. *)
Theorem getItem_total (w : World) (key : string) (d : value) :
  exists v w',
    getItem key d w = (Return v, w')
    /\ same_store w w'
    /\ (ls_denied w = true ->
        v = param_default VNull d
        /\ console w' = console w
             ++ [Diag LError ("Error reading " +:+ key +:+ " from localStorage:")
                   (Some (DOMException "SecurityError"))])
    /\ (ls_denied w = false -> ls_items w !! key = None ->
        v = param_default VNull d /\ console w' = console w)
    /\ (forall data,
          ls_denied w = false -> ls_items w !! key = Some data ->
          (truthy_string data = false ->
           v = param_default VNull d /\ console w' = console w)
          /\ (forall e, truthy_string data = true -> JSON.parse data = Throw e ->
              v = param_default VNull d
              /\ console w' = console w
                   ++ [Diag LError ("Error reading " +:+ key +:+ " from localStorage:")
                         (Some e)])
          /\ (forall x, truthy_string data = true -> JSON.parse data = Return x ->
              v = x /\ console w' = console w)).
Proof.
  pose proof (getItem_same_store key d w) as Hs.
  rewrite getItem_run in *. cbv zeta in *.
  destruct (ls_denied w) eqn:Hd.
  { eexists _, _. split; [reflexivity|]. split; [exact Hs|].
    split; [done|]. split; [done|]. done. }
  destruct (ls_items w !! key) as [data|] eqn:Hk.
  2:{ eexists _, _. split; [reflexivity|]. split; [exact Hs|].
      split; [done|]. split; [done|]. done. }
  destruct (truthy_string data) eqn:Ht.
  2:{ eexists _, _. split; [reflexivity|]. split; [exact Hs|].
      split; [done|]. split; [done|].
      intros data' _ [= <-]. rewrite Ht. repeat split; done. }
  destruct (JSON.parse data) as [x|e] eqn:Hp.
  - eexists _, _. split; [reflexivity|]. split; [exact Hs|].
    split; [done|]. split; [done|].
    intros data' _ [= <-]. rewrite Ht, Hp.
    split; [done|]. split; [done|]. by intros ? _ [= <-].
  - eexists _, _. split; [reflexivity|]. split; [exact Hs|].
    split; [done|]. split; [done|].
    intros data' _ [= <-]. rewrite Ht, Hp.
    split; [done|]. split; [|done]. by intros ? _ [= <-].
Qed.

Lemma getItem_total_witness :
  exists w',
    getItem KEYS_THEME (VStr "light") broken_theme = (Return (VStr "light"), w')
    /\ console w'
       = [Diag LError "Error reading weather_theme from localStorage:" (Some SyntaxError)].
Proof.
  destruct (getItem_total broken_theme KEYS_THEME (VStr "light"))
    as (v & w' & Hrun & _ & _ & _ & Hdata).
  destruct (Hdata "{oops" eq_refl eq_refl) as (_ & Hbad & _).
  destruct (Hbad SyntaxError eq_refl eq_refl) as (-> & Hc).
  exists w'. split; [exact Hrun|exact Hc].
Defined.

(** C5 as it is stated fails on a missing key: the read of a key that was
    never written returns the default and the console stays empty. *)
Lemma getItem_missing_key_unreported :
  ls_items fresh_world !! KEYS_THEME = None
  /\ fst (getItem KEYS_THEME (VStr "light") fresh_world) = Return (VStr "light")
  /\ console (snd (getItem KEYS_THEME (VStr "light") fresh_world)) = [].
Proof. repeat split. Qed.

(** ** Theme *)

(** C9. After [setTheme("dark")] on a store that takes the write,
    [getTheme()] returns ["dark"]; on a store with no theme entry
    [getTheme()] returns the default ["light"]. *)
Theorem theme_round_trip :
  (forall w : World,
     accepts w KEYS_THEME (VStr "dark") = true ->
     fst (getTheme (snd (setTheme (VStr "dark") w))) = Return (VStr "dark"))
  /\ (forall w : World,
        ls_items w !! KEYS_THEME = None ->
        fst (getTheme w) = Return (VStr "light")).
Proof.
  split.
  - intros w Hacc. unfold setTheme, bind.
    destruct (setItem_returns KEYS_THEME (VStr "dark") w) as [b Hb].
    pose proof (getItem_after_setItem KEYS_THEME (VStr "light") (VStr "dark") w Hacc eq_refl)
      as Hback.
    destruct (setItem KEYS_THEME (VStr "dark") w) as [r w1].
    cbn [fst snd] in *. subst r. exact Hback.
  - intros w Hnone. unfold getTheme. rewrite getItem_run. cbv zeta.
    destruct (ls_denied w); [reflexivity|]. by rewrite Hnone.
Qed.

Lemma theme_round_trip_witness :
  fst (getTheme (snd (setTheme (VStr "dark") fresh_world))) = Return (VStr "dark")
  /\ fst (getTheme fresh_world) = Return (VStr "light").
Proof.
  split.
  - apply (proj1 theme_round_trip). vm_compute. reflexivity.
  - apply (proj2 theme_round_trip). vm_compute. reflexivity.
Defined.

(** ** Results and persistence *)

Lemma addToSearchHistory_fst city w :
  fst (addToSearchHistory city w)
  = cbind (fst (getSearchHistory w)) (fun history =>
    cbind (call_filter history (fun item => lower_differ item city)) (fun others =>
    Return (VArr (slice0 10 (city :: others))))).
Proof.
  unfold addToSearchHistory, bind.
  destruct (getItem_returns KEYS_SEARCH_HISTORY (VArr []) w) as [h Hh].
  fold getSearchHistory in Hh.
  destruct (getSearchHistory w) as [r w1]. cbn [fst] in *. subst r. cbn [cbind].
  unfold lift. destruct (call_filter h _) as [others|e]; [|reflexivity]. cbn [cbind].
  destruct (setItem_returns KEYS_SEARCH_HISTORY (VArr (slice0 10 (city :: others))) w1)
    as [b Hb].
  destruct (setItem _ _ w1) as [r2 w2]. cbn [fst] in Hb. subst r2. reflexivity.
Qed.

Lemma addToFavorites_fst location w :
  fst (addToFavorites location w)
  = cbind (fst (getFavorites w)) (fun favorites =>
    cbind (call_some favorites (fun fav =>
             name_matches (get fav "name") (get location "name"))) (fun exists_ =>
    if negb exists_ then
      cbind (spread favorites) (fun items =>
      cbind (get location "name") (fun name =>
      cbind (get location "country") (fun country =>
      cbind (get location "lat") (fun lat =>
      cbind (get location "lon") (fun lon =>
      Return (added_message
                (items ++ [VObj [ ("name", name); ("country", country); ("lat", lat);
                                  ("lon", lon); ("addedAt", VStr (clock w)) ]])))))))
    else Return already_message)).
Proof.
  unfold addToFavorites, bind.
  destruct (getItem_returns KEYS_FAVORITES (VArr []) w) as [h Hh].
  pose proof (getItem_same_store KEYS_FAVORITES (VArr []) w) as (_ & _ & _ & Hclock).
  fold getFavorites in Hh, Hclock.
  destruct (getFavorites w) as [r w1]. cbn [fst snd] in *. subst r. cbn [cbind].
  unfold lift. destruct (call_some h _) as [ex|e]; [|reflexivity]. cbn [cbind].
  destruct ex; [reflexivity|]. cbn [negb].
  destruct (spread h) as [items|e]; [|reflexivity]. cbn [cbind].
  destruct (get location "name") as [name|e]; [|reflexivity]. cbn [cbind].
  destruct (get location "country") as [country|e]; [|reflexivity]. cbn [cbind].
  destruct (get location "lat") as [lat|e]; [|reflexivity]. cbn [cbind].
  destruct (get location "lon") as [lon|e]; [|reflexivity]. cbn [cbind].
  unfold Date_now_toISOString, ret. rewrite Hclock.
  match goal with |- context [setItem ?k ?v w1] =>
    destruct (setItem_returns k v w1) as [b Hb]; destruct (setItem k v w1) as [r2 w2]
  end.
  cbn [fst] in Hb. subst r2. reflexivity.
Qed.

(** ** Usage statistics *)


Lemma item_size w key :
  match ls_items w !! key with
  | Some data => if truthy_string data then utf8_length data else 0%Z
  | None => 0%Z
  end = stored_size w key.
Proof.
  unfold stored_size. destruct (ls_items w !! key) as [data|]; [|reflexivity].
  by destruct data.
Qed.



Lemma stats_loop_run entries total stats w :
  ls_denied w = false ->
  stats_loop entries total stats w
  = (Return
       (fold_left (fun t e => t + stored_size w (snd e))%Z entries total,
        fold_left (fun st e => JSON.obj_set st (fst e) (stat_entry (stored_size w (snd e))))
                  entries stats),
     w).
Proof.
  intros Hd. revert total stats.
  induction entries as [|[name key] entries IH]; intros total stats; [reflexivity|].
  cbn [stats_loop fold_left fst snd]. unfold bind, localStorage_getItem. rewrite Hd.
  rewrite item_size. apply IH.
Qed.



Lemma getItem_lookup key d w1 w2 :
  ls_denied w1 = ls_denied w2 -> ls_items w1 !! key = ls_items w2 !! key ->
  fst (getItem key d w1) = fst (getItem key d w2).
Proof.
  intros Hd Hk. rewrite !getItem_run. cbv zeta. rewrite Hd, Hk.
  destruct (ls_denied w2); [reflexivity|].
  destruct (ls_items w2 !! key) as [data|]; [|reflexivity].
  destruct (truthy_string data); [|reflexivity].
  destruct (JSON.parse data); reflexivity.
Qed.

Lemma setItem_accepted key v w :
  accepts w key v = true ->
  setItem key v w
  = (Return true, set_items w (<[key := to_data (JSON.stringify v)]> (ls_items w))).
Proof.
  intros Hacc. rewrite setItem_run. cbv zeta. unfold accepts in Hacc.
  destruct (ls_denied w); [discriminate|]. cbn [negb andb] in Hacc. by rewrite Hacc.
Qed.

Lemma setItem_rejected key v w :
  accepts w key v = false ->
  setItem key v w
  = (Return false, set_console w (console w ++ [write_error key (write_failure w)])).
Proof.
  intros Hacc. rewrite setItem_run. cbv zeta. unfold accepts, write_failure in *.
  destruct (ls_denied w); [reflexivity|]. cbn [negb andb] in Hacc. by rewrite Hacc.
Qed.

Lemma getItem_stored key d v w :
  accepts w key v = true -> keyed v = true -> v <> VUndefined ->
  getItem key d (snd (setItem key v w))
  = (Return (stored_form v), snd (setItem key v w)).
Proof.
  intros Hacc Hk Hne.
  destruct (parse_stringify_stored v Hk Hne) as (s & Hs & Ht & Hp).
  rewrite (setItem_accepted _ _ _ Hacc). cbn [snd]. rewrite getItem_run. cbv zeta.
  unfold accepts in Hacc. destruct (ls_denied w) eqn:Hd; [discriminate|].
  cbn [ls_denied ls_items set_items]. rewrite Hd, lookup_insert_eq, Hs.
  cbn [to_data default]. unfold id. by rewrite Ht, Hp.
Qed.

(** ** The generic write *)

(** X1. [setItem(key, value)] never throws.  It returns [true] exactly when
    the store takes the write, and then the entry of the key holds the text
    of the value and nothing is reported; otherwise it returns [false], the
    entries stay as they were and one error is reported, with the exception
    of the store. *)
Theorem setItem_outcome (w : World) (key : string) (v : value) :
  exists w',
    setItem key v w = (Return (accepts w key v), w')
    /\ ls_denied w' = ls_denied w /\ ls_fits w' = ls_fits w /\ clock w' = clock w
    /\ (if accepts w key v
        then ls_items w' = <[key := to_data (JSON.stringify v)]> (ls_items w)
             /\ console w' = console w
        else ls_items w' = ls_items w
             /\ console w' = console w ++ [write_error key (write_failure w)]).
Proof.
  destruct (accepts w key v) eqn:Hacc.
  - rewrite (setItem_accepted _ _ _ Hacc). eexists. split; [reflexivity|]. by repeat split.
  - rewrite (setItem_rejected _ _ _ Hacc). eexists. split; [reflexivity|]. by repeat split.
Qed.

(** X2. On a store that takes the write, [getItem(key, d)] after
    [setItem(key, v)] returns what [v] is once serialized and parsed, which
    is [v] itself when [v] is a JSON value, whatever the default [d], and
    reports nothing; what a read of another key returns is not changed by
    the write. *)
Theorem getItem_reads_back (w : World) (key : string) (v d : value) :
  accepts w key v = true -> keyed v = true -> v <> VUndefined ->
  exists w',
    setItem key v w = (Return true, w')
    /\ getItem key d w' = (Return (stored_form v), w')
    /\ (is_json v = true -> stored_form v = v)
    /\ (forall key' d', key' <> key ->
        fst (getItem key' d' w') = fst (getItem key' d' w)).
Proof.
  intros Hacc Hk Hne.
  pose proof (getItem_stored key d v w Hacc Hk Hne) as Hback.
  rewrite (setItem_accepted _ _ _ Hacc) in *. cbn [snd] in Hback.
  eexists. split; [reflexivity|]. split; [exact Hback|].
  split; [apply is_json_stored_form|].
  intros key' d' Hkey. apply getItem_lookup; [reflexivity|].
  cbn [ls_items set_items]. by apply lookup_insert_ne.
Qed.

Lemma getItem_reads_back_witness :
  exists w',
    setItem "place" somewhere fresh_world = (Return true, w')
    /\ getItem "place" VUndefined w'
       = (Return (VObj [ ("name", VStr "Oslo"); ("lat", VNum (Dec 599 1));
                         ("tags", VArr [VNull; VBool true]) ]), w').
Proof.
  destruct (getItem_reads_back fresh_world "place" somewhere VUndefined)
    as (w' & Hset & Hget & _); [vm_compute; reflexivity|vm_compute; reflexivity|discriminate|].
  exists w'. split; [exact Hset|exact Hget].
Defined.

(** X3. [setItem(key, undefined)], on a store that takes the write, stores
    the text [undefined], which is not JSON: the next [getItem] of the key
    reports a [SyntaxError] and returns the default. *)
Theorem setItem_undefined (w : World) (key : string) (d : value) :
  accepts w key VUndefined = true ->
  exists w1 w2,
    setItem key VUndefined w = (Return true, w1)
    /\ ls_items w1 !! key = Some "undefined"
    /\ getItem key d w1 = (Return (param_default VNull d), w2)
    /\ ls_items w2 = ls_items w1
    /\ console w2 = console w ++ [read_error key SyntaxError].
Proof.
  intros Hacc. rewrite (setItem_accepted _ _ _ Hacc).
  eexists _, _. split; [reflexivity|].
  cbn [ls_items set_items]. split; [apply lookup_insert_eq|].
  rewrite getItem_run. cbv zeta. cbn [ls_items ls_denied set_items].
  unfold accepts in Hacc. destruct (ls_denied w); [discriminate|].
  rewrite lookup_insert_eq. cbn. split; [reflexivity|]. by split.
Qed.

Lemma setItem_undefined_witness :
  exists w1 w2,
    setItem KEYS_THEME VUndefined fresh_world = (Return true, w1)
    /\ getItem KEYS_THEME (VStr "light") w1 = (Return (VStr "light"), w2)
    /\ console w2 = [read_error KEYS_THEME SyntaxError].
Proof.
  destruct (setItem_undefined fresh_world KEYS_THEME (VStr "light") eq_refl)
    as (w1 & w2 & Hset & _ & Hget & _ & Hc).
  exists w1, w2. split; [exact Hset|]. split; [exact Hget|exact Hc].
Defined.

(** ** Preferences *)

Lemma discard_result {A} (m : M World A) (w : World) a :
  fst (m w) = Return a ->
  bind m (fun _ => ret VUndefined) w = (Return VUndefined, snd (m w)).
Proof. unfold bind, ret. destruct (m w) as [r w1]. cbn. by intros ->. Qed.

Lemma set_and_forget key v w :
  bind (setItem key v) (fun _ => ret VUndefined) w
  = (Return VUndefined, snd (setItem key v w)).
Proof.
  destruct (setItem_returns key v w) as [b Hb]. by apply (discard_result _ _ b).
Qed.

Lemma setItem_other_key key key' v w :
  key' <> key -> ls_items (snd (setItem key v w)) !! key' = ls_items w !! key'.
Proof.
  intros Hne. rewrite setItem_items.
  destruct (accepts w key v); [by apply lookup_insert_ne|reflexivity].
Qed.

Lemma setItem_denied key v w : ls_denied (snd (setItem key v w)) = ls_denied w.
Proof.
  rewrite setItem_run. cbv zeta.
  destruct (ls_denied w) eqn:E; [exact E|].
  destruct (ls_fits w (ls_items w) key _); exact E.
Qed.

(** X4. [setUnit(unit)] never throws and returns nothing.  On a store that
    takes the write, [getUnit()] then returns the unit that was set, for
    every JSON value (the unit is not validated); the theme that
    [getTheme()] returns is not changed by it, nor the unit by [setTheme].
    On a store that can be read and holds no unit, [getUnit()] returns
    ["celsius"]. *)
Theorem unit_round_trip (w : World) (unit_ : value) :
  exists w',
    setUnit unit_ w = (Return VUndefined, w')
    /\ (accepts w KEYS_UNIT unit_ = true -> is_json unit_ = true ->
        getUnit w' = (Return unit_, w'))
    /\ fst (getTheme w') = fst (getTheme w)
    /\ (forall theme, fst (getUnit (snd (setTheme theme w))) = fst (getUnit w))
    /\ (ls_items w !! KEYS_UNIT = None -> fst (getUnit w) = Return (VStr "celsius")).
Proof.
  unfold setUnit, setTheme. rewrite set_and_forget. eexists. split; [reflexivity|].
  split; [|split; [|split]].
  - intros Hacc Hj. unfold getUnit.
    rewrite (getItem_stored _ _ _ _ Hacc (is_json_keyed _ Hj)) by (by destruct unit_).
    by rewrite (is_json_stored_form _ Hj).
  - apply getItem_lookup; [apply setItem_denied|by apply setItem_other_key].
  - intros theme. rewrite set_and_forget. cbn [snd].
    apply getItem_lookup; [apply setItem_denied|by apply setItem_other_key].
  - intros Hnone. unfold getUnit. rewrite getItem_run. cbv zeta.
    destruct (ls_denied w); [reflexivity|]. by rewrite Hnone.
Qed.

Lemma unit_round_trip_witness :
  exists w',
    setUnit (VStr "fahrenheit") fresh_world = (Return VUndefined, w')
    /\ getUnit w' = (Return (VStr "fahrenheit"), w')
    /\ fst (getUnit fresh_world) = Return (VStr "celsius").
Proof.
  destruct (unit_round_trip fresh_world (VStr "fahrenheit"))
    as (w' & Hset & Hget & _ & _ & Hdef).
  exists w'. split; [exact Hset|]. split; [by apply Hget|]. apply Hdef. apply lookup_empty.
Defined.

(** ** Clearing *)

(** X5. [clearSearchHistory()] never throws.  On a store that takes the
    write the history entry then holds the text of the empty array (the key
    is not removed), the next read gives the empty history and the next
    [addToSearchHistory(city)] a history of that city alone; on a store that
    does not, the entries stay and the failure is reported. *)
Theorem clearSearchHistory_spec (w : World) :
  exists w',
    clearSearchHistory w = (Return VUndefined, w')
    /\ (accepts w KEYS_SEARCH_HISTORY (VArr []) = true ->
        ls_items w' = <[KEYS_SEARCH_HISTORY := "[]"]> (ls_items w)
        /\ console w' = console w
        /\ getSearchHistory w' = (Return (VArr []), w')
        /\ forall city, fst (addToSearchHistory city w') = Return (VArr [city]))
    /\ (accepts w KEYS_SEARCH_HISTORY (VArr []) = false ->
        ls_items w' = ls_items w
        /\ console w' = console w ++ [write_error KEYS_SEARCH_HISTORY (write_failure w)]).
Proof.
  unfold clearSearchHistory. rewrite set_and_forget. eexists. split; [reflexivity|].
  split; intros Hacc.
  - assert (Hback : getSearchHistory (snd (setItem KEYS_SEARCH_HISTORY (VArr []) w))
                    = (Return (VArr []), snd (setItem KEYS_SEARCH_HISTORY (VArr []) w))).
    { unfold getSearchHistory. by rewrite (getItem_stored _ _ _ _ Hacc). }
    rewrite (setItem_accepted _ _ _ Hacc) in *. cbn [snd] in *.
    split; [reflexivity|]. split; [reflexivity|]. split; [exact Hback|].
    intros city. rewrite addToSearchHistory_fst, Hback. reflexivity.
  - rewrite (setItem_rejected _ _ _ Hacc). by split.
Qed.

Lemma clearSearchHistory_spec_witness :
  exists w',
    clearSearchHistory (holding KEYS_SEARCH_HISTORY (strings ten_cities))
    = (Return VUndefined, w')
    /\ getSearchHistory w' = (Return (VArr []), w')
    /\ fst (addToSearchHistory (VStr "Kyiv") w') = Return (VArr [VStr "Kyiv"]).
Proof.
  destruct (clearSearchHistory_spec (holding KEYS_SEARCH_HISTORY (strings ten_cities)))
    as (w' & Hrun & Hok & _).
  destruct (Hok eq_refl) as (_ & _ & Hget & Hadd).
  exists w'. split; [exact Hrun|]. split; [exact Hget|apply Hadd].
Defined.

Lemma clearAll_run w :
  ls_denied w = false ->
  clearAll w = (Return VUndefined, set_items w (without_module_keys (ls_items w))).
Proof.
  intros Hd. unfold clearAll, KEYS, bind. cbn [forEach snd].
  unfold bind, localStorage_removeItem, ret.
  repeat (cbn [ls_denied ls_items set_items]; rewrite Hd).
  reflexivity.
Qed.

Lemma without_module_keys_lookup m k :
  without_module_keys m !! k
  = if bool_decide (k ∈ map snd KEYS) then None else m !! k.
Proof.
  unfold without_module_keys. cbn [map KEYS snd].
  destruct (bool_decide _) eqn:E.
  - apply bool_decide_eq_true in E.
    repeat (apply elem_of_cons in E as [->|E]);
      [ rewrite !lookup_delete_ne by done; apply lookup_delete_eq
      | rewrite !lookup_delete_ne by done; apply lookup_delete_eq
      | rewrite !lookup_delete_ne by done; apply lookup_delete_eq
      | apply lookup_delete_eq
      | by apply elem_of_nil in E ].
  - apply bool_decide_eq_false in E.
    rewrite !lookup_delete_ne; [reflexivity|..];
      intros <-; apply E; repeat constructor.
Qed.

(** X6. On a store that can be accessed, [clearAll()] removes the four
    entries of the module and no other entry, and reports nothing.  After it
    every getter returns its default and [getStorageStats()] counts no byte. *)
Theorem clearAll_spec (w : World) :
  ls_denied w = false ->
  exists w',
    clearAll w = (Return VUndefined, w')
    /\ (forall k, ls_items w' !! k
                  = if bool_decide (k ∈ map snd KEYS) then None else ls_items w !! k)
    /\ console w' = console w
    /\ getSearchHistory w' = (Return (VArr []), w')
    /\ getFavorites w' = (Return (VArr []), w')
    /\ getTheme w' = (Return (VStr "light"), w')
    /\ getUnit w' = (Return (VStr "celsius"), w')
    /\ getStorageStats w' = (Return (stats_result 0 0 0 0), w').
Proof.
  intros Hd. rewrite (clearAll_run _ Hd). eexists. split; [reflexivity|].
  split; [intros k; apply without_module_keys_lookup|].
  split; [reflexivity|].
  assert (Hget : forall key d,
             key ∈ map snd KEYS -> param_default VNull d = d ->
             getItem key d (set_items w (without_module_keys (ls_items w)))
             = (Return d, set_items w (without_module_keys (ls_items w)))).
  { intros key d Hin Hdef. rewrite getItem_run. cbv zeta.
    cbn [ls_denied ls_items set_items]. rewrite Hd, without_module_keys_lookup.
    by rewrite bool_decide_eq_true_2, Hdef. }
  unfold getSearchHistory, getFavorites, getTheme, getUnit.
  rewrite !Hget by (reflexivity || (cbn; repeat constructor)).
  repeat (split; [reflexivity|]).
  unfold getStorageStats, bind. rewrite stats_loop_run by exact Hd.
  unfold stored_size. cbn [KEYS fold_left fst snd ls_items set_items].
  rewrite !without_module_keys_lookup.
  rewrite !bool_decide_eq_true_2 by (cbn; repeat constructor).
  reflexivity.
Qed.

Lemma clearAll_spec_witness :
  exists w',
    clearAll busy_world = (Return VUndefined, w')
    /\ ls_items w' !! "other_app" = Some "1"
    /\ ls_items w' !! KEYS_FAVORITES = None
    /\ getTheme w' = (Return (VStr "light"), w').
Proof.
  destruct (clearAll_spec busy_world eq_refl) as (w' & Hrun & Hitems & _ & _ & _ & Ht & _).
  exists w'. split; [exact Hrun|]. rewrite !Hitems. split; [|split; [|exact Ht]].
  - vm_compute. reflexivity.
  - vm_compute. reflexivity.
Defined.

(** X7. [clearAll] and [getStorageStats] access the store outside any
    try-catch: when the store cannot be accessed they throw its exception to
    the caller, report nothing and change nothing. *)
Theorem unguarded_calls_throw (w : World) :
  ls_denied w = true ->
  clearAll w = (Throw (DOMException "SecurityError"), w)
  /\ getStorageStats w = (Throw (DOMException "SecurityError"), w).
Proof.
  intros Hd. split.
  - unfold clearAll, KEYS, bind. cbn [forEach snd].
    unfold bind, localStorage_removeItem. by rewrite Hd.
  - unfold getStorageStats, KEYS, bind. cbn [stats_loop].
    unfold bind, localStorage_getItem. by rewrite Hd.
Qed.

Lemma unguarded_calls_throw_witness :
  clearAll denied_world = (Throw (DOMException "SecurityError"), denied_world)
  /\ getStorageStats denied_world = (Throw (DOMException "SecurityError"), denied_world).
Proof. apply unguarded_calls_throw. reflexivity. Defined.

(** ** What a call leaves alone *)

Lemma frame_ret R {A} (a : A) : (forall w, R w w) -> frame R (ret a).
Proof. intros Hr w. apply Hr. Qed.

Lemma frame_lift R {A} (c : completion A) : (forall w, R w w) -> frame R (lift c).
Proof. intros Hr w. apply Hr. Qed.

Lemma frame_bind R {A B} (m : M World A) (k : A -> M World B) :
  (forall a b c, R a b -> R b c -> R a c) ->
  frame R m -> (forall a, frame R (k a)) -> frame R (bind m k).
Proof.
  intros Ht Hm Hk w. unfold bind. specialize (Hm w).
  destruct (m w) as [[a|e] w1]; cbn [snd] in *; [|exact Hm].
  eapply Ht; [exact Hm|apply Hk].
Qed.

Lemma same_items_refl w : same_items w w.
Proof. by split. Qed.

Lemma same_items_trans a b c : same_items a b -> same_items b c -> same_items a c.
Proof. intros [H1 H2] [H3 H4]. split; congruence. Qed.

Lemma same_but_refl key w : same_but key w w.
Proof. by split. Qed.

Lemma same_but_trans key a b c : same_but key a b -> same_but key b c -> same_but key a c.
Proof.
  intros [H1 H2] [H3 H4]. split; [congruence|].
  intros k Hk. by rewrite H4, H2.
Qed.

Lemma same_items_but key w w' : same_items w w' -> same_but key w w'.
Proof. intros [H1 H2]. split; [exact H1|]. intros k _. by rewrite H2. Qed.

Lemma getItem_same_items key d : frame same_items (getItem key d).
Proof. intros w. destruct (getItem_same_store key d w) as (Hi & Hd & _). by split. Qed.

Lemma setItem_same_but key v : frame (same_but key) (setItem key v).
Proof.
  intros w. split; [apply setItem_denied|]. intros k Hk. by apply setItem_other_key.
Qed.

Lemma same_items_read key d w w' :
  same_items w w' -> fst (getItem key d w') = fst (getItem key d w).
Proof. intros [Hd Hi]. apply getItem_lookup; [exact Hd|by rewrite Hi]. Qed.

Lemma same_but_read key key' d w w' :
  same_but key w w' -> key' <> key -> fst (getItem key' d w') = fst (getItem key' d w).
Proof. intros [Hd Hi] Hne. apply getItem_lookup; [exact Hd|by apply Hi]. Qed.

Ltac frame_steps refl trans :=
  repeat first
    [ apply frame_ret; exact refl
    | apply frame_lift; exact refl
    | apply frame_bind; [exact trans| |intro]
    | match goal with |- frame _ (if ?b then _ else _) => destruct b end ].

Lemma addToSearchHistory_frame city :
  frame (same_but KEYS_SEARCH_HISTORY) (addToSearchHistory city).
Proof.
  unfold addToSearchHistory, getSearchHistory.
  frame_steps (same_but_refl KEYS_SEARCH_HISTORY) (same_but_trans KEYS_SEARCH_HISTORY).
  - intros w. apply same_items_but, getItem_same_items.
  - apply setItem_same_but.
Qed.

Lemma clearSearchHistory_frame :
  frame (same_but KEYS_SEARCH_HISTORY) clearSearchHistory.
Proof.
  unfold clearSearchHistory.
  frame_steps (same_but_refl KEYS_SEARCH_HISTORY) (same_but_trans KEYS_SEARCH_HISTORY).
  apply setItem_same_but.
Qed.

Lemma addToFavorites_frame location :
  frame (same_but KEYS_FAVORITES) (addToFavorites location).
Proof.
  unfold addToFavorites, getFavorites.
  frame_steps (same_but_refl KEYS_FAVORITES) (same_but_trans KEYS_FAVORITES).
  - intros w. apply same_items_but, getItem_same_items.
  - intros w. apply same_but_refl.
  - apply setItem_same_but.
Qed.

Lemma removeFromFavorites_frame name :
  frame (same_but KEYS_FAVORITES) (removeFromFavorites name).
Proof.
  unfold removeFromFavorites, getFavorites.
  frame_steps (same_but_refl KEYS_FAVORITES) (same_but_trans KEYS_FAVORITES).
  - intros w. apply same_items_but, getItem_same_items.
  - apply setItem_same_but.
Qed.

Lemma setTheme_frame theme : frame (same_but KEYS_THEME) (setTheme theme).
Proof.
  unfold setTheme.
  frame_steps (same_but_refl KEYS_THEME) (same_but_trans KEYS_THEME).
  apply setItem_same_but.
Qed.

Lemma setUnit_frame unit_ : frame (same_but KEYS_UNIT) (setUnit unit_).
Proof.
  unfold setUnit.
  frame_steps (same_but_refl KEYS_UNIT) (same_but_trans KEYS_UNIT).
  apply setItem_same_but.
Qed.

Lemma isFavorite_frame name : frame same_items (isFavorite name).
Proof.
  unfold isFavorite, getFavorites.
  frame_steps same_items_refl same_items_trans.
  apply getItem_same_items.
Qed.

Lemma stats_loop_frame entries total stats :
  frame same_items (stats_loop entries total stats).
Proof.
  revert total stats. induction entries as [|[name key] entries IH]; intros total stats.
  - apply frame_ret, same_items_refl.
  - cbn [stats_loop]. apply frame_bind; [exact same_items_trans| |intro; apply IH].
    intros w. unfold localStorage_getItem. destruct (ls_denied w); apply same_items_refl.
Qed.

Lemma getStorageStats_frame : frame same_items getStorageStats.
Proof.
  unfold getStorageStats.
  apply frame_bind; [exact same_items_trans|apply stats_loop_frame|].
  intros result. apply frame_ret, same_items_refl.
Qed.

(** X8. Each writer of the module changes at most the entry of its own key:
    whatever its argument, and whether it returns or throws, the entries
    under every other key are after the call what they were before. *)
Theorem writes_stay_in_their_key (w : World) (x : value) (k : string) :
  (k <> KEYS_SEARCH_HISTORY ->
   ls_items (snd (addToSearchHistory x w)) !! k = ls_items w !! k
   /\ ls_items (snd (clearSearchHistory w)) !! k = ls_items w !! k)
  /\ (k <> KEYS_FAVORITES ->
      ls_items (snd (addToFavorites x w)) !! k = ls_items w !! k
      /\ ls_items (snd (removeFromFavorites x w)) !! k = ls_items w !! k)
  /\ (k <> KEYS_THEME -> ls_items (snd (setTheme x w)) !! k = ls_items w !! k)
  /\ (k <> KEYS_UNIT -> ls_items (snd (setUnit x w)) !! k = ls_items w !! k).
Proof.
  split; [|split; [|split]]; intros Hk; [split|split| |].
  - by apply (addToSearchHistory_frame x w).
  - by apply (clearSearchHistory_frame w).
  - by apply (addToFavorites_frame x w).
  - by apply (removeFromFavorites_frame x w).
  - by apply (setTheme_frame x w).
  - by apply (setUnit_frame x w).
Qed.

Lemma writes_stay_in_their_key_witness :
  ls_items (snd (addToSearchHistory (VStr "Kyiv") busy_world)) !! KEYS_FAVORITES
  = ls_items busy_world !! KEYS_FAVORITES
  /\ ls_items (snd (removeFromFavorites (VStr "Paris") busy_world)) !! KEYS_THEME
     = ls_items busy_world !! KEYS_THEME.
Proof.
  split.
  - apply (writes_stay_in_their_key busy_world (VStr "Kyiv") KEYS_FAVORITES). discriminate.
  - apply (writes_stay_in_their_key busy_world (VStr "Paris") KEYS_THEME). discriminate.
Defined.

(** X9. The readers of the module never write: after [getItem], the four
    getters, [isFavorite] and [getStorageStats] the store holds the entries
    it held, whatever it holds and whether the call returns or throws. *)
Theorem reads_never_write (w : World) (key : string) (x : value) :
  ls_items (snd (getItem key x w)) = ls_items w
  /\ ls_items (snd (getSearchHistory w)) = ls_items w
  /\ ls_items (snd (getFavorites w)) = ls_items w
  /\ ls_items (snd (getTheme w)) = ls_items w
  /\ ls_items (snd (getUnit w)) = ls_items w
  /\ ls_items (snd (isFavorite x w)) = ls_items w
  /\ ls_items (snd (getStorageStats w)) = ls_items w.
Proof.
  repeat split; try apply getItem_same_items.
  - apply (isFavorite_frame x w).
  - apply (getStorageStats_frame w).
Qed.

(** ** The search history over several calls *)

Lemma filter_sublist {A} (f : A -> bool) l : sublist (List.filter f l) l.
Proof.
  induction l as [|x l IH]; [constructor|]. cbn. destruct (f x); by constructor.
Qed.

Lemma same_name_lower a b : same_name a b = true <-> toLowerCase a = toLowerCase b.
Proof. apply String.eqb_eq. Qed.

Lemma updated_history_distinct city hist :
  NoDup (map toLowerCase hist) -> NoDup (map toLowerCase (updated_history city hist)).
Proof.
  intros Hnd. unfold updated_history. cbn [map]. apply NoDup_cons. split.
  - intros (s & Hs & Hin)%list_elem_of_fmap.
    assert (Hz : occurrences city
                   (firstn 9 (List.filter (fun s => negb (same_name s city)) hist)) = 0)
      by apply occurrences_firstn, filter_differ_clean.
    apply list_elem_of_In in Hin.
    pose proof (occurrences_zero _ _ Hz s Hin) as Hne.
    symmetry in Hs. apply same_name_lower in Hs. congruence.
  - eapply sublist_NoDup; [exact Hnd|]. apply fmap_sublist.
    etrans; [apply sublist_take|apply filter_sublist].
Qed.

Lemma updated_history_length city hist : length (updated_history city hist) <= 10.
Proof.
  unfold updated_history. cbn [length].
  pose proof (length_firstn_le 9 (List.filter (fun s => negb (same_name s city)) hist)). lia.
Qed.

Lemma history_ok_same w w' : same_items w w' -> history_ok w -> history_ok w'.
Proof.
  intros Hs (hist & Hget & Hok). exists hist. split; [|exact Hok].
  unfold getSearchHistory in *. by rewrite (same_items_read _ _ _ _ Hs).
Qed.

Lemma history_ok_other key w w' :
  same_but key w w' -> key <> KEYS_SEARCH_HISTORY -> history_ok w -> history_ok w'.
Proof.
  intros Hs Hne (hist & Hget & Hok). exists hist. split; [|exact Hok].
  unfold getSearchHistory in *. rewrite (same_but_read _ _ _ _ _ Hs); [exact Hget|done].
Qed.

Lemma same_store_items w w' : same_store w w' -> same_items w w'.
Proof. intros (Hi & Hd & _). by split. Qed.

(** X10. The stored search history stays well formed.  It is on a store that
    holds none; [addToSearchHistory] with a string, [clearSearchHistory] and
    the writers of the favorites and of the preferences, whatever their
    arguments and whether the store takes their writes or not, leave a
    history of at most 10 strings that are distinct ignoring case when they
    find one. *)
Theorem history_stays_ok (w : World) (city : string) (x : value) :
  (ls_items w !! KEYS_SEARCH_HISTORY = None -> history_ok w)
  /\ (history_ok w ->
      history_ok (snd (addToSearchHistory (VStr city) w))
      /\ history_ok (snd (clearSearchHistory w))
      /\ history_ok (snd (addToFavorites x w))
      /\ history_ok (snd (removeFromFavorites x w))
      /\ history_ok (snd (setTheme x w))
      /\ history_ok (snd (setUnit x w))).
Proof.
  split.
  { intros Hnone. exists []. split; [|split; [constructor|cbn; lia]].
    unfold getSearchHistory. rewrite getItem_run. cbv zeta.
    destruct (ls_denied w); [reflexivity|]. by rewrite Hnone. }
  intros Hok. split; [|split; [|split; [|split; [|split]]]].
  - destruct Hok as (hist & Hget & Hnd & Hlen).
    destruct (addToSearchHistory_run city hist w Hget) as (b & w1 & Hget1 & Hrun & _).
    pose proof (getItem_same_store KEYS_SEARCH_HISTORY (VArr []) w) as Hs.
    fold getSearchHistory in Hs. rewrite Hget1 in Hs. cbn [snd] in Hs.
    rewrite Hrun. cbn [snd]. set (u := updated_history city hist).
    destruct (accepts w1 KEYS_SEARCH_HISTORY (strings u)) eqn:Hacc.
    + exists u. split; [by apply getItem_after_setItem; [|apply is_json_strings]|].
      split; [by apply updated_history_distinct|apply updated_history_length].
    + exists hist. split; [|by split].
      pose proof (setItem_refused _ _ _ Hacc) as Hs2.
      unfold getSearchHistory in *. rewrite <- Hget.
      apply same_items_read. eapply same_items_trans; by apply same_store_items.
  - unfold clearSearchHistory. rewrite set_and_forget. cbn [snd].
    destruct (accepts w KEYS_SEARCH_HISTORY (VArr [])) eqn:Hacc.
    + exists []. split; [|split; [constructor|cbn; lia]].
      unfold getSearchHistory. by rewrite (getItem_stored _ _ _ _ Hacc).
    + eapply history_ok_same; [|exact Hok].
      by apply same_store_items, setItem_refused.
  - eapply history_ok_other; [apply (addToFavorites_frame x w)|done|exact Hok].
  - eapply history_ok_other; [apply (removeFromFavorites_frame x w)|done|exact Hok].
  - eapply history_ok_other; [apply (setTheme_frame x w)|done|exact Hok].
  - eapply history_ok_other; [apply (setUnit_frame x w)|done|exact Hok].
Qed.

Lemma history_stays_ok_witness :
  history_ok (snd (addToSearchHistory (VStr "Delhi")
                     (snd (addToSearchHistory (VStr "oslo") fresh_world)))).
Proof.
  assert (H0 : history_ok fresh_world)
    by (apply (proj1 (history_stays_ok fresh_world "oslo" VNull)); apply lookup_empty).
  pose proof (proj1 (proj2 (history_stays_ok fresh_world "oslo" VNull) H0)) as H1.
  exact (proj1 (proj2 (history_stays_ok _ "Delhi" VNull) H1)).
Defined.

Lemma same_name_occurrences c1 c2 l :
  same_name c1 c2 = true -> occurrences c2 l = occurrences c1 l.
Proof.
  intros H%same_name_lower. unfold occurrences. f_equal.
  assert (He : forall s, same_name c2 s = same_name c1 s)
    by (intros s; unfold same_name; by rewrite H).
  induction l as [|s l IH]; [reflexivity|]. cbn [List.filter].
  by rewrite He, IH.
Qed.

(** X11. Searching a city that heads the history again, in any spelling of
    its case, on a store that took the first write: the history returned is
    the one of the first search with the new spelling in front; no entry is
    added or lost. *)
Theorem addToSearchHistory_again (w : World) (hist : list string) (c1 c2 : string) :
  fst (getSearchHistory w) = Return (strings hist) ->
  same_name c1 c2 = true ->
  accepts w KEYS_SEARCH_HISTORY (strings (updated_history c1 hist)) = true ->
  exists rest w1,
    addToSearchHistory (VStr c1) w = (Return (strings (c1 :: rest)), w1)
    /\ fst (addToSearchHistory (VStr c2) w1) = Return (strings (c2 :: rest)).
Proof.
  intros Hget Hsame Hacc.
  destruct (addToSearchHistory_run c1 hist w Hget) as (b & w1 & Hget1 & Hrun & _).
  pose proof (getItem_same_store KEYS_SEARCH_HISTORY (VArr []) w) as Hs.
  fold getSearchHistory in Hs. rewrite Hget1 in Hs. cbn [snd] in Hs.
  rewrite <- (accepts_same_store w w1 _ _ Hs) in Hacc.
  set (rest := firstn 9 (List.filter (fun s => negb (same_name s c1)) hist)).
  exists rest. eexists. split; [exact Hrun|].
  pose proof (getItem_after_setItem KEYS_SEARCH_HISTORY (VArr []) _ w1 Hacc
                (is_json_strings _)) as Hback.
  fold getSearchHistory in Hback.
  destruct (addToSearchHistory_run c2 _ _ Hback) as (b2 & w2 & _ & Hrun2 & _).
  rewrite Hrun2. cbn [fst]. do 2 f_equal.
  unfold updated_history. fold rest. cbn [List.filter].
  rewrite Hsame. cbn [negb].
  assert (Hz : occurrences c2 rest = 0).
  { rewrite (same_name_occurrences c1 c2 _ Hsame).
    apply occurrences_firstn, filter_differ_clean. }
  rewrite (filter_differ_none _ _ Hz). f_equal.
  apply firstn_all2. apply length_firstn_le.
Qed.

Lemma addToSearchHistory_again_witness :
  exists rest w1,
    addToSearchHistory (VStr "paris") (holding KEYS_SEARCH_HISTORY (strings ten_cities))
    = (Return (strings ("paris" :: rest)), w1)
    /\ fst (addToSearchHistory (VStr "PARIS") w1) = Return (strings ("PARIS" :: rest)).
Proof.
  apply (addToSearchHistory_again (holding KEYS_SEARCH_HISTORY (strings ten_cities))
           ten_cities "paris" "PARIS"); vm_compute; reflexivity.
Defined.

(** ** A history that is not a list of strings *)

Lemma filterM_type_error (f : value -> completion bool) l :
  (forall x, type_checked (f x)) ->
  (exists x, In x l /\ f x = Throw TypeError) ->
  filterM f l = Throw TypeError.
Proof.
  intros Hf. induction l as [|x l IH]; intros (y & Hin & Hy); [destruct Hin|].
  cbn [filterM]. destruct (Hf x) as [[b Hb]| ->]; [|reflexivity].
  rewrite Hb. cbn [cbind]. rewrite IH; [reflexivity|].
  exists y. split; [|exact Hy]. destruct Hin as [->|Hin]; [congruence|exact Hin].
Qed.

Lemma call_toLowerCase_checked v :
  (exists s, v = VStr s /\ call_toLowerCase v = Return (VStr (toLowerCase s)))
  \/ ((forall s, v <> VStr s) /\ call_toLowerCase v = Throw TypeError).
Proof. destruct v; try (right; by split); left; by eexists. Qed.

Lemma lower_differ_checked item city : type_checked (lower_differ item city).
Proof.
  unfold lower_differ, lower_equal, type_checked.
  destruct (call_toLowerCase_checked item) as [(s & _ & ->)|[_ ->]]; [|by right].
  destruct (call_toLowerCase_checked city) as [(s' & _ & ->)|[_ ->]]; [|by right].
  left. by eexists.
Qed.

Lemma lower_differ_item item city :
  (forall s, item <> VStr s) -> lower_differ item city = Throw TypeError.
Proof.
  intros H. unfold lower_differ, lower_equal.
  by destruct (call_toLowerCase_checked item) as [(s & -> & _)|[_ ->]]; [destruct (H s)|].
Qed.

Lemma not_string_array l :
  string_array (VArr l) = false -> exists x, In x l /\ forall s, x <> VStr s.
Proof.
  cbn [string_array]. induction l as [|x l IH]; [discriminate|]. cbn [forallb].
  destruct x; cbn [andb];
    try (intros _; eexists; split; [by left|discriminate]).
  intros (y & Hin & Hy)%IH. exists y. split; [by right|exact Hy].
Qed.

Lemma history_filter_error h city :
  string_array h = false ->
  call_filter h (fun item => lower_differ item city) = Throw TypeError.
Proof.
  intros Hbad. destruct h as [| | | | |l|]; try reflexivity. cbn [call_filter].
  apply filterM_type_error; [intros x; apply lower_differ_checked|].
  destruct (not_string_array l Hbad) as (x & Hin & Hx).
  exists x. split; [exact Hin|by apply lower_differ_item].
Qed.

(** X12. When the stored history is valid JSON but not an array of strings,
    [addToSearchHistory] throws a [TypeError] whatever the city: nothing is
    written and nothing is reported. *)
Theorem addToSearchHistory_type_error (w : World) (h city : value) :
  fst (getSearchHistory w) = Return h -> string_array h = false ->
  addToSearchHistory city w = (Throw TypeError, w).
Proof.
  intros Hget Hbad.
  assert (Hw : getSearchHistory w = (Return h, w)).
  { apply getItem_found; [exact Hget|]. intros ->. discriminate. }
  unfold addToSearchHistory, bind. rewrite Hw. unfold lift.
  by rewrite (history_filter_error _ _ Hbad).
Qed.

Lemma addToSearchHistory_type_error_witness :
  addToSearchHistory (VStr "Oslo")
    (holding KEYS_SEARCH_HISTORY (VArr [VStr "Rome"; VNum (Dec 42 0)]))
  = (Throw TypeError, holding KEYS_SEARCH_HISTORY (VArr [VStr "Rome"; VNum (Dec 42 0)])).
Proof.
  apply (addToSearchHistory_type_error _ (VArr [VStr "Rome"; VNum (Dec 42 0)]));
    vm_compute; reflexivity.
Defined.

(** X13. When the stored history is not valid JSON,
    [addToSearchHistory(city)] reports the failed read, takes the history
    for empty and returns the city alone; on a store that takes the write
    that list replaces the text that could not be read. *)
Theorem addToSearchHistory_recovers (w : World) (data : string) (e : exn) (city : value) :
  ls_denied w = false ->
  ls_items w !! KEYS_SEARCH_HISTORY = Some data ->
  truthy_string data = true ->
  JSON.parse data = Throw e ->
  exists w',
    addToSearchHistory city w = (Return (VArr [city]), w')
    /\ (if accepts w KEYS_SEARCH_HISTORY (VArr [city])
        then ls_items w'
             = <[KEYS_SEARCH_HISTORY := to_data (JSON.stringify (VArr [city]))]> (ls_items w)
             /\ console w' = console w ++ [read_error KEYS_SEARCH_HISTORY e]
        else ls_items w' = ls_items w
             /\ console w' = console w ++ [read_error KEYS_SEARCH_HISTORY e;
                                           write_error KEYS_SEARCH_HISTORY (write_failure w)]).
Proof.
  intros Hd Hk Ht Hp. unfold addToSearchHistory, bind, getSearchHistory.
  rewrite getItem_run. cbv zeta. rewrite Hd, Hk, Ht, Hp.
  cbn [param_default lift call_filter filterM slice0 firstn].
  set (w1 := set_console w _).
  assert (Hacc : accepts w1 KEYS_SEARCH_HISTORY (VArr [city])
                 = accepts w KEYS_SEARCH_HISTORY (VArr [city])) by reflexivity.
  destruct (accepts w KEYS_SEARCH_HISTORY (VArr [city])) eqn:E.
  - rewrite (setItem_accepted _ _ _ Hacc). eexists. split; [reflexivity|]. by split.
  - rewrite (setItem_rejected _ _ _ Hacc). eexists. split; [reflexivity|].
    split; [reflexivity|]. cbn [console set_console w1]. by rewrite <- app_assoc.
Qed.

Lemma addToSearchHistory_recovers_witness :
  exists w',
    addToSearchHistory (VStr "Oslo") broken_history = (Return (strings ["Oslo"]), w')
    /\ console w' = [read_error KEYS_SEARCH_HISTORY SyntaxError]
    /\ fst (getSearchHistory w') = Return (strings ["Oslo"]).
Proof.
  destruct (addToSearchHistory_recovers broken_history "[1,2" SyntaxError (VStr "Oslo"))
    as (w' & Hrun & Hitems & Hc); [reflexivity..|].
  exists w'. split; [exact Hrun|]. split; [exact Hc|].
  unfold getSearchHistory. rewrite getItem_run. cbv zeta.
  assert (Hd : ls_denied w' = false).
  { pose proof (f_equal snd Hrun) as Hw. cbn [snd] in Hw. rewrite <- Hw.
    apply (addToSearchHistory_frame (VStr "Oslo") broken_history). }
  rewrite Hd, Hitems. vm_compute. reflexivity.
Defined.

Lemma stored_form_not_string v : (forall s, v <> VStr s) -> forall s, stored_form v <> VStr s.
Proof. intros H s. destruct v; try discriminate. destruct (H s0). reflexivity. Qed.

(** X14. The city is not validated.  On an empty history a city that is not
    a string is returned and stored as the only entry; from then on every
    [addToSearchHistory], whatever its argument, throws a [TypeError] and
    leaves the store as it is. *)
Theorem addToSearchHistory_unvalidated (w : World) (city : value) :
  fst (getSearchHistory w) = Return (VArr []) ->
  (forall s, city <> VStr s) ->
  keyed city = true ->
  accepts w KEYS_SEARCH_HISTORY (VArr [city]) = true ->
  exists w',
    addToSearchHistory city w = (Return (VArr [city]), w')
    /\ getSearchHistory w' = (Return (VArr [stored_form city]), w')
    /\ forall next, addToSearchHistory next w' = (Throw TypeError, w').
Proof.
  intros Hget Hcity Hk Hacc.
  pose proof (getItem_same_store KEYS_SEARCH_HISTORY (VArr []) w) as Hs.
  fold getSearchHistory in Hs.
  unfold addToSearchHistory at 1. unfold bind.
  destruct (getSearchHistory w) as [r w1]. cbn [fst snd] in Hget, Hs. subst r.
  cbn [lift call_filter filterM slice0 firstn].
  rewrite <- (accepts_same_store w w1 _ _ Hs) in Hacc.
  assert (Hback : getSearchHistory (snd (setItem KEYS_SEARCH_HISTORY (VArr [city]) w1))
                  = (Return (VArr [stored_form city]),
                     snd (setItem KEYS_SEARCH_HISTORY (VArr [city]) w1))).
  { unfold getSearchHistory. rewrite (getItem_stored _ _ _ _ Hacc); [reflexivity| |done].
    cbn [keyed forallb]. by rewrite Hk. }
  rewrite (setItem_accepted _ _ _ Hacc) in *. cbn [snd] in Hback.
  eexists. split; [reflexivity|]. split; [exact Hback|].
  intros next. unfold addToSearchHistory, bind. rewrite Hback. unfold lift.
  rewrite history_filter_error; [reflexivity|].
  cbn [string_array forallb].
  pose proof (stored_form_not_string city Hcity) as Hn.
  destruct (stored_form city); try reflexivity. by destruct (Hn s).
Qed.

Lemma addToSearchHistory_unvalidated_witness :
  exists w',
    addToSearchHistory (VNum (Dec 42 0)) fresh_world = (Return (VArr [VNum (Dec 42 0)]), w')
    /\ addToSearchHistory (VStr "Oslo") w' = (Throw TypeError, w').
Proof.
  destruct (addToSearchHistory_unvalidated fresh_world (VNum (Dec 42 0)))
    as (w' & Hrun & _ & Hnext); [reflexivity|discriminate|reflexivity|reflexivity|].
  exists w'. split; [exact Hrun|apply Hnext].
Defined.

(** ** Favorites over several calls *)

Lemma get_prop location k :
  location <> VNull -> location <> VUndefined -> get location k = Return (prop location k).
Proof. intros H1 H2. unfold prop. by destruct location. Qed.

Lemma get_named location name k :
  get location "name" = Return (VStr name) -> get location k = Return (prop location k).
Proof. intros H. apply get_prop; intros ->; discriminate. Qed.

Lemma keyed_assoc k props :
  forallb (fun kv => keyed (snd kv)) props = true ->
  keyed (default VUndefined (assoc k props)) = true.
Proof.
  induction props as [|[k' x] props IH]; [reflexivity|].
  cbn [forallb assoc snd]. intros [H1 H2]%andb_prop.
  destruct (String.eqb k k'); [exact H1|by apply IH].
Qed.

Lemma keyed_prop location k : keyed location = true -> keyed (prop location k) = true.
Proof.
  unfold prop. destruct location as [| | | | | |props]; try reflexivity.
  cbn [get keyed]. intros [_ H]%andb_prop. by apply keyed_assoc.
Qed.

Lemma keyed_favorite_entry location t :
  keyed location = true -> keyed (favorite_entry location t) = true.
Proof.
  intros H. unfold favorite_entry. cbn [keyed forallb snd map fst].
  rewrite !keyed_prop by exact H. cbn [andb]. rewrite andb_true_r.
  apply bool_decide_eq_true. by apply (bool_decide_unpack _).
Qed.

Lemma name_of_stored_entry location name t :
  get location "name" = Return (VStr name) ->
  name_of (stored_form (favorite_entry location t)) = Some name.
Proof.
  intros H. unfold favorite_entry, prop at 1. rewrite H.
  rewrite stored_form_VObj. reflexivity.
Qed.

Lemma stored_form_items l : is_json (VArr l) = true -> map stored_form l = l.
Proof. intros H%is_json_stored_form. cbn [stored_form] in H. by injection H. Qed.

Lemma getFavorites_is_json w favs :
  fst (getFavorites w) = Return (VArr favs) -> is_json (VArr favs) = true.
Proof. apply (getItem_is_json KEYS_FAVORITES (VArr [])). reflexivity. Qed.

Lemma fav_matches_same a b fav :
  same_name a b = true -> fav_matches b fav = fav_matches a fav.
Proof.
  intros H%same_name_lower. unfold fav_matches, same_name.
  destruct (name_of fav); [|reflexivity]. by rewrite H.
Qed.

Lemma existsb_ext_eq {A} (f g : A -> bool) l :
  (forall x, f x = g x) -> existsb f l = existsb g l.
Proof. intros H. induction l as [|x l IH]; [reflexivity|]. cbn. by rewrite H, IH. Qed.

Lemma isFavorite_run name favs w :
  getFavorites w = (Return (VArr favs), w) ->
  forallb named favs = true ->
  isFavorite (VStr name) w = (Return (existsb (fav_matches name) favs), w).
Proof.
  intros Hget Hnamed. unfold isFavorite, bind. rewrite Hget.
  unfold lift, call_some. by rewrite someM_matches.
Qed.

Lemma addToFavorites_known location name favs w :
  getFavorites w = (Return (VArr favs), w) ->
  forallb named favs = true ->
  get location "name" = Return (VStr name) ->
  existsb (fav_matches name) favs = true ->
  addToFavorites location w = (Return already_message, w).
Proof.
  intros Hget Hnamed Hname Hex. unfold addToFavorites, bind. rewrite Hget.
  unfold lift, call_some. rewrite Hname, (someM_matches _ _ Hnamed), Hex. reflexivity.
Qed.

Lemma addToFavorites_new location name favs w :
  fst (getFavorites w) = Return (VArr favs) ->
  forallb named favs = true ->
  get location "name" = Return (VStr name) ->
  existsb (fav_matches name) favs = false ->
  addToFavorites location w
  = (Return (added_message (favs ++ [favorite_entry location (clock w)])),
     snd (setItem KEYS_FAVORITES (VArr (favs ++ [favorite_entry location (clock w)]))
            (snd (getFavorites w)))).
Proof.
  intros Hget Hnamed Hname Hex.
  pose proof (getItem_same_store KEYS_FAVORITES (VArr []) w) as (_ & _ & _ & Hclock).
  fold getFavorites in Hclock.
  assert (Hp : prop location "name" = VStr name) by (unfold prop; by rewrite Hname).
  unfold favorite_entry. rewrite Hp.
  unfold addToFavorites, bind.
  destruct (getFavorites w) as [r w1]. cbn [fst snd] in *. subst r.
  unfold lift, call_some. rewrite Hname, (someM_matches _ _ Hnamed), Hex.
  cbn [negb spread]. rewrite !(get_named _ _ _ Hname).
  unfold Date_now_toISOString, ret. rewrite Hclock.
  match goal with |- context [setItem ?k ?v w1] =>
    destruct (setItem_returns k v w1) as [b Hb]; destruct (setItem k v w1) as [r2 w2]
  end.
  cbn [fst snd] in *. by subst r2.
Qed.

Lemma filter_app_last {A} (f : A -> bool) l x :
  List.filter f (l ++ [x]) = List.filter f l ++ (if f x then [x] else []).
Proof. induction l as [|y l IH]; cbn; [done|]. rewrite IH. by destruct (f y). Qed.

(** X15. Adding a location that no favorite matches, on a store that takes
    the write: the collection read back is the old one followed by the new
    entry as stored, [isFavorite] finds the location under every spelling of
    its name's case, a second [addToFavorites] of such a name is refused and
    changes nothing, and [removeFromFavorites] of it gives the old
    collection back. *)
Theorem added_favorite_is_found (w : World) (favs : list value) (location : value)
    (name other : string) :
  fst (getFavorites w) = Return (VArr favs) ->
  forallb named favs = true ->
  get location "name" = Return (VStr name) ->
  keyed location = true ->
  existsb (fav_matches name) favs = false ->
  accepts w KEYS_FAVORITES (VArr (favs ++ [favorite_entry location (clock w)])) = true ->
  same_name name other = true ->
  exists w',
    addToFavorites location w
    = (Return (added_message (favs ++ [favorite_entry location (clock w)])), w')
    /\ getFavorites w'
       = (Return (VArr (favs ++ [stored_form (favorite_entry location (clock w))])), w')
    /\ isFavorite (VStr other) w' = (Return true, w')
    /\ (forall again, get again "name" = Return (VStr other) ->
        addToFavorites again w' = (Return already_message, w'))
    /\ fst (removeFromFavorites (VStr other) w') = Return (VArr favs).
Proof.
  intros Hget Hnamed Hname Hk Hex Hacc Hsame.
  pose proof (getItem_same_store KEYS_FAVORITES (VArr []) w) as Hs.
  fold getFavorites in Hs.
  rewrite (addToFavorites_new _ _ _ _ Hget Hnamed Hname Hex).
  set (entry := favorite_entry location (clock w)) in *.
  set (w1 := snd (getFavorites w)) in *.
  rewrite <- (accepts_same_store w w1 _ _ Hs) in Hacc.
  set (w' := snd (setItem KEYS_FAVORITES (VArr (favs ++ [entry])) w1)).
  assert (Hback : getFavorites w' = (Return (VArr (favs ++ [stored_form entry])), w')).
  { unfold getFavorites, w'.
    rewrite (getItem_stored KEYS_FAVORITES (VArr []) _ _ Hacc); [| |done].
    - cbn [stored_form]. rewrite map_app. cbn [map].
      by rewrite (stored_form_items _ (getFavorites_is_json _ _ Hget)).
    - cbn [keyed]. rewrite forallb_app. cbn [forallb]. unfold entry.
      rewrite (keyed_favorite_entry location (clock w) Hk).
      pose proof (is_json_keyed _ (getFavorites_is_json _ _ Hget)) as Hkf.
      cbn [keyed] in Hkf. by rewrite Hkf. }
  pose proof (name_of_stored_entry location name (clock w) Hname) as Hentry.
  fold entry in Hentry.
  assert (Hnamed' : forallb named (favs ++ [stored_form entry]) = true).
  { rewrite forallb_app, Hnamed. cbn [forallb andb]. unfold named. by rewrite Hentry. }
  assert (Hhit : fav_matches other (stored_form entry) = true).
  { unfold fav_matches. by rewrite Hentry. }
  assert (Hex' : existsb (fav_matches other) (favs ++ [stored_form entry]) = true).
  { rewrite existsb_app. cbn [existsb]. rewrite Hhit. by rewrite orb_true_r. }
  exists w'. split; [reflexivity|]. split; [exact Hback|].
  split; [|split].
  - rewrite (isFavorite_run _ _ _ Hback Hnamed'). by rewrite Hex'.
  - intros again Hagain. by apply (addToFavorites_known _ other _ _ Hback Hnamed').
  - rewrite (removeFromFavorites_run other (favs ++ [stored_form entry]) w');
      [|by rewrite Hback|exact Hnamed'].
    cbn [fst]. do 2 f_equal. unfold without. rewrite filter_app_last, Hhit.
    cbn [negb]. rewrite app_nil_r. apply filter_none.
    rewrite <- Hex. apply existsb_ext_eq. intros fav. by apply fav_matches_same.
Qed.

Lemma added_favorite_is_found_witness :
  exists w',
    fst (addToFavorites (VObj [("name", VStr "Oslo"); ("lat", VNum (Dec 5991 2))])
           (holding KEYS_FAVORITES (VArr [paris])))
    = Return (added_message
                [paris; favorite_entry (VObj [("name", VStr "Oslo"); ("lat", VNum (Dec 5991 2))])
                          (clock fresh_world)])
    /\ isFavorite (VStr "OSLO") w' = (Return true, w')
    /\ fst (removeFromFavorites (VStr "OSLO") w') = Return (VArr [paris]).
Proof.
  destruct (added_favorite_is_found (holding KEYS_FAVORITES (VArr [paris])) [paris]
              (VObj [("name", VStr "Oslo"); ("lat", VNum (Dec 5991 2))]) "Oslo" "OSLO")
    as (w' & Hrun & _ & Hfound & _ & Hremove); [vm_compute; reflexivity..|].
  exists w'. split; [by rewrite Hrun|]. split; [exact Hfound|exact Hremove].
Defined.

Lemma existsb_without_other name other favs :
  same_name name other = false ->
  existsb (fav_matches other) (without name favs) = existsb (fav_matches other) favs.
Proof.
  intros Hne. unfold without. induction favs as [|f favs IH]; [reflexivity|].
  cbn [List.filter existsb].
  destruct (fav_matches name f) eqn:E; cbn [negb existsb]; [|by rewrite IH].
  rewrite IH. unfold fav_matches, same_name in *.
  destruct (name_of f) as [s|]; [|discriminate].
  apply String.eqb_eq in E. rewrite E. by rewrite Hne.
Qed.

(** X16. After [removeFromFavorites(name)], on a store that takes the write,
    [isFavorite(name)] is false, and [isFavorite] of a name that does not
    match it answers as before the removal. *)
Theorem removed_favorite_is_gone (w : World) (favs : list value) (name other : string) :
  fst (getFavorites w) = Return (VArr favs) ->
  forallb named favs = true ->
  accepts w KEYS_FAVORITES (VArr (without name favs)) = true ->
  exists w',
    removeFromFavorites (VStr name) w = (Return (VArr (without name favs)), w')
    /\ isFavorite (VStr name) w' = (Return false, w')
    /\ (same_name name other = false ->
        fst (isFavorite (VStr other) w') = fst (isFavorite (VStr other) w)).
Proof.
  intros Hget Hnamed Hacc.
  pose proof (getItem_same_store KEYS_FAVORITES (VArr []) w) as Hs.
  fold getFavorites in Hs.
  rewrite (removeFromFavorites_run _ _ _ Hget Hnamed).
  set (w1 := snd (getFavorites w)) in *.
  rewrite <- (accepts_same_store w w1 _ _ Hs) in Hacc.
  set (w' := snd (setItem KEYS_FAVORITES (VArr (without name favs)) w1)).
  assert (Hjson : is_json (VArr (without name favs)) = true).
  { rewrite is_json_VArr. apply forallb_filter. rewrite <- is_json_VArr.
    by apply getFavorites_is_json with w. }
  assert (Hback : getFavorites w' = (Return (VArr (without name favs)), w')).
  { unfold getFavorites, w'.
    rewrite (getItem_stored KEYS_FAVORITES (VArr []) _ _ Hacc (is_json_keyed _ Hjson)) by done.
    by rewrite (is_json_stored_form _ Hjson). }
  assert (Hnamed' : forallb named (without name favs) = true) by by apply forallb_filter.
  exists w'. split; [reflexivity|]. split.
  - rewrite (isFavorite_run _ _ _ Hback Hnamed'). by rewrite existsb_without.
  - intros Hne. rewrite (isFavorite_run _ _ _ Hback Hnamed'). cbn [fst].
    rewrite (isFavorite_member w favs other Hget Hnamed).
    by rewrite existsb_without_other.
Qed.

Lemma removed_favorite_is_gone_witness :
  exists w',
    removeFromFavorites (VStr "PARIS")
      (holding KEYS_FAVORITES (VArr [paris; VObj [("name", VStr "Tokyo")]]))
    = (Return (VArr [VObj [("name", VStr "Tokyo")]]), w')
    /\ isFavorite (VStr "PARIS") w' = (Return false, w')
    /\ fst (isFavorite (VStr "tokyo") w') = Return true.
Proof.
  destruct (removed_favorite_is_gone
              (holding KEYS_FAVORITES (VArr [paris; VObj [("name", VStr "Tokyo")]]))
              [paris; VObj [("name", VStr "Tokyo")]] "PARIS" "tokyo")
    as (w' & Hrun & Hgone & Hother); [vm_compute; reflexivity..|].
  exists w'. split; [exact Hrun|]. split; [exact Hgone|].
  rewrite Hother; vm_compute; reflexivity.
Defined.

(** X17. [isFavorite(name)] on favorites that are named entries answers
    whether one of them has the name ignoring case: it returns true exactly
    when the lower-case form of an entry's name is the lower-case form of
    the argument, so that every spelling of the case of a name gets the same
    answer; it writes nothing. *)
Theorem isFavorite_spec (w : World) (favs : list value) (name other : string) :
  fst (getFavorites w) = Return (VArr favs) ->
  forallb named favs = true ->
  exists w',
    isFavorite (VStr name) w = (Return (existsb (fav_matches name) favs), w')
    /\ ls_items w' = ls_items w
    /\ (existsb (fav_matches name) favs = true <->
        exists fav s, In fav favs /\ name_of fav = Some s
                      /\ toLowerCase s = toLowerCase name)
    /\ (same_name name other = true ->
        fst (isFavorite (VStr other) w) = Return (existsb (fav_matches name) favs)).
Proof.
  intros Hget Hnamed.
  pose proof (getItem_same_items KEYS_FAVORITES (VArr []) w) as [_ Hi].
  fold getFavorites in Hi.
  assert (Hrun : forall n, isFavorite (VStr n) w
                           = (Return (existsb (fav_matches n) favs), snd (getFavorites w))).
  { intros n. unfold isFavorite, bind.
    destruct (getFavorites w) as [r w1]. cbn [fst snd] in *. subst r.
    unfold lift, call_some. by rewrite someM_matches. }
  rewrite Hrun. eexists. split; [reflexivity|]. split; [exact Hi|]. split.
  - rewrite existsb_exists. split.
    + intros (fav & Hin & Hm). unfold fav_matches in Hm.
      destruct (name_of fav) as [s|] eqn:E; [|discriminate].
      exists fav, s. split; [exact Hin|]. split; [exact E|]. by apply same_name_lower.
    + intros (fav & s & Hin & Hs & Hl). exists fav. split; [exact Hin|].
      unfold fav_matches. rewrite Hs. by apply same_name_lower.
  - intros Hsame. rewrite Hrun. cbn [fst]. f_equal.
    apply existsb_ext_eq. intros fav. by apply fav_matches_same.
Qed.

Lemma isFavorite_spec_witness :
  fst (isFavorite (VStr "pArIs") (holding KEYS_FAVORITES (VArr [paris]))) = Return true.
Proof.
  destruct (isFavorite_spec (holding KEYS_FAVORITES (VArr [paris])) [paris] "pArIs" "pArIs")
    as (w' & Hrun & _); [vm_compute; reflexivity..|].
  by rewrite Hrun.
Defined.

Lemma favorites_ok_same w w' : same_items w w' -> favorites_ok w -> favorites_ok w'.
Proof.
  intros Hs (favs & Hget & Hok). exists favs. split; [|exact Hok].
  unfold getFavorites in *. by rewrite (same_items_read _ _ _ _ Hs).
Qed.

Lemma favorites_ok_other key w w' :
  same_but key w w' -> key <> KEYS_FAVORITES -> favorites_ok w -> favorites_ok w'.
Proof.
  intros Hs Hne (favs & Hget & Hok). exists favs. split; [|exact Hok].
  unfold getFavorites in *. rewrite (same_but_read _ _ _ _ _ Hs); [exact Hget|done].
Qed.

Lemma fav_matches_lower name fav :
  named fav = true -> fav_matches name fav = String.eqb (lower_name fav) (toLowerCase name).
Proof.
  unfold named, fav_matches, lower_name, same_name. by destruct (name_of fav).
Qed.

Lemma no_match_not_in name favs :
  forallb named favs = true -> existsb (fav_matches name) favs = false ->
  toLowerCase name ∉ map lower_name favs.
Proof.
  induction favs as [|f favs IH]; [intros _ _; apply not_elem_of_nil|].
  cbn [forallb existsb map]. intros [Hf Hn]%andb_prop [Hm Hr]%orb_false_elim.
  apply not_elem_of_cons. split; [|by apply IH].
  rewrite (fav_matches_lower _ _ Hf) in Hm. apply String.eqb_neq in Hm. congruence.
Qed.

(** X18. The stored favorites stay well formed: named entries, with names
    distinct ignoring case.  They are on a store that holds none;
    [addToFavorites] with a location that has a string for a name,
    [removeFromFavorites] with a string, and the writers of the history and
    of the preferences, whether the store takes their writes or not, keep
    them so. *)
Theorem favorites_stay_ok (w : World) (location : value) (name : string) (x : value) :
  (ls_items w !! KEYS_FAVORITES = None -> favorites_ok w)
  /\ (favorites_ok w ->
      (get location "name" = Return (VStr name) -> keyed location = true ->
       favorites_ok (snd (addToFavorites location w)))
      /\ favorites_ok (snd (removeFromFavorites (VStr name) w))
      /\ favorites_ok (snd (addToSearchHistory x w))
      /\ favorites_ok (snd (clearSearchHistory w))
      /\ favorites_ok (snd (setTheme x w))
      /\ favorites_ok (snd (setUnit x w))).
Proof.
  split.
  { intros Hnone. exists []. split; [|split; [reflexivity|constructor]].
    unfold getFavorites. rewrite getItem_run. cbv zeta.
    destruct (ls_denied w); [reflexivity|]. by rewrite Hnone. }
  intros Hok. split; [|split; [|split; [|split; [|split]]]].
  - intros Hname Hk. destruct Hok as (favs & Hget & Hnamed & Hnd).
    pose proof (getItem_same_store KEYS_FAVORITES (VArr []) w) as Hs.
    fold getFavorites in Hs.
    assert (Hkeep : favorites_ok (snd (getFavorites w))).
    { apply (favorites_ok_same w); [by apply same_store_items|by exists favs]. }
    destruct (existsb (fav_matches name) favs) eqn:Hex.
    + unfold addToFavorites, bind.
      destruct (getFavorites w) as [r w1]. cbn [fst snd] in *. subst r.
      unfold lift, call_some. by rewrite Hname, (someM_matches _ _ Hnamed), Hex.
    + rewrite (addToFavorites_new _ _ _ _ Hget Hnamed Hname Hex). cbn [snd].
      set (entry := favorite_entry location (clock w)).
      set (w1 := snd (getFavorites w)) in *.
      destruct (accepts w1 KEYS_FAVORITES (VArr (favs ++ [entry]))) eqn:Hacc.
      * exists (favs ++ [stored_form entry]).
        pose proof (name_of_stored_entry location name (clock w) Hname) as Hentry.
        fold entry in Hentry.
        split; [|split].
        -- unfold getFavorites.
           rewrite (getItem_stored KEYS_FAVORITES (VArr []) _ _ Hacc); [| |done].
           ++ cbn [stored_form fst]. rewrite map_app. cbn [map].
              by rewrite (stored_form_items _ (getFavorites_is_json _ _ Hget)).
           ++ cbn [keyed]. rewrite forallb_app. cbn [forallb]. unfold entry.
              rewrite (keyed_favorite_entry location (clock w) Hk).
              pose proof (is_json_keyed _ (getFavorites_is_json _ _ Hget)) as Hkf.
              cbn [keyed] in Hkf. by rewrite Hkf.
        -- rewrite forallb_app, Hnamed. cbn [forallb andb]. unfold named.
           by rewrite Hentry.
        -- rewrite map_app. cbn [map]. apply NoDup_app. split; [exact Hnd|].
           split; [|apply NoDup_singleton].
           intros y Hy ->%list_elem_of_singleton.
           unfold lower_name in Hy. rewrite Hentry in Hy.
           by apply (no_match_not_in name favs Hnamed Hex).
      * apply (favorites_ok_same w1); [|exact Hkeep].
        by apply same_store_items, setItem_refused.
  - destruct Hok as (favs & Hget & Hnamed & Hnd).
    pose proof (getItem_same_store KEYS_FAVORITES (VArr []) w) as Hs.
    fold getFavorites in Hs.
    rewrite (removeFromFavorites_run _ _ _ Hget Hnamed). cbn [snd].
    set (w1 := snd (getFavorites w)) in *.
    assert (Hjson : is_json (VArr (without name favs)) = true).
    { rewrite is_json_VArr. apply forallb_filter. rewrite <- is_json_VArr.
      by apply getFavorites_is_json with w. }
    destruct (accepts w1 KEYS_FAVORITES (VArr (without name favs))) eqn:Hacc.
    + exists (without name favs). split; [|split].
      * unfold getFavorites.
        rewrite (getItem_stored KEYS_FAVORITES (VArr []) _ _ Hacc (is_json_keyed _ Hjson))
          by done.
        by rewrite (is_json_stored_form _ Hjson).
      * by apply forallb_filter.
      * eapply sublist_NoDup; [exact Hnd|]. apply fmap_sublist, filter_sublist.
    + apply (favorites_ok_same w1); [by apply same_store_items, setItem_refused|].
      apply (favorites_ok_same w); [by apply same_store_items|by exists favs].
  - eapply favorites_ok_other; [apply (addToSearchHistory_frame x w)|done|exact Hok].
  - eapply favorites_ok_other; [apply (clearSearchHistory_frame w)|done|exact Hok].
  - eapply favorites_ok_other; [apply (setTheme_frame x w)|done|exact Hok].
  - eapply favorites_ok_other; [apply (setUnit_frame x w)|done|exact Hok].
Qed.

Lemma favorites_stay_ok_witness :
  favorites_ok (snd (removeFromFavorites (VStr "oslo")
                       (snd (addToFavorites (VObj [("name", VStr "Oslo")]) fresh_world)))).
Proof.
  assert (H0 : favorites_ok fresh_world).
  { apply (proj1 (favorites_stay_ok fresh_world VNull "" VNull)). apply lookup_empty. }
  pose proof (proj1 (proj2 (favorites_stay_ok fresh_world (VObj [("name", VStr "Oslo")])
                              "Oslo" VNull) H0) eq_refl eq_refl) as H1.
  exact (proj1 (proj2 (proj2 (favorites_stay_ok _ VNull "oslo" VNull) H1))).
Defined.

(** ** Favorites that are not a list of named entries *)

Lemma get_checked v k : (exists x, get v k = Return x) \/ get v k = Throw TypeError.
Proof. destruct v; cbn; eauto. Qed.

Lemma name_matches_checked fav (other : value) :
  type_checked (name_matches (get fav "name") (Return other)).
Proof.
  unfold name_matches, type_checked.
  destruct (get_checked fav "name") as [[n ->]| ->]; [|by right]. cbn [cbind].
  destruct (call_toLowerCase_checked n) as [(s & _ & ->)|[_ ->]]; [|by right]. cbn [cbind].
  destruct (call_toLowerCase_checked other) as [(s' & _ & ->)|[_ ->]]; [|by right].
  left. by eexists.
Qed.

Lemma name_matches_unnamed fav other :
  named fav = false -> name_matches (get fav "name") other = Throw TypeError.
Proof.
  unfold named, name_of, name_matches.
  destruct fav as [| | | | | |props]; try reflexivity.
  cbn [get cbind]. destruct (assoc "name" props) as [[]|]; try reflexivity. discriminate.
Qed.

Lemma not_named_array l :
  named_array (VArr l) = false -> exists x, In x l /\ named x = false.
Proof.
  cbn [named_array]. induction l as [|x l IH]; [discriminate|]. cbn [forallb].
  destruct (named x) eqn:E; cbn [andb].
  - intros (y & Hin & Hy)%IH. exists y. split; [by right|exact Hy].
  - intros _. exists x. split; [by left|exact E].
Qed.

Lemma someM_first_error (f : value -> completion bool) x l :
  f x = Throw TypeError -> someM f (x :: l) = Throw TypeError.
Proof. intros H. cbn [someM]. by rewrite H. Qed.

Lemma favorites_filter_error h x :
  named_array h = false ->
  call_filter h (fun fav =>
    cbind (name_matches (get fav "name") (Return x)) (fun e => Return (negb e)))
  = Throw TypeError.
Proof.
  intros Hbad. destruct h as [| | | | |l|]; try reflexivity. cbn [call_filter].
  apply filterM_type_error.
  - intros fav. destruct (name_matches_checked fav x) as [[b Hb]|Hb];
      rewrite Hb; [left; by eexists|by right].
  - destruct (not_named_array l Hbad) as (y & Hin & Hy).
    exists y. split; [exact Hin|]. by rewrite name_matches_unnamed.
Qed.

(** X19. When the stored favorites are valid JSON but not an array of
    entries with a string for a name, [removeFromFavorites] throws a
    [TypeError] whatever its argument: nothing is written and nothing is
    reported. *)
Theorem removeFromFavorites_type_error (w : World) (h x : value) :
  fst (getFavorites w) = Return h -> named_array h = false ->
  removeFromFavorites x w = (Throw TypeError, w).
Proof.
  intros Hget Hbad.
  assert (Hw : getFavorites w = (Return h, w)).
  { apply getItem_found; [exact Hget|]. intros ->. discriminate. }
  unfold removeFromFavorites, bind. rewrite Hw. unfold lift.
  by rewrite (favorites_filter_error _ _ Hbad).
Qed.

Lemma removeFromFavorites_type_error_witness :
  removeFromFavorites (VStr "Paris")
    (holding KEYS_FAVORITES (VArr [paris; VObj [("city", VStr "Oslo")]]))
  = (Throw TypeError, holding KEYS_FAVORITES (VArr [paris; VObj [("city", VStr "Oslo")]])).
Proof.
  apply (removeFromFavorites_type_error _ (VArr [paris; VObj [("city", VStr "Oslo")]]));
    vm_compute; reflexivity.
Defined.

Lemma name_matches_no_location fav :
  name_matches (get fav "name") (Throw TypeError) = Throw TypeError.
Proof.
  unfold name_matches.
  destruct (get_checked fav "name") as [[n ->]| ->]; [|reflexivity]. cbn [cbind].
  by destruct (call_toLowerCase_checked n) as [(s & _ & ->)|[_ ->]].
Qed.

(** X20. [addToFavorites(null)] and [addToFavorites(undefined)] throw a
    [TypeError] on every store, after the read of the favorites: nothing is
    written. *)
Theorem addToFavorites_no_location (w : World) (location : value) :
  location = VNull \/ location = VUndefined ->
  addToFavorites location w = (Throw TypeError, snd (getFavorites w))
  /\ ls_items (snd (getFavorites w)) = ls_items w.
Proof.
  intros Hloc. split; [|apply getItem_same_items].
  assert (Hname : get location "name" = Throw TypeError) by by destruct Hloc as [-> | ->].
  unfold addToFavorites, bind.
  destruct (getItem_returns KEYS_FAVORITES (VArr []) w) as [h Hh]. fold getFavorites in Hh.
  destruct (getFavorites w) as [r w1]. cbn [fst snd] in *. subst r.
  unfold lift. rewrite Hname.
  destruct h as [| | | | |[|fav l]|]; try reflexivity.
  cbn [call_some]. by rewrite someM_first_error by apply name_matches_no_location.
Qed.

Lemma addToFavorites_no_location_witness :
  addToFavorites VNull (holding KEYS_FAVORITES (VArr [paris]))
  = (Throw TypeError, holding KEYS_FAVORITES (VArr [paris])).
Proof.
  destruct (addToFavorites_no_location (holding KEYS_FAVORITES (VArr [paris])) VNull)
    as [Hrun _]; [by left|].
  rewrite Hrun. reflexivity.
Defined.

Lemma stored_entry_unnamed location t :
  (forall s, prop location "name" <> VStr s) ->
  named (stored_form (favorite_entry location t)) = false.
Proof.
  intros H. unfold favorite_entry. rewrite stored_form_VObj.
  unfold stored_props. cbn [omap list_omap fst snd].
  pose proof (stored_form_not_string _ H) as Hn.
  unfold named, name_of.
  destruct (prop location "name") eqn:E; cbn [omap list_omap fst snd stored_form];
    try (by destruct (H s));
    try (destruct (prop location "country"), (prop location "lat"), (prop location "lon");
         reflexivity).
Qed.

(** X21. The name of a location is not validated.  On an empty collection a
    location whose name is not a string is added; from then on [isFavorite],
    [removeFromFavorites] and [addToFavorites], whatever their arguments,
    throw a [TypeError] and leave the store as it is. *)
Theorem addToFavorites_unvalidated (w : World) (location : value) :
  fst (getFavorites w) = Return (VArr []) ->
  location <> VNull -> location <> VUndefined ->
  (forall s, prop location "name" <> VStr s) ->
  keyed location = true ->
  accepts w KEYS_FAVORITES (VArr [favorite_entry location (clock w)]) = true ->
  exists w',
    addToFavorites location w
    = (Return (added_message [favorite_entry location (clock w)]), w')
    /\ forall x,
         isFavorite x w' = (Throw TypeError, w')
         /\ removeFromFavorites x w' = (Throw TypeError, w')
         /\ addToFavorites x w' = (Throw TypeError, w').
Proof.
  intros Hget Hn1 Hn2 Hname Hk Hacc.
  pose proof (getItem_same_store KEYS_FAVORITES (VArr []) w) as Hs.
  fold getFavorites in Hs.
  unfold addToFavorites at 1. unfold bind.
  destruct (getFavorites w) as [r w1]. cbn [fst snd] in Hget, Hs. subst r.
  cbn [lift call_some someM negb spread app].
  rewrite !(get_prop location) by done.
  unfold Date_now_toISOString, ret.
  destruct Hs as (Hi & Hd & Hf & Hclock). rewrite Hclock.
  change (VObj [("name", _); ("country", _); ("lat", _); ("lon", _); ("addedAt", _)])
    with (favorite_entry location (clock w)).
  set (entry := favorite_entry location (clock w)) in *.
  assert (Hacc1 : accepts w1 KEYS_FAVORITES (VArr [entry]) = true).
  { unfold accepts in *. by rewrite Hi, Hd, Hf. }
  assert (Hback : getFavorites (snd (setItem KEYS_FAVORITES (VArr [entry]) w1))
                  = (Return (VArr [stored_form entry]),
                     snd (setItem KEYS_FAVORITES (VArr [entry]) w1))).
  { unfold getFavorites.
    rewrite (getItem_stored KEYS_FAVORITES (VArr []) _ _ Hacc1); [reflexivity| |done].
    cbn [keyed forallb]. unfold entry. by rewrite (keyed_favorite_entry location (clock w) Hk). }
  rewrite (setItem_accepted _ _ _ Hacc1) in *. cbn [snd] in Hback.
  eexists. split; [reflexivity|].
  pose proof (stored_entry_unnamed location (clock w) Hname) as Hbad. fold entry in Hbad.
  intros x. split; [|split].
  - unfold isFavorite, bind. rewrite Hback.
    unfold lift, call_some. by rewrite someM_first_error by by apply name_matches_unnamed.
  - unfold removeFromFavorites, bind. rewrite Hback. unfold lift.
    rewrite favorites_filter_error; [reflexivity|].
    cbn [named_array forallb]. by rewrite Hbad.
  - unfold addToFavorites, bind. rewrite Hback.
    unfold lift, call_some. by rewrite someM_first_error by by apply name_matches_unnamed.
Qed.

Lemma addToFavorites_unvalidated_witness :
  exists w',
    fst (addToFavorites (VObj [("city", VStr "Oslo")]) fresh_world)
    = Return (added_message [favorite_entry (VObj [("city", VStr "Oslo")]) (clock fresh_world)])
    /\ addToFavorites (VObj [("city", VStr "Oslo")]) fresh_world
       = (Return (added_message
                    [favorite_entry (VObj [("city", VStr "Oslo")]) (clock fresh_world)]), w')
    /\ isFavorite (VStr "Oslo") w' = (Throw TypeError, w').
Proof.
  destruct (addToFavorites_unvalidated fresh_world (VObj [("city", VStr "Oslo")]))
    as (w' & Hrun & Hnext); [reflexivity|discriminate|discriminate|discriminate
                             |reflexivity|reflexivity|].
  exists w'. split; [by rewrite Hrun|]. split; [exact Hrun|apply Hnext].
Defined.

(** ** A store that cannot be accessed *)

Lemma getItem_denied key d w :
  ls_denied w = true ->
  getItem key d w
  = (Return (param_default VNull d),
     set_console w (console w ++ [read_error key (DOMException "SecurityError")])).
Proof. intros Hd. rewrite getItem_run. cbv zeta. by rewrite Hd. Qed.

Lemma setItem_on_denied key v w :
  ls_denied w = true ->
  setItem key v w
  = (Return false,
     set_console w (console w ++ [write_error key (DOMException "SecurityError")])).
Proof. intros Hd. rewrite setItem_run. cbv zeta. by rewrite Hd. Qed.

(** X22. On a store that cannot be accessed the module works as on an empty
    store and persists nothing: [addToSearchHistory(x)] returns [x] alone,
    [removeFromFavorites] the empty collection, [isFavorite] false, and
    [addToFavorites] of a location succeeds with that location alone; each
    failed read and each failed write is reported, in that order. *)
Theorem denied_store_degrades (w : World) (x : value) :
  ls_denied w = true ->
  let denied := DOMException "SecurityError" in
  (exists w',
     addToSearchHistory x w = (Return (VArr [x]), w')
     /\ ls_items w' = ls_items w
     /\ console w' = console w ++ [read_error KEYS_SEARCH_HISTORY denied;
                                   write_error KEYS_SEARCH_HISTORY denied])
  /\ (exists w',
        removeFromFavorites x w = (Return (VArr []), w')
        /\ ls_items w' = ls_items w
        /\ console w' = console w ++ [read_error KEYS_FAVORITES denied;
                                      write_error KEYS_FAVORITES denied])
  /\ (exists w',
        isFavorite x w = (Return false, w')
        /\ ls_items w' = ls_items w
        /\ console w' = console w ++ [read_error KEYS_FAVORITES denied])
  /\ (x <> VNull -> x <> VUndefined ->
      exists w',
        addToFavorites x w = (Return (added_message [favorite_entry x (clock w)]), w')
        /\ ls_items w' = ls_items w
        /\ console w' = console w ++ [read_error KEYS_FAVORITES denied;
                                      write_error KEYS_FAVORITES denied]).
Proof.
  intros Hd denied. split; [|split; [|split]].
  - unfold addToSearchHistory, bind, getSearchHistory. rewrite (getItem_denied _ _ _ Hd).
    cbn [param_default lift call_filter filterM slice0 firstn].
    rewrite setItem_on_denied by exact Hd. eexists. split; [reflexivity|].
    split; [reflexivity|]. cbn [console set_console]. by rewrite <- app_assoc.
  - unfold removeFromFavorites, bind, getFavorites. rewrite (getItem_denied _ _ _ Hd).
    cbn [param_default lift call_filter filterM].
    rewrite setItem_on_denied by exact Hd. eexists. split; [reflexivity|].
    split; [reflexivity|]. cbn [console set_console]. by rewrite <- app_assoc.
  - unfold isFavorite, bind, getFavorites. rewrite (getItem_denied _ _ _ Hd).
    cbn [param_default lift call_some someM]. eexists. by split.
  - intros Hn1 Hn2. unfold addToFavorites, bind, getFavorites.
    rewrite (getItem_denied _ _ _ Hd).
    cbn [param_default lift call_some someM negb spread app].
    rewrite !(get_prop x) by done. unfold Date_now_toISOString, ret.
    cbn [clock set_console].
    rewrite setItem_on_denied by exact Hd. eexists. split; [reflexivity|].
    split; [reflexivity|]. cbn [console set_console]. by rewrite <- app_assoc.
Qed.

Lemma denied_store_degrades_witness :
  exists w',
    addToSearchHistory (VStr "Oslo") denied_world = (Return (strings ["Oslo"]), w')
    /\ console w' = [read_error KEYS_SEARCH_HISTORY (DOMException "SecurityError");
                     write_error KEYS_SEARCH_HISTORY (DOMException "SecurityError")].
Proof.
  destruct (denied_store_degrades denied_world (VStr "Oslo") eq_refl)
    as ((w' & Hrun & _ & Hc) & _).
  exists w'. split; [exact Hrun|exact Hc].
Defined.

(** ** Results on a store that refuses the write *)

(** C10. What [addToSearchHistory] and [addToFavorites] return does not
    depend on whether the store takes the write.  The result is the same
    under every policy of what fits, and a refused write makes [setItem]
    return [false] and leaves the stored entries as they were.  For a
    history of strings, [addToSearchHistory] returns the updated sequence
    (the city first, then the other entries, ten at most); for a location
    whose name no favorite has, [addToFavorites] returns the success result
    with the collection extended by the new entry.  When the store refuses
    the write, the call still returns that result: the [false] of [setItem]
    is dropped, the write error is reported on the console, the stored
    entries stay as they were and the next read gives the prior history or
    collection. *)
Theorem results_ignore_persistence :
  (forall (w : World) fits (city : value),
     fst (addToSearchHistory city (with_fits w fits)) = fst (addToSearchHistory city w))
  /\ (forall (w : World) fits (location : value),
        fst (addToFavorites location (with_fits w fits)) = fst (addToFavorites location w))
  /\ (forall (w : World) (key : string) (v : value),
        accepts w key v = false ->
        fst (setItem key v w) = Return false
        /\ ls_items (snd (setItem key v w)) = ls_items w)
  /\ (forall (w : World) (hist : list string) (city : string),
        fst (getSearchHistory w) = Return (strings hist) ->
        let updated := strings (updated_history city hist) in
        let w1 := snd (getSearchHistory w) in
        let w' := snd (addToSearchHistory (VStr city) w) in
        fst (addToSearchHistory (VStr city) w) = Return updated
        /\ (accepts w KEYS_SEARCH_HISTORY updated = false ->
            fst (setItem KEYS_SEARCH_HISTORY updated w1) = Return false
            /\ w' = set_console w1
                      (console w1
                       ++ [write_error KEYS_SEARCH_HISTORY (write_failure w)])
            /\ ls_items w' = ls_items w
            /\ fst (getSearchHistory w') = Return (strings hist)))
  /\ (forall (w : World) (favs : list value) (location : value) (name : string),
        fst (getFavorites w) = Return (VArr favs) ->
        forallb named favs = true ->
        get location "name" = Return (VStr name) ->
        existsb (fav_matches name) favs = false ->
        let updated := favs ++ [favorite_entry location (clock w)] in
        let w1 := snd (getFavorites w) in
        let w' := snd (addToFavorites location w) in
        fst (addToFavorites location w) = Return (added_message updated)
        /\ (accepts w KEYS_FAVORITES (VArr updated) = false ->
            fst (setItem KEYS_FAVORITES (VArr updated) w1) = Return false
            /\ w' = set_console w1
                      (console w1 ++ [write_error KEYS_FAVORITES (write_failure w)])
            /\ ls_items w' = ls_items w
            /\ fst (getFavorites w') = Return (VArr favs))).
Proof.
  split; [|split; [|split; [|split]]].
  - intros w fits city. rewrite !addToSearchHistory_fst.
    unfold getSearchHistory.
    by rewrite (getItem_depends _ _ (with_fits w fits) w).
  - intros w fits location. rewrite !addToFavorites_fst.
    unfold getFavorites.
    by rewrite (getItem_depends _ _ (with_fits w fits) w).
  - intros w key v Hacc. rewrite (setItem_rejected _ _ _ Hacc). by split.
  - intros w hist city Hread updated w1 w'.
    destruct (addToSearchHistory_run city hist w Hread) as (b & w0 & Hget & Hrun & _).
    pose proof (getItem_same_store KEYS_SEARCH_HISTORY (VArr []) w) as Hsame.
    fold getSearchHistory in Hsame. fold w1 in Hsame.
    assert (w0 = w1) as -> by (unfold w1; by rewrite Hget).
    fold updated in Hrun. split; [by rewrite Hrun|].
    intros Hacc. rewrite <- (accepts_same_store _ _ _ _ Hsame) in Hacc.
    assert (Hf : write_failure w1 = write_failure w).
    { unfold write_failure. by destruct Hsame as (_ & -> & _). }
    unfold w'. rewrite Hrun, (setItem_rejected _ _ _ Hacc), Hf. cbn [fst snd].
    split; [reflexivity|]. split; [reflexivity|].
    destruct Hsame as (Hi & Hd & _). split; [exact Hi|].
    rewrite <- Hread. apply getItem_depends; [exact Hi|exact Hd].
  - intros w favs location name Hread Hnamed Hname Hex updated w1 w'.
    pose proof (addToFavorites_new location name favs w Hread Hnamed Hname Hex) as Hrun.
    pose proof (getItem_same_store KEYS_FAVORITES (VArr []) w) as Hsame.
    fold getFavorites in Hsame. fold w1 in Hsame, Hrun. fold updated in Hrun.
    split; [by rewrite Hrun|].
    intros Hacc. rewrite <- (accepts_same_store _ _ _ _ Hsame) in Hacc.
    assert (Hf : write_failure w1 = write_failure w).
    { unfold write_failure. by destruct Hsame as (_ & -> & _). }
    unfold w'. rewrite Hrun, (setItem_rejected _ _ _ Hacc), Hf. cbn [fst snd].
    split; [reflexivity|]. split; [reflexivity|].
    destruct Hsame as (Hi & Hd & _). split; [exact Hi|].
    rewrite <- Hread. apply getItem_depends; [exact Hi|exact Hd].
Qed.

Lemma results_ignore_persistence_witness :
  (fst (setItem KEYS_FAVORITES (VArr [paris]) full_world) = Return false
   /\ ls_items (snd (setItem KEYS_FAVORITES (VArr [paris]) full_world)) = ∅)
  /\ (fst (getSearchHistory rome_kept) = Return (strings ["Rome"])
      /\ accepts rome_kept KEYS_SEARCH_HISTORY (strings ["Paris"; "Rome"]) = false
      /\ addToSearchHistory (VStr "Paris") rome_kept
         = (Return (strings ["Paris"; "Rome"]),
            set_console rome_kept
              [write_error KEYS_SEARCH_HISTORY (DOMException "QuotaExceededError")])
      /\ fst (getSearchHistory (snd (addToSearchHistory (VStr "Paris") rome_kept)))
         = Return (strings ["Rome"]))
  /\ (fst (getFavorites paris_kept) = Return (VArr [paris])
      /\ accepts paris_kept KEYS_FAVORITES
           (VArr [paris; favorite_entry (VObj [("name", VStr "Rome")]) (clock paris_kept)])
         = false
      /\ addToFavorites (VObj [("name", VStr "Rome")]) paris_kept
         = (Return (added_message
                      [paris;
                       VObj [ ("name", VStr "Rome"); ("country", VUndefined);
                              ("lat", VUndefined); ("lon", VUndefined);
                              ("addedAt", VStr (clock paris_kept)) ]]),
            set_console paris_kept
              [write_error KEYS_FAVORITES (DOMException "QuotaExceededError")])
      /\ fst (getFavorites (snd (addToFavorites (VObj [("name", VStr "Rome")]) paris_kept)))
         = Return (VArr [paris])).
Proof.
  destruct results_ignore_persistence as (_ & _ & Hset & Hhist & Hfav).
  split; [exact (Hset full_world KEYS_FAVORITES (VArr [paris]) eq_refl)|].
  assert (Hr : fst (getSearchHistory rome_kept) = Return (strings ["Rome"]))
    by (vm_compute; reflexivity).
  assert (Hp : fst (getFavorites paris_kept) = Return (VArr [paris]))
    by (vm_compute; reflexivity).
  split.
  - destruct (Hhist rome_kept ["Rome"] "Paris" Hr) as [Hres Hrefused].
    destruct (Hrefused eq_refl) as (_ & Hw & _ & Hnext).
    split; [exact Hr|]. split; [reflexivity|]. split; [|exact Hnext].
    rewrite (surjective_pairing (addToSearchHistory (VStr "Paris") rome_kept)).
    rewrite Hres, Hw. vm_compute. reflexivity.
  - destruct (Hfav paris_kept [paris] (VObj [("name", VStr "Rome")]) "Rome"
                Hp eq_refl eq_refl eq_refl) as [Hres Hrefused].
    destruct (Hrefused eq_refl) as (_ & Hw & _ & Hnext).
    split; [exact Hp|]. split; [reflexivity|]. split; [|exact Hnext].
    rewrite (surjective_pairing (addToFavorites (VObj [("name", VStr "Rome")]) paris_kept)).
    rewrite Hres, Hw. vm_compute. reflexivity.
Defined.

End StorageFacts.

(* ===================================================================== *)
(** * The chart module *)
(* ===================================================================== *)

Module ChartFacts.
Import JS Eff ChartUtils ChartSpec.

(** ** The absent surface *)

(** C6. When the document has no element of the identifier, each builder
    returns no handle without throwing and leaves charts, registry and
    trace as they were; the temperature builder reports the missing canvas
    on the console, the humidity and the wind builder report nothing. *)
Theorem create_absent_surface (k : kind) (w : Page) (canvasId : string)
    (forecastData isDarkMode : value) :
  document w !! canvasId = None ->
  exists w',
    create k canvasId forecastData isDarkMode w = (Return None, w')
    /\ charts w' = charts w
    /\ chartInstances w' = chartInstances w
    /\ trace w' = trace w
    /\ console w' = console w ++ absent_report k canvasId.
Proof.
  intros Hdoc.
  destruct k; cbn [create];
    unfold createTemperatureChart, createHumidityChart, createWindChart,
      bind, document_getElementById; rewrite Hdoc; cbn.
  - eexists. split; [reflexivity|]. repeat split.
  - exists w. repeat split. by rewrite app_nil_r.
  - exists w. repeat split. by rewrite app_nil_r.
Qed.

Lemma create_absent_surface_witness :
  exists w',
    createHumidityChart "missing" (VArr []) (VBool false) (blank_page ∅)
    = (Return None, w')
    /\ console w' = [].
Proof.
  destruct (create_absent_surface Humidity (blank_page ∅) "missing" (VArr []) (VBool false)
              (lookup_empty _)) as (w' & Hrun & _ & _ & _ & Hc).
  exists w'. split; [exact Hrun|exact Hc].
Defined.

(** ** Running a builder on a present surface *)

Lemma mapM_get_ok k l :
  forallb (fun day => match day with VUndefined | VNull => false | _ => true end) l = true ->
  exists vs, mapM (fun day => get day k) l = Return vs.
Proof.
  induction l as [|d l IH]; [by exists []|].
  cbn [forallb mapM]. intros [Hd Hl]%andb_prop.
  destruct (IH Hl) as [vs ->].
  destruct d; try discriminate; cbn; eexists; reflexivity.
Qed.

Lemma day_field_ok k data :
  projectable data = true -> exists vs, day_field k data = Return vs.
Proof.
  destruct data; try discriminate. cbn [projectable]. apply mapM_get_ok.
Qed.

Lemma precipitation_ok data :
  projectable data = true ->
  exists vs,
    call_map data (fun day =>
      cbind (get day "precipitation") (fun p =>
      Return (if truthy p then p else VNum (number_of_Z 0)))) = Return vs.
Proof.
  destruct data as [| | | | |l|]; try discriminate. cbn [projectable call_map].
  induction l as [|d l IH]; [by exists []|].
  cbn [forallb mapM]. intros [Hd Hl]%andb_prop.
  destruct (IH Hl) as [vs ->].
  destruct d; try discriminate; cbn; eexists; reflexivity.
Qed.

Lemma destroy_existing_run w canvasId :
  (chartInstances w !! canvasId = None -> inherits w canvasId = false) ->
  destroy_existing canvasId w = (Return tt, cleared w canvasId).
Proof.
  intros Hown. unfold destroy_existing, bind, read_slot, cleared.
  destruct (chartInstances w !! canvasId) as [h|]; [reflexivity|].
  by rewrite Hown.
Qed.

Lemma create_run (k : kind) (w : Page) (canvasId : string) (el : element)
    (forecastData isDarkMode : value) :
  document w !! canvasId = Some el ->
  surface_fits k el = true ->
  projectable forecastData = true ->
  (chartInstances w !! canvasId = None -> inherits w canvasId = false) ->
  exists cfg,
    create k canvasId forecastData isDarkMode w
    = (Return (Some (fresh (dom (charts (cleared w canvasId))))),
       after_create (cleared w canvasId) canvasId cfg).
Proof.
  intros Hdoc Hfit Hdata Hown.
  destruct k; cbn [create];
    unfold createTemperatureChart, createHumidityChart, createWindChart.
  - unfold bind at 1. unfold document_getElementById. rewrite Hdoc.
    unfold bind at 1. rewrite (destroy_existing_run _ _ Hown).
    destruct (day_field_ok "date" _ Hdata) as [labels ->].
    destruct (day_field_ok "maxTemp" _ Hdata) as [maxTemps ->].
    destruct (day_field_ok "minTemp" _ Hdata) as [minTemps ->].
    destruct (day_field_ok "avgTemp" _ Hdata) as [avgTemps ->].
    destruct el; [|discriminate].
    eexists. reflexivity.
  - unfold bind at 1. unfold document_getElementById. rewrite Hdoc.
    unfold bind at 1. rewrite (destroy_existing_run _ _ Hown).
    destruct (day_field_ok "date" _ Hdata) as [labels ->].
    destruct (day_field_ok "humidity" _ Hdata) as [humidity ->].
    destruct (precipitation_ok _ Hdata) as [precipitation ->].
    eexists. reflexivity.
  - unfold bind at 1. unfold document_getElementById. rewrite Hdoc.
    unfold bind at 1. rewrite (destroy_existing_run _ _ Hown).
    destruct (day_field_ok "date" _ Hdata) as [labels ->].
    destruct (day_field_ok "windSpeed" _ Hdata) as [windSpeed ->].
    eexists. reflexivity.
Qed.

(** ** The registry owns the charts *)

Lemma hoare_bind {A B} (P R Q : Page -> Prop) (m : M Page A) (k : A -> M Page B) :
  hoare P m R -> (forall w, R w -> Q w) -> (forall a, hoare R (k a) Q) ->
  hoare P (bind m k) Q.
Proof.
  intros Hm HRQ Hk w HP. unfold bind. specialize (Hm w HP).
  destruct (m w) as [[a|e] w1]; cbn [snd] in *; [by apply Hk|by apply HRQ].
Qed.

Lemma hoare_same {A} (P : Page -> Prop) (m : M Page A) :
  (forall w, snd (m w) = w) -> hoare P m P.
Proof. intros H w HP. by rewrite H. Qed.

Lemma hoare_weaken {A} (P Q Q' : Page -> Prop) (m : M Page A) :
  hoare P m Q -> (forall w, Q w -> Q' w) -> hoare P m Q'.
Proof. intros H HQ w HP. by apply HQ, H. Qed.

Lemma hoare_forEach {A} (I : Page -> Prop) (f : A -> M Page unit) l :
  (forall x, hoare I (f x) I) -> hoare I (forEach f l) I.
Proof.
  intros Hf. induction l as [|x l IH]; [by apply hoare_same|].
  cbn [forEach]. eapply hoare_bind; [apply Hf|done|]. intros _. exact IH.
Qed.

Lemma owns_console w c : registry_owns w -> registry_owns (set_console w c).
Proof. intros H. exact H. Qed.

Lemma owns_after_destroy w canvasId h :
  registry_owns w -> chartInstances w !! canvasId = Some h ->
  registry_owns (after_destroy w h) /\ vacant canvasId (after_destroy w h).
Proof.
  intros [Ha Hb] Hreg. unfold registry_owns, vacant, after_destroy.
  cbn [charts chartInstances set_charts]. split; [split|].
  - intros h' c' Hc' Hlive.
    destruct (decide (h' = h)) as [->|Hne].
    + rewrite lookup_alter_eq in Hc'.
      destruct (charts w !! h) as [c|]; [|discriminate].
      cbn in Hc'. injection Hc' as <-. discriminate.
    + rewrite lookup_alter_ne in Hc' by done. by apply Ha.
  - intros id' h' Hid'. destruct (Hb _ _ Hid') as (c & Hc & Hcan).
    destruct (decide (h' = h)) as [->|Hne].
    + exists (mark_destroyed c). rewrite lookup_alter_eq, Hc. done.
    + exists c. by rewrite lookup_alter_ne.
  - intros h' c' Hc' Hcan.
    destruct (decide (h' = h)) as [->|Hne].
    + rewrite lookup_alter_eq in Hc'.
      destruct (charts w !! h) as [c|]; [|discriminate].
      cbn in Hc'. by injection Hc' as <-.
    + rewrite lookup_alter_ne in Hc' by done.
      destruct (chart_destroyed c') eqn:E; [reflexivity|].
      specialize (Ha _ _ Hc' E). congruence.
Qed.

Lemma owns_cleared w canvasId :
  registry_owns w ->
  registry_owns (cleared w canvasId) /\ vacant canvasId (cleared w canvasId).
Proof.
  intros H. unfold cleared.
  destruct (chartInstances w !! canvasId) as [h|] eqn:Hreg;
    [by apply owns_after_destroy|].
  split; [exact H|]. intros h c Hc Hcan.
  destruct (chart_destroyed c) eqn:E; [reflexivity|].
  destruct H as [Ha _]. specialize (Ha _ _ Hc E). congruence.
Qed.

Lemma fresh_handle (w : Page) : charts w !! fresh (dom (charts w)) = None.
Proof. apply not_elem_of_dom, is_fresh. Qed.

Lemma owns_after_create w canvasId cfg :
  registry_owns w -> vacant canvasId w -> registry_owns (after_create w canvasId cfg).
Proof.
  intros [Ha Hb] Hvac. unfold registry_owns, after_create. cbv zeta.
  cbn [charts chartInstances set_charts set_chartInstances].
  pose proof (fresh_handle w) as Hfresh. set (h := fresh (dom (charts w))) in *.
  split.
  - intros h' c' Hc' Hlive.
    destruct (decide (h' = h)) as [->|Hne].
    + rewrite lookup_insert_eq in Hc'. injection Hc' as <-. cbn.
      by rewrite lookup_insert_eq.
    + rewrite lookup_insert_ne in Hc' by done.
      rewrite lookup_insert_ne; [by apply Ha|].
      intros Heq. specialize (Hvac _ _ Hc' (eq_sym Heq)). congruence.
  - intros id' h' Hid'.
    destruct (decide (id' = canvasId)) as [->|Hne].
    + rewrite lookup_insert_eq in Hid'. injection Hid' as <-.
      eexists. rewrite lookup_insert_eq. done.
    + rewrite lookup_insert_ne in Hid' by done.
      destruct (Hb _ _ Hid') as (c & Hc & Hcan).
      exists c. rewrite lookup_insert_ne; [done|]. intros <-. congruence.
Qed.

Lemma hoare_destroy_existing canvasId :
  hoare registry_owns (destroy_existing canvasId)
        (fun w => registry_owns w /\ vacant canvasId w).
Proof.
  intros w H. unfold destroy_existing, bind, read_slot.
  pose proof (owns_cleared w canvasId H) as Hc. unfold cleared in Hc.
  destruct (chartInstances w !! canvasId) as [h|]; [exact Hc|].
  destruct (inherits _ _); exact Hc.
Qed.

Lemma hoare_register canvasId cfg :
  hoare (fun w => registry_owns w /\ vacant canvasId w)
        (let! h := new_Chart canvasId cfg in
         let! _ := write_slot canvasId h in
         ret (Some h))%eff
        registry_owns.
Proof. intros w [H Hv]. by apply (owns_after_create w canvasId cfg). Qed.

Lemma hoare_lift_then {A B} (P Q : Page -> Prop) (c : completion A) (k : A -> M Page B) :
  (forall w, P w -> Q w) -> (forall a, hoare P (k a) Q) -> hoare P (bind (lift c) k) Q.
Proof.
  intros HPQ Hk. eapply hoare_bind; [by apply hoare_same|exact HPQ|exact Hk].
Qed.

Lemma create_owns k canvasId forecastData isDarkMode :
  hoare registry_owns (create k canvasId forecastData isDarkMode) registry_owns.
Proof.
  destruct k; cbn [create];
    unfold createTemperatureChart, createHumidityChart, createWindChart.
  all: eapply hoare_bind; [by apply hoare_same|done|]; intros [el|].
  all: try (eapply hoare_bind; [|done|intro; by apply hoare_same];
            intros w H; exact H).
  all: try by apply hoare_same.
  all: eapply hoare_bind; [apply hoare_destroy_existing|by intros ? [? ?]|]; intros _.
  all: repeat (apply hoare_lift_then; [by intros ? [? ?]|]; intro).
  - eapply hoare_bind;
      [apply hoare_same; by destruct el|by intros ? [? ?]|intros _; apply hoare_register].
  - apply hoare_register.
  - apply hoare_register.
Qed.

Lemma updateChart_owns canvasId newData :
  hoare registry_owns (updateChart canvasId newData) registry_owns.
Proof.
  intros w [Ha Hb]. unfold updateChart, bind, read_slot.
  destruct (chartInstances w !! canvasId) as [h|];
    [|destruct (inherits _ _);
      [unfold assign_data_inherited; destruct (String.eqb _ _)|]; by split].
  unfold chart_set_data_update. cbn [snd]. unfold registry_owns.
  cbn [charts chartInstances set_charts]. split.
  - intros h' c' Hc' Hlive.
    destruct (decide (h' = h)) as [->|Hne].
    + rewrite lookup_alter_eq in Hc'.
      destruct (charts w !! h) as [c|] eqn:Hc; [|discriminate].
      cbn in Hc'. injection Hc' as <-. by apply (Ha h c).
    + rewrite lookup_alter_ne in Hc' by done. by apply Ha.
  - intros id' h' Hid'. destruct (Hb _ _ Hid') as (c & Hc & Hcan).
    destruct (decide (h' = h)) as [->|Hne].
    + exists (bind_data newData c). rewrite lookup_alter_eq, Hc. done.
    + exists c. by rewrite lookup_alter_ne.
Qed.

Lemma destroyChart_run w canvasId h :
  chartInstances w !! canvasId = Some h ->
  destroyChart canvasId w = (Return tt, after_destroyChart w canvasId h).
Proof. intros H. unfold destroyChart, bind, read_slot. by rewrite H. Qed.

Lemma destroyChart_owns canvasId :
  hoare registry_owns (destroyChart canvasId) registry_owns.
Proof.
  intros w H. unfold destroyChart, bind, read_slot.
  destruct (chartInstances w !! canvasId) as [h|] eqn:Hreg;
    [|destruct (inherits _ _); exact H].
  destruct (owns_after_destroy w canvasId h H Hreg) as [[Ha Hb] Hv].
  cbn -[after_destroy] in *. fold (after_destroy w h). split.
  - intros h' c' Hc' Hlive. cbn [chartInstances set_chartInstances].
    rewrite lookup_delete_ne; [by apply Ha|].
    intros Heq. specialize (Hv _ _ Hc' (eq_sym Heq)). congruence.
  - intros id' h' Hid'. cbn [chartInstances set_chartInstances] in Hid'.
    apply lookup_delete_Some in Hid' as [_ Hid']. by apply Hb.
Qed.

Lemma destroyAllCharts_owns :
  hoare registry_owns destroyAllCharts registry_owns.
Proof.
  unfold destroyAllCharts. eapply hoare_bind; [by apply hoare_same|done|].
  intros ids. apply hoare_forEach, destroyChart_owns.
Qed.

(** ** Releasing every chart *)

Lemma mark_destroyed_twice c : mark_destroyed (mark_destroyed c) = mark_destroyed c.
Proof. reflexivity. Qed.

Lemma destroy_each ids w :
  NoDup ids -> (forall id, id ∈ ids -> is_Some (chartInstances w !! id)) ->
  exists w',
    forEach destroyChart ids w = (Return tt, w')
    /\ (forall id, chartInstances w' !! id
                   = if bool_decide (id ∈ ids) then None else chartInstances w !! id)
    /\ (forall h, charts w' !! h
                  = if bool_decide (h ∈ handles_of w ids)
                    then mark_destroyed <$> charts w !! h else charts w !! h)
    /\ trace w' = trace w ++ map Destroyed (handles_of w ids)
    /\ document w' = document w /\ console w' = console w.
Proof.
  revert w. induction ids as [|id ids IH]; intros w Hnd Hown.
  - exists w. split; [reflexivity|]. repeat split; try done.
    cbn. by rewrite app_nil_r.
  - apply NoDup_cons in Hnd as [Hnotin Hnd].
    destruct (Hown id ltac:(left)) as [h Hh].
    cbn [forEach]. unfold bind. rewrite (destroyChart_run _ _ _ Hh).
    set (w1 := after_destroyChart w id h).
    assert (Hreg1 : forall id', id' ∈ ids -> chartInstances w1 !! id' = chartInstances w !! id').
    { intros id' Hin. cbn. apply lookup_delete_ne. intros <-. done. }
    assert (Hhs : handles_of w1 ids = handles_of w ids).
    { unfold handles_of. clear -Hreg1. induction ids as [|x ids IH]; [reflexivity|].
      cbn [omap list_omap]. rewrite Hreg1 by left. rewrite IH; [reflexivity|].
      intros ??. apply Hreg1. by right. }
    destruct (IH w1 Hnd) as (w' & Hrun & Hr & Hc & Ht & Hdoc & Hcon).
    { intros id' Hin. rewrite Hreg1 by done. apply Hown. by right. }
    exists w'. split; [exact Hrun|].
    assert (Hhid : handles_of w (id :: ids) = h :: handles_of w ids).
    { unfold handles_of. cbn [omap list_omap]. by rewrite Hh. }
    rewrite Hhid. split; [|split; [|split; [|split]]].
    + intros x. rewrite Hr. cbn [chartInstances w1 after_destroyChart set_chartInstances].
      destruct (decide (x = id)) as [->|Hne].
      * rewrite (bool_decide_eq_true_2 (id ∈ id :: ids)) by left.
        rewrite lookup_delete_eq. by destruct (bool_decide _).
      * rewrite lookup_delete_ne by done.
        destruct (bool_decide (x ∈ ids)) eqn:E.
        -- apply bool_decide_eq_true in E.
           by rewrite bool_decide_eq_true_2 by (by right).
        -- apply bool_decide_eq_false in E.
           rewrite bool_decide_eq_false_2; [done|].
           intros [?|?]%elem_of_cons; done.
    + intros x. rewrite Hc, Hhs.
      cbn [charts w1 after_destroyChart after_destroy set_chartInstances set_charts].
      destruct (decide (x = h)) as [->|Hne].
      * rewrite (bool_decide_eq_true_2 (h ∈ h :: handles_of w ids)) by left.
        rewrite lookup_alter_eq.
        destruct (bool_decide _); destruct (charts w !! h); reflexivity.
      * rewrite lookup_alter_ne by done.
        destruct (bool_decide (x ∈ handles_of w ids)) eqn:E.
        -- apply bool_decide_eq_true in E.
           by rewrite bool_decide_eq_true_2 by (by right).
        -- apply bool_decide_eq_false in E.
           rewrite bool_decide_eq_false_2; [done|].
           intros [?|?]%elem_of_cons; done.
    + rewrite Ht, Hhs. cbn. by rewrite <- app_assoc.
    + by rewrite Hdoc.
    + by rewrite Hcon.
Qed.

Lemma blank_owns doc : registry_owns (blank_page doc).
Proof. split; intros ??; cbn; by rewrite lookup_empty. Qed.

Lemma one_live_chart w h1 h2 c1 c2 :
  registry_owns w ->
  charts w !! h1 = Some c1 -> charts w !! h2 = Some c2 ->
  chart_destroyed c1 = false -> chart_destroyed c2 = false ->
  chart_canvas c1 = chart_canvas c2 -> h1 = h2.
Proof.
  intros [Ha _] H1 H2 L1 L2 Hcan.
  pose proof (Ha _ _ H1 L1) as R1. pose proof (Ha _ _ H2 L2) as R2.
  rewrite Hcan in R1. congruence.
Qed.

Lemma create_replaces w k canvasId el forecastData isDarkMode h :
  registry_owns w ->
  chartInstances w !! canvasId = Some h ->
  document w !! canvasId = Some el ->
  surface_fits k el = true ->
  projectable forecastData = true ->
  exists h' w',
    create k canvasId forecastData isDarkMode w = (Return (Some h'), w')
    /\ trace w' = trace w ++ [Destroyed h; Created h' canvasId]
    /\ released w' h /\ live w' h' /\ h' <> h
    /\ chartInstances w' = <[canvasId := h']> (chartInstances w).
Proof.
  intros [Ha Hb] Hreg Hdoc Hfit Hdata.
  destruct (create_run k w canvasId el forecastData isDarkMode Hdoc Hfit Hdata)
    as (cfg & Hrun); [by rewrite Hreg|].
  unfold cleared in Hrun. rewrite Hreg in Hrun.
  destruct (Hb _ _ Hreg) as (c & Hc & Hcan).
  pose proof (fresh_handle (after_destroy w h)) as Hfresh.
  set (h' := fresh (dom (charts (after_destroy w h)))) in *.
  assert (Hne : h' <> h).
  { intros Heq. rewrite Heq in Hfresh. cbn in Hfresh.
    by rewrite lookup_alter_eq, Hc in Hfresh. }
  eexists h', _. split; [exact Hrun|]. unfold after_create. cbv zeta. fold h'.
  cbn [trace charts chartInstances set_charts set_chartInstances after_destroy].
  split; [by rewrite <- app_assoc|]. split; [|split; [|split; [exact Hne|reflexivity]]].
  - exists (mark_destroyed c). split; [|reflexivity].
    cbn [charts set_charts set_chartInstances after_destroy].
    rewrite lookup_insert_ne by done. by rewrite lookup_alter_eq, Hc.
  - eexists. cbn [charts set_charts set_chartInstances after_destroy].
    rewrite lookup_insert_eq. split; reflexivity.
Qed.

Lemma destroyChart_releases w canvasId h :
  registry_owns w ->
  chartInstances w !! canvasId = Some h ->
  exists w',
    destroyChart canvasId w = (Return tt, w')
    /\ trace w' = trace w ++ [Destroyed h]
    /\ released w' h
    /\ chartInstances w' = delete canvasId (chartInstances w).
Proof.
  intros [_ Hb] Hreg. destruct (Hb _ _ Hreg) as (c & Hc & _).
  eexists. split; [by apply destroyChart_run|].
  split; [reflexivity|]. split; [|reflexivity].
  exists (mark_destroyed c). split; [|reflexivity]. cbn.
  by rewrite lookup_alter_eq, Hc.
Qed.

Lemma destroyAllCharts_releases w :
  registry_owns w ->
  exists w',
    destroyAllCharts w = (Return tt, w')
    /\ chartInstances w' = ∅
    /\ (forall id h, chartInstances w !! id = Some h -> released w' h)
    /\ (forall h, ~ live w' h).
Proof.
  intros [Ha Hb]. unfold destroyAllCharts, bind, registry_keys.
  set (ids := map fst (map_to_list (chartInstances w))).
  assert (Hids : forall id, id ∈ ids <-> is_Some (chartInstances w !! id)).
  { intros id. subst ids. rewrite list_elem_of_fmap. split.
    - intros ([id' h] & -> & Hin). apply elem_of_map_to_list in Hin. by exists h.
    - intros [h Hh]. exists (id, h). split; [reflexivity|]. by apply elem_of_map_to_list. }
  destruct (destroy_each ids w) as (w' & Hrun & Hr & Hc & _).
  { apply NoDup_fst_map_to_list. }
  { intros id. apply Hids. }
  assert (Hin : forall id h, chartInstances w !! id = Some h -> h ∈ handles_of w ids).
  { intros id h Hh. unfold handles_of. apply list_elem_of_omap. exists id.
    split; [|exact Hh]. apply Hids. by exists h. }
  exists w'. split; [exact Hrun|]. split; [|split].
  - apply map_eq. intros id. rewrite Hr, lookup_empty.
    destruct (bool_decide (id ∈ ids)) eqn:E; [reflexivity|].
    apply bool_decide_eq_false in E.
    destruct (chartInstances w !! id) eqn:Hl; [|reflexivity].
    exfalso. apply E, Hids. by eexists.
  - intros id h Hh. destruct (Hb _ _ Hh) as (c & Hch & _).
    exists (mark_destroyed c). split; [|reflexivity].
    rewrite Hc, bool_decide_eq_true_2 by by eapply Hin. by rewrite Hch.
  - intros h (c & Hch & Hlive). rewrite Hc in Hch.
    destruct (bool_decide (h ∈ handles_of w ids)) eqn:E.
    + destruct (charts w !! h); [|discriminate]. cbn in Hch.
      injection Hch as <-. discriminate.
    + apply bool_decide_eq_false in E. apply E.
      eapply Hin. by apply (Ha h c).
Qed.

Lemma reachable_owns w : reachable w -> registry_owns w.
Proof.
  induction 1 as [doc|c w _ IH|doc w _ IH].
  - apply blank_owns.
  - destruct c; cbn [after_call].
    + by apply create_owns.
    + by apply updateChart_owns.
    + by apply destroyChart_owns.
    + by apply destroyAllCharts_owns.
  - exact IH.
Qed.

(** C7. On every page the module can reach from a page without charts, the
    registry owns the charts of the engine: every chart that is not
    released is the one registered under the identifier of its canvas, so
    that an identifier has at most one live handle.  A create call on an
    identifier that holds a handle releases that handle, then creates the
    replacement and stores it.  [destroyChart] releases the handle of its
    identifier and removes the entry; [destroyAllCharts] releases every
    registered handle and leaves the registry empty, with no live chart. *)
Theorem registry_lifecycle :
  (forall w, reachable w -> registry_owns w)
  /\ (forall w h1 h2 c1 c2,
        reachable w ->
        charts w !! h1 = Some c1 -> charts w !! h2 = Some c2 ->
        chart_destroyed c1 = false -> chart_destroyed c2 = false ->
        chart_canvas c1 = chart_canvas c2 -> h1 = h2)
  /\ (forall w k canvasId el forecastData isDarkMode h,
        reachable w ->
        chartInstances w !! canvasId = Some h ->
        document w !! canvasId = Some el ->
        surface_fits k el = true ->
        projectable forecastData = true ->
        exists h' w',
          create k canvasId forecastData isDarkMode w = (Return (Some h'), w')
          /\ trace w' = trace w ++ [Destroyed h; Created h' canvasId]
          /\ released w' h /\ live w' h' /\ h' <> h
          /\ chartInstances w' = <[canvasId := h']> (chartInstances w))
  /\ (forall w canvasId h,
        reachable w ->
        chartInstances w !! canvasId = Some h ->
        exists w',
          destroyChart canvasId w = (Return tt, w')
          /\ trace w' = trace w ++ [Destroyed h]
          /\ released w' h
          /\ chartInstances w' = delete canvasId (chartInstances w))
  /\ (forall w,
        reachable w ->
        exists w',
          destroyAllCharts w = (Return tt, w')
          /\ chartInstances w' = ∅
          /\ (forall id h, chartInstances w !! id = Some h -> released w' h)
          /\ (forall h, ~ live w' h)).
Proof.
  split; [exact reachable_owns|].
  split; [intros w h1 h2 c1 c2 Hw; by apply one_live_chart, reachable_owns|].
  split; [intros w k canvasId el forecastData isDarkMode h Hw;
          by apply create_replaces, reachable_owns|].
  split; [intros w canvasId h Hw; by apply destroyChart_releases, reachable_owns|].
  intros w Hw. by apply destroyAllCharts_releases, reachable_owns.
Qed.

Lemma registry_lifecycle_witness :
  exists h' w',
    createTemperatureChart "cv1" two_days (VBool true) one_chart = (Return (Some h'), w')
    /\ trace w' = [Created 0 "cv1"; Destroyed 0; Created h' "cv1"]
    /\ released w' 0 /\ live w' h' /\ h' <> 0.
Proof.
  destruct registry_lifecycle as (_ & _ & Hreplace & _).
  destruct (Hreplace one_chart Temperature "cv1" Canvas two_days (VBool true) 0)
    as (h' & w' & Hrun & Htrace & Hrel & Hlive & Hne & _).
  - apply (reach_call (CallCreate Temperature "cv1" two_days (VBool false))), reach_blank.
  - vm_compute. reflexivity.
  - vm_compute. reflexivity.
  - reflexivity.
  - reflexivity.
  - exists h', w'. split; [exact Hrun|]. split; [exact Htrace|]. by repeat split.
Defined.

(** Scenarios of the lifecycle. *)

Example update_missing_chart :
  updateChart "missing-id" (VObj []) (blank_page ∅)
  = (Return tt,
     set_console (blank_page ∅) [Diag LWarn "No chart found with id: missing-id" None]).
Proof. reflexivity. Qed.

Example destroy_all_two_charts :
  let doc : gmap string element := {[ "a" := Canvas; "b" := Canvas ]} in
  let w2 := snd (createWindChart "b" two_days VUndefined
                   (snd (createTemperatureChart "a" two_days VUndefined (blank_page doc)))) in
  chartInstances w2 !! "a" = Some 0 /\ chartInstances w2 !! "b" = Some 1
  /\ chartInstances (snd (destroyAllCharts w2)) = ∅
  /\ released (snd (destroyAllCharts w2)) 0
  /\ released (snd (destroyAllCharts w2)) 1.
Proof.
  cbv zeta. split; [vm_compute; reflexivity|]. split; [vm_compute; reflexivity|].
  set (w2 := snd (createWindChart _ _ _ _)).
  assert (Hw2 : reachable w2).
  { apply (reach_call (CallCreate Wind "b" two_days VUndefined)),
      (reach_call (CallCreate Temperature "a" two_days VUndefined)), reach_blank. }
  destruct (destroyAllCharts_releases w2 (reachable_owns _ Hw2)) as (w' & Hrun & He & Hrel & _).
  rewrite Hrun. cbn [snd]. split; [exact He|].
  split; [apply (Hrel "a")|apply (Hrel "b")]; vm_compute; reflexivity.
Qed.

(** ** What a builder hands to the engine *)

Lemma mapM_field k l :
  forallb (fun day => match day with VUndefined | VNull => false | _ => true end) l = true ->
  mapM (fun day => get day k) l = Return (map (field k) l).
Proof.
  induction l as [|d l IH]; [reflexivity|].
  cbn [forallb mapM map]. intros [Hd Hl]%andb_prop. rewrite (IH Hl).
  unfold field. by destruct d.
Qed.

Lemma day_field_run k days :
  projectable (VArr days) = true -> day_field k (VArr days) = Return (map (field k) days).
Proof. apply mapM_field. Qed.

Lemma precipitation_run days :
  projectable (VArr days) = true ->
  call_map (VArr days) (fun day =>
    cbind (get day "precipitation") (fun p =>
    Return (if truthy p then p else VNum (number_of_Z 0))))
  = Return (map precipitation_or_zero days).
Proof.
  cbn [projectable call_map]. induction days as [|d l IH]; [reflexivity|].
  cbn [forallb mapM map]. intros [Hd Hl]%andb_prop. rewrite (IH Hl).
  unfold precipitation_or_zero, field. by destruct d.
Qed.

Lemma create_run_config (k : kind) (w : Page) (canvasId : string) (el : element)
    (days : list value) (isDarkMode : value) :
  document w !! canvasId = Some el ->
  surface_fits k el = true ->
  projectable (VArr days) = true ->
  (chartInstances w !! canvasId = None -> inherits w canvasId = false) ->
  create k canvasId (VArr days) isDarkMode w
  = (Return (Some (fresh (dom (charts (cleared w canvasId))))),
     after_create (cleared w canvasId) canvasId
       (expected_config k days (param_dark isDarkMode))).
Proof.
  intros Hdoc Hfit Hdata Hown.
  destruct k; cbn [create];
    unfold createTemperatureChart, createHumidityChart, createWindChart.
  - unfold bind at 1. unfold document_getElementById. rewrite Hdoc.
    unfold bind at 1. rewrite (destroy_existing_run _ _ Hown).
    rewrite !(day_field_run _ _ Hdata).
    destruct el; [|discriminate]. reflexivity.
  - unfold bind at 1. unfold document_getElementById. rewrite Hdoc.
    unfold bind at 1. rewrite (destroy_existing_run _ _ Hown).
    rewrite !(day_field_run _ _ Hdata), (precipitation_run _ Hdata). reflexivity.
  - unfold bind at 1. unfold document_getElementById. rewrite Hdoc.
    unfold bind at 1. rewrite (destroy_existing_run _ _ Hown).
    rewrite !(day_field_run _ _ Hdata). reflexivity.
Qed.

(** X23. On a document that has the element, under an identifier that holds
    a chart or that [Object.prototype] provides nothing truthy for (neither
    one of its own names, nor [data] once [updateChart] under [__proto__]
    has defined it), for a forecast that is an array of days none of which
    is [null] or [undefined], a builder hands the engine the configuration
    of its kind: one label per day, the day's date,
    in the order of the forecast, and for each data set one point per day,
    the day's field of that data set; a precipitation that is missing or
    falsy is plotted as 0; the dark flag is the truth value of [isDarkMode],
    false when it is left out.  The chart is registered under the identifier
    and is the handle returned. *)
Theorem create_hands_config (k : kind) (w : Page) (canvasId : string) (el : element)
    (days : list value) (isDarkMode : value) :
  document w !! canvasId = Some el ->
  surface_fits k el = true ->
  projectable (VArr days) = true ->
  (chartInstances w !! canvasId = None -> inherits w canvasId = false) ->
  exists h' w',
    create k canvasId (VArr days) isDarkMode w = (Return (Some h'), w')
    /\ chartInstances w' !! canvasId = Some h'
    /\ charts w' !! h'
       = Some (new_chart canvasId (expected_config k days (param_dark isDarkMode)))
    /\ length (cfg_labels (expected_config k days (param_dark isDarkMode))) = length days
    /\ Forall (fun ds => length (ds_data ds) = length days)
              (cfg_datasets (expected_config k days (param_dark isDarkMode)))
    /\ Forall (fun p => truthy p = true \/ p = VNum (number_of_Z 0))
              (map precipitation_or_zero days).
Proof.
  intros Hdoc Hfit Hdata Hown.
  rewrite (create_run_config k w canvasId el days isDarkMode Hdoc Hfit Hdata Hown).
  eexists _, _. split; [reflexivity|].
  split; [apply lookup_insert_eq|]. split; [apply lookup_insert_eq|].
  split; [|split].
  - destruct k; cbn; apply length_map.
  - destruct k; cbn; repeat constructor; cbn; apply length_map.
  - apply Forall_forall. intros p (day & -> & _)%list_elem_of_fmap.
    unfold precipitation_or_zero. cbv zeta.
    destruct (truthy (field "precipitation" day)) eqn:E; [by left|by right].
Qed.

Lemma create_hands_config_witness :
  exists h' w',
    createHumidityChart "cv1" wet_days VUndefined (blank_page {[ "cv1" := Canvas ]})
    = (Return (Some h'), w')
    /\ charts w' !! h'
       = Some (new_chart "cv1"
                 {| cfg_type := "bar";
                    cfg_labels := [VStr "Mon"; VStr "Tue"];
                    cfg_datasets :=
                      [ {| ds_label := "Humidity (%)";
                           ds_data := [VNum (Dec 80 0); VNum (Dec 55 0)] |};
                        {| ds_label := "Precipitation (mm)";
                           ds_data := [VNum (Dec 25 1); VNum (Dec 0 0)] |} ];
                    cfg_dark := false |}).
Proof.
  destruct (create_hands_config Humidity (blank_page {[ "cv1" := Canvas ]}) "cv1" Canvas
              [ VObj [ ("date", VStr "Mon"); ("humidity", VNum (Dec 80 0));
                       ("precipitation", VNum (Dec 25 1)) ];
                VObj [ ("date", VStr "Tue"); ("humidity", VNum (Dec 55 0)) ] ] VUndefined)
    as (h' & w' & Hrun & _ & Hchart & _).
  - vm_compute. reflexivity.
  - reflexivity.
  - reflexivity.
  - reflexivity.
  - exists h', w'. split; [exact Hrun|exact Hchart].
Defined.

(** ** What a builder leaves alone *)

Lemma cleared_registry w canvasId : chartInstances (cleared w canvasId) = chartInstances w.
Proof. unfold cleared. by destruct (chartInstances w !! canvasId). Qed.

Lemma cleared_console w canvasId : console (cleared w canvasId) = console w.
Proof. unfold cleared. by destruct (chartInstances w !! canvasId). Qed.

Lemma cleared_document w canvasId : document (cleared w canvasId) = document w.
Proof. unfold cleared. by destruct (chartInstances w !! canvasId). Qed.

Lemma cleared_dom w canvasId : dom (charts (cleared w canvasId)) = dom (charts w).
Proof.
  unfold cleared. destruct (chartInstances w !! canvasId) as [h|]; [|reflexivity].
  cbn [charts after_destroy set_charts]. apply dom_alter_L.
Qed.

Lemma cleared_other w canvasId h :
  chartInstances w !! canvasId <> Some h -> charts (cleared w canvasId) !! h = charts w !! h.
Proof.
  intros Hne. unfold cleared. destruct (chartInstances w !! canvasId) as [h0|]; [|reflexivity].
  cbn [charts after_destroy set_charts]. apply lookup_alter_ne. congruence.
Qed.

(** X24. A builder that succeeds touches its own canvas only; it succeeds
    on a document that has the element, for a forecast it can read, under
    an identifier that holds a chart or that [Object.prototype] provides
    nothing truthy for.  The handle it returns is new and names a live chart; the registry entries of the other
    identifiers, every chart but the new one and the one that was registered
    under the identifier, the console and the document are as before.  When
    the identifier held no chart, no chart is released: the engine sees one
    creation and nothing else. *)
Theorem create_touches_its_canvas (k : kind) (w : Page) (canvasId : string) (el : element)
    (forecastData isDarkMode : value) :
  document w !! canvasId = Some el ->
  surface_fits k el = true ->
  projectable forecastData = true ->
  (chartInstances w !! canvasId = None -> inherits w canvasId = false) ->
  exists h' w',
    create k canvasId forecastData isDarkMode w = (Return (Some h'), w')
    /\ charts w !! h' = None
    /\ live w' h'
    /\ (forall id, id <> canvasId -> chartInstances w' !! id = chartInstances w !! id)
    /\ (forall h, h <> h' -> chartInstances w !! canvasId <> Some h ->
                  charts w' !! h = charts w !! h)
    /\ console w' = console w
    /\ document w' = document w
    /\ (chartInstances w !! canvasId = None -> trace w' = trace w ++ [Created h' canvasId]).
Proof.
  intros Hdoc Hfit Hdata Hown.
  destruct (create_run k w canvasId el forecastData isDarkMode Hdoc Hfit Hdata Hown)
    as (cfg & Hrun).
  rewrite Hrun. eexists _, _. split; [reflexivity|].
  set (h' := fresh (dom (charts (cleared w canvasId)))).
  assert (Hfresh : charts w !! h' = None).
  { apply not_elem_of_dom. unfold h'. rewrite cleared_dom. apply is_fresh. }
  split; [exact Hfresh|]. unfold after_create. cbv zeta. fold h'.
  cbn [charts chartInstances console document trace set_charts set_chartInstances].
  split; [|split; [|split; [|split; [|split]]]].
  - eexists. cbn [charts set_charts set_chartInstances].
    rewrite lookup_insert_eq. by split.
  - intros id Hid. rewrite lookup_insert_ne by done. by rewrite cleared_registry.
  - intros h Hh Hreg. rewrite lookup_insert_ne by done. by apply cleared_other.
  - apply cleared_console.
  - apply cleared_document.
  - intros Hnone. unfold cleared. by rewrite Hnone.
Qed.

Lemma create_touches_its_canvas_witness :
  exists h' w',
    createWindChart "b" two_days VUndefined two_canvases = (Return (Some h'), w')
    /\ chartInstances w' !! "cv1" = Some 0
    /\ trace w' = [Created 0 "cv1"; Created h' "b"].
Proof.
  destruct (create_touches_its_canvas Wind two_canvases "b" Canvas two_days VUndefined)
    as (h' & w' & Hrun & _ & _ & Hreg & _ & _ & _ & Htrace).
  - vm_compute. reflexivity.
  - reflexivity.
  - reflexivity.
  - reflexivity.
  - exists h', w'. split; [exact Hrun|]. split.
    + rewrite Hreg by discriminate. vm_compute. reflexivity.
    + rewrite Htrace by (vm_compute; reflexivity). reflexivity.
Defined.

(** ** A forecast that cannot be projected *)

Lemma mapM_get_bad k l :
  forallb (fun day => match day with VUndefined | VNull => false | _ => true end) l = false ->
  mapM (fun day => get day k) l = Throw TypeError.
Proof.
  induction l as [|d l IH]; [discriminate|]. cbn [forallb mapM].
  destruct d; cbn [andb get cbind]; try reflexivity; intros H; by rewrite (IH H).
Qed.

Lemma day_field_bad k data : projectable data = false -> day_field k data = Throw TypeError.
Proof.
  destruct data as [| | | | |l|]; try reflexivity. cbn [projectable]. apply mapM_get_bad.
Qed.

Lemma inherits_standard w id : id ∈ Object_prototype_names -> inherits w id = true.
Proof. intros H. unfold inherits. by rewrite bool_decide_eq_true_2. Qed.

Lemma not_inherits_standard w id : inherits w id = false -> id ∉ Object_prototype_names.
Proof.
  unfold inherits. intros [H _]%orb_false_elim. by apply bool_decide_eq_false in H.
Qed.

Lemma create_inherited k w canvasId el forecastData isDarkMode :
  document w !! canvasId = Some el ->
  chartInstances w !! canvasId = None ->
  inherits w canvasId = true ->
  create k canvasId forecastData isDarkMode w = (Throw TypeError, w).
Proof.
  intros Hdoc Hnone Hin.
  destruct k; cbn [create];
    unfold createTemperatureChart, createHumidityChart, createWindChart;
    unfold bind at 1; unfold document_getElementById; rewrite Hdoc;
    unfold bind at 1; unfold destroy_existing, bind at 1, read_slot;
    by rewrite Hnone, Hin.
Qed.

Lemma create_bad_forecast k w canvasId el forecastData isDarkMode :
  document w !! canvasId = Some el ->
  projectable forecastData = false ->
  (chartInstances w !! canvasId = None -> inherits w canvasId = false) ->
  create k canvasId forecastData isDarkMode w = (Throw TypeError, cleared w canvasId).
Proof.
  intros Hdoc Hdata Hown.
  destruct k; cbn [create];
    unfold createTemperatureChart, createHumidityChart, createWindChart;
    unfold bind at 1; unfold document_getElementById; rewrite Hdoc;
    unfold bind at 1; rewrite (destroy_existing_run _ _ Hown);
    unfold bind at 1; unfold lift; by rewrite (day_field_bad _ _ Hdata).
Qed.

(** X25. When the forecast is not an array, or one of its days is [null] or
    [undefined], a builder throws a [TypeError], and it does so after it
    released the chart registered under the identifier: the registry still
    holds the handle of that released chart, so that a later [updateChart]
    of the identifier updates a released chart.  When the identifier holds
    no chart the page stays as it was. *)
Theorem create_fails_after_release (k : kind) (w : Page) (canvasId : string) (el : element)
    (forecastData isDarkMode : value) :
  document w !! canvasId = Some el ->
  projectable forecastData = false ->
  (forall h c,
     chartInstances w !! canvasId = Some h -> charts w !! h = Some c ->
     exists w',
       create k canvasId forecastData isDarkMode w = (Throw TypeError, w')
       /\ chartInstances w' = chartInstances w
       /\ charts w' !! h = Some (mark_destroyed c)
       /\ trace w' = trace w ++ [Destroyed h]
       /\ forall newData,
            exists w'',
              updateChart canvasId newData w' = (Return tt, w'')
              /\ charts w'' !! h = Some (bind_data newData (mark_destroyed c))
              /\ trace w'' = trace w ++ [Destroyed h; Updated h])
  /\ (chartInstances w !! canvasId = None -> canvasId ∉ Object_prototype_names ->
      create k canvasId forecastData isDarkMode w = (Throw TypeError, w)).
Proof.
  intros Hdoc Hdata. split.
  - intros h c Hreg Hc.
    rewrite (create_bad_forecast k w canvasId el _ _ Hdoc Hdata) by by rewrite Hreg.
    unfold cleared. rewrite Hreg. eexists. split; [reflexivity|].
    cbn [chartInstances charts trace after_destroy set_charts].
    split; [reflexivity|]. split; [by rewrite lookup_alter_eq, Hc|].
    split; [reflexivity|]. intros newData.
    unfold updateChart, bind, read_slot.
    cbn [chartInstances after_destroy set_charts]. rewrite Hreg.
    eexists. split; [reflexivity|].
    cbn [charts trace chart_set_data_update set_charts after_destroy].
    split; [by rewrite !lookup_alter_eq, Hc|by rewrite <- app_assoc].
  - intros Hnone Hown. destruct (inherits w canvasId) eqn:Hin.
    + by apply (create_inherited k w canvasId el).
    + rewrite (create_bad_forecast k w canvasId el _ _ Hdoc Hdata) by done.
      unfold cleared. by rewrite Hnone.
Qed.

Lemma create_fails_after_release_witness :
  exists w',
    createTemperatureChart "cv1" VNull VUndefined one_chart = (Throw TypeError, w')
    /\ chartInstances w' !! "cv1" = Some 0
    /\ released w' 0
    /\ trace w' = [Created 0 "cv1"; Destroyed 0].
Proof.
  destruct (create_fails_after_release Temperature one_chart "cv1" Canvas VNull VUndefined)
    as [Hheld _]; [vm_compute; reflexivity|reflexivity|].
  assert (Hc : exists c, charts one_chart !! 0 = Some c) by (vm_compute; by eexists).
  destruct Hc as [c Hc].
  destruct (Hheld 0 c) as (w' & Hrun & Hreg & Hch & Htrace & _);
    [vm_compute; reflexivity|exact Hc|].
  exists w'. split; [exact Hrun|]. split; [by rewrite Hreg|].
  split; [by exists (mark_destroyed c)|exact Htrace].
Defined.

(** ** Identifiers that name a property of every object *)

Lemma own_names_registered w id h :
  own_names w -> chartInstances w !! id = Some h -> id ∉ Object_prototype_names.
Proof. intros Hown Hreg Hin. specialize (Hown _ Hin). congruence. Qed.

Lemma own_names_insert w id h :
  own_names w -> id ∉ Object_prototype_names ->
  own_names (set_chartInstances w (<[id := h]> (chartInstances w))).
Proof.
  intros Hown Hid id' Hin. cbn [chartInstances set_chartInstances].
  rewrite lookup_insert_ne; [by apply Hown|]. by intros ->.
Qed.

Lemma hoare_register_name canvasId cfg :
  hoare (fun w => own_names w /\ canvasId ∉ Object_prototype_names)
        (bind (new_Chart canvasId cfg) (fun h =>
         bind (write_slot canvasId h) (fun _ => ret (Some h))))
        own_names.
Proof. intros w [Hown Hid]. by apply own_names_insert. Qed.

Lemma create_on_element k canvasId el forecastData isDarkMode w :
  document w !! canvasId = Some el ->
  create k canvasId forecastData isDarkMode w
  = bind (destroy_existing canvasId)
         (fun _ => builder_tail k canvasId el forecastData (param_dark isDarkMode)) w.
Proof.
  intros Hdoc.
  destruct k; cbn [create];
    unfold createTemperatureChart, createHumidityChart, createWindChart;
    unfold bind at 1; unfold document_getElementById; by rewrite Hdoc.
Qed.

Lemma hoare_builder_tail k canvasId el forecastData isDarkMode :
  hoare (fun w => own_names w /\ canvasId ∉ Object_prototype_names)
        (builder_tail k canvasId el forecastData isDarkMode)
        own_names.
Proof.
  destruct k; unfold builder_tail.
  all: repeat (apply hoare_lift_then; [by intros ? [? ?]|]; intro).
  - eapply hoare_bind;
      [apply hoare_same; by destruct el|by intros ? [? ?]
      |intros _; apply hoare_register_name].
  - apply hoare_register_name.
  - apply hoare_register_name.
Qed.

Lemma create_own_names k canvasId forecastData isDarkMode :
  hoare own_names (create k canvasId forecastData isDarkMode) own_names.
Proof.
  intros w Hown.
  destruct (document w !! canvasId) as [el|] eqn:Hdoc.
  - rewrite (create_on_element _ _ _ _ _ _ Hdoc).
    unfold bind at 1. unfold destroy_existing, bind at 1, read_slot.
    destruct (chartInstances w !! canvasId) as [h|] eqn:Hreg.
    + cbn [chart_destroy]. apply hoare_builder_tail.
      split; [exact Hown|by eapply own_names_registered].
    + destruct (inherits w canvasId) eqn:Hin.
      * exact Hown.
      * apply not_inherits_standard in Hin. by apply hoare_builder_tail.
  - destruct k; cbn [create];
      unfold createTemperatureChart, createHumidityChart, createWindChart;
      unfold bind at 1; unfold document_getElementById; rewrite Hdoc; exact Hown.
Qed.

Lemma updateChart_own_names canvasId newData :
  hoare own_names (updateChart canvasId newData) own_names.
Proof.
  intros w Hown. unfold updateChart, bind, read_slot.
  destruct (chartInstances w !! canvasId); [exact Hown|].
  destruct (inherits _ _); [|exact Hown].
  unfold assign_data_inherited. destruct (String.eqb _ _); exact Hown.
Qed.

Lemma destroyChart_own_names canvasId :
  hoare own_names (destroyChart canvasId) own_names.
Proof.
  intros w Hown. unfold destroyChart, bind, read_slot.
  destruct (chartInstances w !! canvasId) as [h|]; [|destruct (inherits _ _); exact Hown].
  intros id Hin. cbn. apply lookup_delete_None. right. by apply Hown.
Qed.

Lemma reachable_own_names w : reachable w -> own_names w.
Proof.
  induction 1 as [doc|c w _ IH|doc w _ IH].
  - intros id _. apply lookup_empty.
  - destruct c; cbn [after_call].
    + by apply create_own_names.
    + by apply updateChart_own_names.
    + by apply destroyChart_own_names.
    + revert IH. apply (hoare_bind own_names own_names own_names);
        [by apply hoare_same|done|]. intros ids. apply hoare_forEach, destroyChart_own_names.
  - exact IH.
Qed.

(** X26. An identifier that is the name of a property of [Object.prototype],
    such as [constructor] or [toString], never holds a chart: on every page
    the module can reach it is not registered, [destroyChart] of it throws a
    [TypeError], and so does each builder when the document has an element
    of that identifier; the page stays as it was. *)
Theorem inherited_names_throw (w : Page) (canvasId : string) :
  reachable w -> canvasId ∈ Object_prototype_names ->
  chartInstances w !! canvasId = None
  /\ destroyChart canvasId w = (Throw TypeError, w)
  /\ forall k el forecastData isDarkMode,
       document w !! canvasId = Some el ->
       create k canvasId forecastData isDarkMode w = (Throw TypeError, w).
Proof.
  intros Hw Hin. pose proof (reachable_own_names w Hw canvasId Hin) as Hnone.
  split; [exact Hnone|]. split.
  - unfold destroyChart, bind, read_slot. rewrite Hnone.
    by rewrite inherits_standard.
  - intros k el forecastData isDarkMode Hdoc.
    apply (create_inherited k w canvasId el); [exact Hdoc|exact Hnone|].
    by apply inherits_standard.
Qed.

Lemma inherited_names_throw_witness :
  destroyChart "constructor" one_chart = (Throw TypeError, one_chart).
Proof.
  apply (inherited_names_throw one_chart "constructor").
  - apply (reach_call (CallCreate Temperature "cv1" two_days (VBool false))), reach_blank.
  - unfold Object_prototype_names. apply elem_of_cons. by left.
Defined.

(** ** Updating and removing *)

(** X27. [updateChart(id, data)] on an identifier that holds a chart binds
    the data to that chart, whether it was released or not, and asks the
    engine for one update; its configuration, every other chart, the
    registry and the console are as before.  On an identifier that holds
    none and that [Object.prototype] provides nothing truthy for, it warns
    and does nothing else.  On an identifier that holds none and is
    inherited from [Object.prototype] it throws a [TypeError], without a
    call of the engine or a warning; under [__proto__] it has by then
    defined the [data] every object inherits, so that the identifier [data]
    is inherited from then on exactly when the data given is truthy; under
    every other identifier the inherited names stay what they were. *)
Theorem updateChart_spec (w : Page) (canvasId : string) (newData : value) :
  (forall h c,
     chartInstances w !! canvasId = Some h -> charts w !! h = Some c ->
     exists w',
       updateChart canvasId newData w = (Return tt, w')
       /\ charts w' !! h = Some (bind_data newData c)
       /\ (forall h', h' <> h -> charts w' !! h' = charts w !! h')
       /\ trace w' = trace w ++ [Updated h]
       /\ chartInstances w' = chartInstances w
       /\ console w' = console w)
  /\ (chartInstances w !! canvasId = None -> inherits w canvasId = false ->
      updateChart canvasId newData w
      = (Return tt, set_console w (console w ++ [no_chart_warning canvasId])))
  /\ (chartInstances w !! canvasId = None -> inherits w canvasId = true ->
      exists w',
        updateChart canvasId newData w = (Throw TypeError, w')
        /\ chartInstances w' = chartInstances w
        /\ trace w' = trace w
        /\ console w' = console w
        /\ (canvasId = "__proto__" -> inherits w' "data" = truthy newData)
        /\ (canvasId <> "__proto__" -> forall id, inherits w' id = inherits w id)).
Proof.
  split; [|split].
  - intros h c Hreg Hc. unfold updateChart, bind, read_slot. rewrite Hreg.
    eexists. split; [reflexivity|]. cbn [charts trace chartInstances console set_charts].
    split; [by rewrite lookup_alter_eq, Hc|].
    split; [intros h' Hne; by apply lookup_alter_ne|]. by repeat split.
  - intros Hnone Hown. unfold updateChart, bind, read_slot. by rewrite Hnone, Hown.
  - intros Hnone Hin. unfold updateChart, bind, read_slot. rewrite Hnone, Hin.
    unfold assign_data_inherited, lift. eexists. split; [reflexivity|].
    destruct (String.eqb canvasId "__proto__") eqn:E.
    + apply String.eqb_eq in E. subst canvasId.
      split; [reflexivity|]. split; [reflexivity|]. split; [reflexivity|].
      split; [intros _; reflexivity|]. by intros [].
    + apply String.eqb_neq in E.
      split; [reflexivity|]. split; [reflexivity|]. split; [reflexivity|].
      split; [by intros ->|]. by intros _ id.
Qed.

Lemma updateChart_spec_witness :
  exists w',
    updateChart "cv1" (VObj [("labels", VArr [])]) one_chart = (Return tt, w')
    /\ trace w' = [Created 0 "cv1"; Updated 0]
    /\ live w' 0.
Proof.
  assert (Hc : exists c, charts one_chart !! 0 = Some c /\ chart_destroyed c = false)
    by (vm_compute; by eexists).
  destruct Hc as (c & Hc & Hlive).
  destruct (updateChart_spec one_chart "cv1" (VObj [("labels", VArr [])])) as [Hheld _].
  destruct (Hheld 0 c) as (w' & Hrun & Hch & _ & Htrace & _);
    [vm_compute; reflexivity|exact Hc|].
  exists w'. split; [exact Hrun|]. split; [exact Htrace|].
  exists (bind_data (VObj [("labels", VArr [])]) c). by split.
Defined.

(** The identifier [data] after [updateChart] on [__proto__] with data that
    is truthy: the registry inherits that data, and the calls on [data]
    throw where they returned before. *)
Example inherited_data_scenario :
  let d := VObj [("labels", VArr [])] in
  let w0 := blank_page {[ "data" := Canvas ]} in
  let w := snd (updateChart "__proto__" d w0) in
  fst (destroyChart "data" w0) = Return tt
  /\ fst (updateChart "__proto__" d w0) = Throw TypeError
  /\ destroyChart "data" w = (Throw TypeError, w)
  /\ updateChart "data" VNull w = (Throw TypeError, w)
  /\ createWindChart "data" two_days VUndefined w = (Throw TypeError, w)
  /\ fst (updateChart "data" VNull (snd (updateChart "__proto__" VNull w)))
     = Return tt.
Proof. cbv zeta. repeat split; vm_compute; reflexivity. Qed.

(** X28. [destroyChart(id)], for an identifier that [Object.prototype]
    provides nothing truthy for, returns; after it the identifier holds no
    chart, a second [destroyChart(id)] changes nothing, and
    [updateChart(id, data)] only warns.  On an identifier that holds no
    chart the first call changes nothing either. *)
Theorem destroyChart_twice (w : Page) (canvasId : string) (newData : value) :
  inherits w canvasId = false ->
  exists w',
    destroyChart canvasId w = (Return tt, w')
    /\ chartInstances w' !! canvasId = None
    /\ (chartInstances w !! canvasId = None -> w' = w)
    /\ destroyChart canvasId w' = (Return tt, w')
    /\ updateChart canvasId newData w'
       = (Return tt, set_console w' (console w' ++ [no_chart_warning canvasId])).
Proof.
  intros Hown.
  assert (Habsent : forall p : Page,
             chartInstances p !! canvasId = None ->
             inherits p canvasId = false ->
             destroyChart canvasId p = (Return tt, p)
             /\ updateChart canvasId newData p
                = (Return tt, set_console p (console p ++ [no_chart_warning canvasId]))).
  { intros p Hnone Hp. unfold destroyChart, updateChart, bind, read_slot.
    by rewrite Hnone, Hp. }
  destruct (chartInstances w !! canvasId) as [h|] eqn:Hreg.
  - rewrite (destroyChart_run _ _ _ Hreg). eexists. split; [reflexivity|].
    assert (Hgone : chartInstances (after_destroyChart w canvasId h) !! canvasId = None)
      by apply lookup_delete_eq.
    split; [exact Hgone|]. split; [discriminate|]. by apply Habsent.
  - destruct (Habsent w Hreg Hown) as [Hd Hu]. rewrite Hd. eexists. split; [reflexivity|].
    split; [exact Hreg|]. split; [done|]. by split.
Qed.

Lemma destroyChart_twice_witness :
  exists w',
    destroyChart "cv1" one_chart = (Return tt, w')
    /\ destroyChart "cv1" w' = (Return tt, w')
    /\ updateChart "cv1" VNull w'
       = (Return tt, set_console w' (console w' ++ [no_chart_warning "cv1"])).
Proof.
  destruct (destroyChart_twice one_chart "cv1" VNull) as (w' & Hrun & _ & _ & Hagain & Hup).
  - reflexivity.
  - exists w'. split; [exact Hrun|]. split; [exact Hagain|exact Hup].
Defined.

Lemma handles_of_NoDup w ids :
  registry_owns w -> NoDup ids -> NoDup (handles_of w ids).
Proof.
  intros [_ Hb] Hnd. unfold handles_of.
  induction Hnd as [|id ids Hnotin Hnd IH]; [constructor|].
  cbn [omap list_omap]. destruct (chartInstances w !! id) as [h|] eqn:Hreg; [|exact IH].
  apply NoDup_cons. split; [|exact IH].
  intros (id' & Hin & Hreg')%list_elem_of_omap.
  destruct (Hb _ _ Hreg) as (c & Hc & Hcan).
  destruct (Hb _ _ Hreg') as (c' & Hc' & Hcan').
  rewrite Hc in Hc'. injection Hc' as <-. rewrite Hcan in Hcan'. by subst id'.
Qed.

(** X29. [destroyAllCharts()] on a page the module can reach releases every
    registered chart exactly once: the engine sees one release for each
    registered handle and nothing else, the charts that were not registered,
    the console and the document are as before, and a second
    [destroyAllCharts()] changes nothing. *)
Theorem destroyAllCharts_once (w : Page) :
  reachable w ->
  exists hs w',
    destroyAllCharts w = (Return tt, w')
    /\ trace w' = trace w ++ map Destroyed hs
    /\ NoDup hs
    /\ (forall h, h ∈ hs <-> exists id, chartInstances w !! id = Some h)
    /\ (forall h, h ∉ hs -> charts w' !! h = charts w !! h)
    /\ console w' = console w
    /\ document w' = document w
    /\ destroyAllCharts w' = (Return tt, w').
Proof.
  intros Hw. pose proof (reachable_owns w Hw) as Hown.
  unfold destroyAllCharts at 1. unfold bind, registry_keys.
  set (ids := map fst (map_to_list (chartInstances w))).
  assert (Hids : forall id, id ∈ ids <-> is_Some (chartInstances w !! id)).
  { intros id. subst ids. rewrite list_elem_of_fmap. split.
    - intros ([id' h] & -> & Hin). apply elem_of_map_to_list in Hin. by exists h.
    - intros [h Hh]. exists (id, h). split; [reflexivity|]. by apply elem_of_map_to_list. }
  assert (Hnd : NoDup ids) by apply NoDup_fst_map_to_list.
  destruct (destroy_each ids w Hnd) as (w' & Hrun & Hr & Hc & Ht & Hdoc & Hcon).
  { intros id. apply Hids. }
  exists (handles_of w ids), w'. split; [exact Hrun|]. split; [exact Ht|].
  split; [by apply handles_of_NoDup|]. split; [|split; [|split; [|split]]].
  - intros h. unfold handles_of. rewrite list_elem_of_omap. split.
    + intros (id & _ & Hreg). by exists id.
    + intros (id & Hreg). exists id. split; [|exact Hreg]. apply Hids. by exists h.
  - intros h Hh. rewrite Hc. by rewrite bool_decide_eq_false_2.
  - exact Hcon.
  - exact Hdoc.
  - assert (He : chartInstances w' = ∅).
    { apply map_eq. intros id. rewrite Hr, lookup_empty.
      destruct (bool_decide (id ∈ ids)) eqn:E; [reflexivity|].
      apply bool_decide_eq_false in E.
      destruct (chartInstances w !! id) eqn:Hl; [|reflexivity].
      exfalso. apply E, Hids. by eexists. }
    unfold destroyAllCharts, bind, registry_keys. rewrite He, map_to_list_empty.
    reflexivity.
Qed.

Lemma destroyAllCharts_once_witness :
  exists hs w',
    destroyAllCharts one_chart = (Return tt, w')
    /\ trace w' = trace one_chart ++ map Destroyed hs
    /\ NoDup hs
    /\ (forall h, h ∈ hs <-> exists id, chartInstances one_chart !! id = Some h)
    /\ destroyAllCharts w' = (Return tt, w').
Proof.
  destruct (destroyAllCharts_once one_chart)
    as (hs & w' & Hrun & Ht & Hnd & Hhs & _ & _ & _ & Hagain).
  - apply (reach_call (CallCreate Temperature "cv1" two_days (VBool false))), reach_blank.
  - exists hs, w'. by repeat split; try apply Hhs.
Defined.

(** ** What no call undoes *)





















End ChartFacts.
